(** * Multi-headed attention dispatcher of TurboTransformers

    A shallow embedding of [MultiHeadedAttention::operator()]
    (turbo_transformers/layers/multi_headed_attention.cpp) and the
    properties its specification states about it.

    The operator is a sequence of kernel launches over tensors, steered by
    the attention type, the state of the caller's layer cache and four
    flags.  The embedding keeps that shape:

    - a tensor is its metadata (null flag, shape, device) and its contents,
      a flat row-major buffer;
    - the numeric kernels are an interface ([Kernels]); the dispatcher is
      verified for every implementation of it;
    - the caller's memory the call can reach (the output tensor, the
      optional attention-score tensor, the tensors the cache map points to)
      and the objects the call creates with [new] form the state, threaded
      through a state-and-exception monad;
    - a ghost trace records every kernel launch under the profiler label of
      the source, so that "this projection is not performed" is a
      statement about the trace. *)

From Stdlib Require Import ZArith List String Bool Lia.
From stdpp Require Import base gmap strings list fin_maps.

Local Open Scope Z_scope.

(** ** Devices *)

Inductive DeviceKind := HostCPU | Accelerator.

Record DeviceCtx := mkDeviceCtx { dev_type : DeviceKind; dev_id : Z }.

Definition DeviceKind_eqb (a b : DeviceKind) : bool :=
  match a, b with
  | HostCPU, HostCPU | Accelerator, Accelerator => true
  | _, _ => false
  end.

(** Modelled from the spec: [kernels::common::is_same_device_ctx]
    (kernels/common.h).  Two tensors are co-located iff they share device
    kind and id. *)
Definition is_same_device_ctx (a b : DeviceCtx) : bool :=
  DeviceKind_eqb (dev_type a) (dev_type b) && (dev_id a =? dev_id b).

(** ** Scalars handed to kernels

    The single-precision constants of the source are kept symbolic: a
    decimal literal, or the attention scale [1.0f / sqrt(float(n))]. *)

Inductive fconst :=
| FloatLit (mantissa exponent10 : Z)
| InvSqrt (n : Z).

Definition f_one : fconst := FloatLit 1 0.
Definition f_zero : fconst := FloatLit 0 0.
Definition f_1e_6 : fconst := FloatLit 1 (-6).

(** ** Tensors *)

Record Tensor (F : Type) := mkTensor {
  is_null : bool;
  dims : list Z;
  device_ctx : DeviceCtx;
  contents : list F
}.
Arguments mkTensor {F} _ _ _ _.
Arguments is_null {F} _.
Arguments dims {F} _.
Arguments device_ctx {F} _.
Arguments contents {F} _.

Section TensorOps.
Context {F : Type}.

(** [core::Tensor t(nullptr)]. *)
Definition null_tensor : Tensor F :=
  mkTensor true [] (mkDeviceCtx HostCPU 0) [].

Definition n_dim (t : Tensor F) : Z := Z.of_nat (length (dims t)).

Definition device_type (t : Tensor F) : DeviceKind := dev_type (device_ctx t).
Definition device_id (t : Tensor F) : Z := dev_id (device_ctx t).

(** Number of elements of a shape. *)
Definition numel (shape : list Z) : Z := foldr Z.mul 1 shape.

(** Modelled from the spec: [Tensor::Reshape<float>] (core/tensor.h).
    Reshape-in-place reinterprets the metadata; the buffer is kept.
    After a reshape that grows the tensor the contents are unspecified
    in the source; every such reshape of the dispatcher is followed by a
    kernel write or a copy that replaces them. *)
Definition Reshape (t : Tensor F) (shape : list Z)
    (devtype : DeviceKind) (devid : Z) : Tensor F :=
  mkTensor false shape (mkDeviceCtx devtype devid) (contents t).

Definition with_contents (t : Tensor F) (d : list F) : Tensor F :=
  mkTensor (is_null t) (dims t) (device_ctx t) d.

(** Modelled from the spec: [core::Copy<float>(src, dst)] (core/memory.h),
    the copy-to of the data model: the destination, already reshaped,
    receives the contents of the source. *)
Definition Copy (src dst : Tensor F) : Tensor F :=
  with_contents dst (contents src).

(** Modelled from the spec: [Tensor::operator[]] (core/tensor.h), the
    view of the [n]-th sub-tensor along axis 0. *)
Definition subscript (t : Tensor F) (n : Z) : Tensor F :=
  let shape := tail (dims t) in
  let vol := Z.to_nat (numel shape) in
  mkTensor (is_null t) shape (device_ctx t)
           (take vol (drop (Z.to_nat n * vol) (contents t))).

(** Row-major concatenation: [high] outer blocks, each made of [a]
    elements of the first buffer followed by [b] of the second. *)
Fixpoint interleave_blocks (high a b : nat) (d1 d2 : list F) : list F :=
  match high with
  | O => []
  | S n => take a d1 ++ take b d2 ++ interleave_blocks n a b (drop a d1) (drop b d2)
  end.

Definition shapes_agree_except (dim : nat) (s1 s2 : list Z) : bool :=
  bool_decide (dim < length s1)%nat &&
  bool_decide (<[dim := 0]> s1 = <[dim := 0]> s2).

(** Modelled from the spec: [kernels::Concat<float>(t1, t2, dim, out)]
    (kernels/utils.h).  Concatenation on the given axis; the shapes agree
    on the other axes, otherwise there is no result. *)
Definition Concat (t1 t2 : Tensor F) (dim : nat) (out : Tensor F)
    : option (Tensor F) :=
  if shapes_agree_except dim (dims t1) (dims t2) then
    let high := Z.to_nat (numel (take dim (dims t1))) in
    let low := numel (drop (S dim) (dims t1)) in
    let n1 := default 0 (dims t1 !! dim) in
    let n2 := default 0 (dims t2 !! dim) in
    Some (mkTensor false (<[dim := n1 + n2]> (dims t1)) (device_ctx t1)
            (interleave_blocks high (Z.to_nat (n1 * low)) (Z.to_nat (n2 * low))
                        (contents t1) (contents t2)))
  else None.

(** The first [keep] elements of each of [high] blocks of [blk]. *)
Fixpoint take_blocks (high blk keep : nat) (d : list F) : list F :=
  match high with
  | O => []
  | S n => take keep d ++ take_blocks n blk keep (drop blk d)
  end.

(** The first [len] positions of [t] along axis [dim]. *)
Definition narrow (t : Tensor F) (dim : nat) (len : Z) : Tensor F :=
  let high := Z.to_nat (numel (take dim (dims t))) in
  let low := numel (drop (S dim) (dims t)) in
  let n := default 0 (dims t !! dim) in
  mkTensor (is_null t) (<[dim := len]> (dims t)) (device_ctx t)
           (take_blocks high (Z.to_nat (n * low)) (Z.to_nat (len * low))
                        (contents t)).

(** A tensor whose buffer holds exactly the elements of its shape. *)
Definition well_formed (t : Tensor F) : Prop :=
  Forall (fun d => 0 <= d) (dims t) /\
  length (contents t) = Z.to_nat (numel (dims t)).
End TensorOps.

(** ** The kernel facade

    Each kernel receives its operands as in the source, the output tensor
    included (its shape was set by the preceding [Reshape]), and yields
    the new contents of the output. *)

Class Kernels (F : Type) := {
  MatMul : Tensor F -> bool -> Tensor F -> bool -> fconst ->
           Tensor F -> fconst -> list F;
  BatchMatMul : Tensor F -> bool -> Tensor F -> bool -> fconst ->
                Tensor F -> fconst -> list F;
  LayerNorm : Tensor F -> Tensor F -> Tensor F -> fconst -> list F;
  AddBiasTransposeForScore : Tensor F -> Tensor F -> Tensor F -> list F;
  SplitAddBiasTransposeForScore : Tensor F -> Tensor F -> Tensor F -> list F;
  TransposeForScore : Tensor F -> Tensor F -> list F;
  ApplyMaskAndSoftmax : Tensor F -> Tensor F -> fconst -> list F;
  AddBias : Tensor F -> Tensor F -> list F;
  AddBiasLayerNorm : Tensor F -> Tensor F -> Tensor F -> Tensor F ->
                     Tensor F -> fconst -> list F;
  AddInputBias : Tensor F -> Tensor F -> Tensor F -> Tensor F -> list F
}.

(** Modelled from the spec: the default [eps] of
    [kernels::AddBiasLayerNorm] (kernels/layer_norm.h); the call in the
    dispatcher passes none.  LayerNorm's epsilon is fixed at 1e-6. *)
Definition AddBiasLayerNorm_default_eps : fconst := f_1e_6.

(** ** Failures

    Modelled from the spec: the error kinds of the operator.  [TT_ENFORCE_EQ]
    and [TT_THROW] (core/enforce.h) report [InvalidArgument].  [Undefined]
    is not an error of the operator: it marks an execution that leaves
    defined C++ behaviour (a null pointer dereferenced, a shape index out
    of range, a division by zero). *)
Inductive error :=
| InvalidArgument
| InvariantViolation
| ResourceFailure
| Undefined.

Inductive result (A : Type) :=
| Ok (a : A)
| Fail (e : error).
Arguments Ok {A} _.
Arguments Fail {A} _.

(** ** Kernel launches, for the ghost trace *)

Inductive kernel_name :=
| K_MatMul | K_BatchMatMul | K_LayerNorm | K_AddBiasTransposeForScore
| K_SplitAddBiasTransposeForScore | K_TransposeForScore
| K_ApplyMaskAndSoftmax | K_Concat | K_Copy
| K_AddBias | K_AddBiasLayerNorm | K_AddInputBias.

(** A launch, with the profiler section of the source it belongs to and
    the operand that tells the launches of one section apart. *)
Inductive operand := for_q | for_k | for_v | for_qkv | for_out.

Record event := Launch {
  ev_kernel : kernel_name;
  ev_section : string;
  ev_operand : operand
}.

(** ** Pointers

    [AddrOf t] is the address of a call-scoped local tensor, represented
    by the value the local holds from there on (the dispatcher does not
    write [q_out2], [k_out2], [v_out2] after taking their address).
    [CachePtr] is a pointer stored in the layer cache, [HeapPtr] the
    result of [new], [AttScoreArg] and [OutputArg] the caller's objects. *)
Inductive ptr (F : Type) :=
| nullptr
| AddrOf (t : Tensor F)
| CachePtr (slot : string)
| HeapPtr (a : nat)
| AttScoreArg
| OutputArg.
Arguments nullptr {F}.
Arguments AddrOf {F} _.
Arguments CachePtr {F} _.
Arguments HeapPtr {F} _.
Arguments AttScoreArg {F}.
Arguments OutputArg {F}.

(** ** State

    The tensors [layer_cache] points to are distinct objects, distinct
    from [*output] and [*att_score] (the spec forbids the aliasing). The
    map itself is passed by value: only its pointees are shared with the
    caller. *)
Record State (F : Type) := mkState {
  st_output : Tensor F;
  st_att_score : option (Tensor F);
  st_cache : gmap string (Tensor F);
  st_heap : gmap nat (Tensor F);
  st_next : nat;
  st_trace : list event
}.
Arguments mkState {F} _ _ _ _ _ _.
Arguments st_output {F} _.
Arguments st_att_score {F} _.
Arguments st_cache {F} _.
Arguments st_heap {F} _.
Arguments st_next {F} _.
Arguments st_trace {F} _.

(** The weights and the head count: the members of the C++ class. *)
Record MultiHeadedAttention (F : Type) := mkMultiHeadedAttention {
  k_weight_ : Tensor F;
  k_bias_ : Tensor F;
  v_weight_ : Tensor F;
  v_bias_ : Tensor F;
  q_weight_ : Tensor F;
  q_bias_ : Tensor F;
  dense_weight_ : Tensor F;
  dense_bias_ : Tensor F;
  qkv_weight_ : Tensor F;
  qkv_bias_ : Tensor F;
  layernorm_gamma_ : Tensor F;
  layernorm_beta_ : Tensor F;
  num_attention_heads_ : Z
}.
Arguments k_weight_ {F} _.
Arguments k_bias_ {F} _.
Arguments v_weight_ {F} _.
Arguments v_bias_ {F} _.
Arguments q_weight_ {F} _.
Arguments q_bias_ {F} _.
Arguments dense_weight_ {F} _.
Arguments dense_bias_ {F} _.
Arguments qkv_weight_ {F} _.
Arguments qkv_bias_ {F} _.
Arguments layernorm_gamma_ {F} _.
Arguments layernorm_beta_ {F} _.
Arguments num_attention_heads_ {F} _.

(** ** The state-and-exception monad

    A failure keeps the state reached: an exception does not undo the
    writes made before it. *)

Definition M (F A : Type) : Type := State F -> result A * State F.

Definition ret {F A} (a : A) : M F A := fun s => (Ok a, s).

Definition bind {F A B} (m : M F A) (k : A -> M F B) : M F B :=
  fun s =>
    match m s with
    | (Ok a, s') => k a s'
    | (Fail e, s') => (Fail e, s')
    end.

Definition throw {F A} (e : error) : M F A := fun s => (Fail e, s).

Declare Scope mha_scope.
Delimit Scope mha_scope with mha.
Notation "x <- c1 ;; c2" := (bind c1 (fun x => c2))
  (at level 100, c1 at next level, right associativity) : mha_scope.
Notation "c1 ;; c2" := (bind c1 (fun _ => c2))
  (at level 100, right associativity) : mha_scope.
Local Open Scope mha_scope.

(** Modelled from the spec: [TT_ENFORCE_EQ] and [TT_THROW] (core/enforce.h);
    a failed check is reported as [InvalidArgument] and never recovered. *)
Definition TT_ENFORCE_EQ {F A} `{EqDecision A} (a b : A) : M F unit :=
  if bool_decide (a = b) then ret tt else throw InvalidArgument.

Definition TT_THROW {F A} : M F A := throw InvalidArgument.

Section Primitives.
Context {F : Type}.

(** [t.shape(pos)]; reading an axis the tensor does not have is
    undefined. *)
Definition shape (t : Tensor F) (pos : nat) : M F Z :=
  match dims t !! pos with
  | Some d => ret d
  | None => throw Undefined
  end.

(** Integer division of the source, truncating; by zero it is
    undefined. *)
Definition int_div (a b : Z) : M F Z :=
  if b =? 0 then throw Undefined else ret (Z.quot a b).

Definition log (e : event) : M F unit :=
  fun s => (Ok tt, mkState (st_output s) (st_att_score s) (st_cache s)
                           (st_heap s) (st_next s) (st_trace s ++ [e])).

(** A kernel launch that fills the call-scoped tensor [out]. *)
Definition launch (e : event) (out : Tensor F) (d : list F) : M F (Tensor F) :=
  log e ;; ret (with_contents out d).

(** [layer_cache[slot]]: the stored pointer, or the null pointer that
    [operator[]] inserts for an absent key. *)
Definition layer_cache_at (slot : string) : M F (ptr F) :=
  fun s =>
    match st_cache s !! slot with
    | Some _ => (Ok (CachePtr slot), s)
    | None => (Ok nullptr, s)
    end.

Definition load (p : ptr F) : M F (Tensor F) :=
  fun s =>
    match p with
    | nullptr => (Fail Undefined, s)
    | AddrOf t => (Ok t, s)
    | CachePtr slot =>
        match st_cache s !! slot with
        | Some t => (Ok t, s)
        | None => (Fail Undefined, s)
        end
    | HeapPtr a =>
        match st_heap s !! a with
        | Some t => (Ok t, s)
        | None => (Fail Undefined, s)
        end
    | AttScoreArg =>
        match st_att_score s with
        | Some t => (Ok t, s)
        | None => (Fail Undefined, s)
        end
    | OutputArg => (Ok (st_output s), s)
    end.

Definition store (p : ptr F) (t : Tensor F) : M F unit :=
  fun s =>
    match p with
    | nullptr | AddrOf _ => (Fail Undefined, s)
    | CachePtr slot =>
        match st_cache s !! slot with
        | Some _ =>
            (Ok tt, mkState (st_output s) (st_att_score s)
                            (<[slot := t]> (st_cache s))
                            (st_heap s) (st_next s) (st_trace s))
        | None => (Fail Undefined, s)
        end
    | HeapPtr a =>
        match st_heap s !! a with
        | Some _ =>
            (Ok tt, mkState (st_output s) (st_att_score s) (st_cache s)
                            (<[a := t]> (st_heap s)) (st_next s) (st_trace s))
        | None => (Fail Undefined, s)
        end
    | AttScoreArg =>
        match st_att_score s with
        | Some _ =>
            (Ok tt, mkState (st_output s) (Some t) (st_cache s)
                            (st_heap s) (st_next s) (st_trace s))
        | None => (Fail Undefined, s)
        end
    | OutputArg =>
        (Ok tt, mkState t (st_att_score s) (st_cache s)
                        (st_heap s) (st_next s) (st_trace s))
    end.

(** [new core::Tensor(t)]. *)
Definition new_Tensor (t : Tensor F) : M F (ptr F) :=
  fun s =>
    (Ok (HeapPtr (st_next s)),
     mkState (st_output s) (st_att_score s) (st_cache s)
             (<[st_next s := t]> (st_heap s)) (S (st_next s)) (st_trace s)).

(** [delete p]. *)
Definition delete_Tensor (p : ptr F) : M F unit :=
  fun s =>
    match p with
    | HeapPtr a =>
        match st_heap s !! a with
        | Some _ =>
            (Ok tt, mkState (st_output s) (st_att_score s) (st_cache s)
                            (delete a (st_heap s)) (st_next s) (st_trace s))
        | None => (Fail Undefined, s)
        end
    | _ => (Fail Undefined, s)
    end.

(** [p->Reshape<float>(shape, devtype, devid)]. *)
Definition Reshape_at (p : ptr F) (shp : list Z)
    (devtype : DeviceKind) (devid : Z) : M F unit :=
  t <- load p ;; store p (Reshape t shp devtype devid).

(** A kernel launch that fills the tensor [p] points to; [k] receives
    that tensor as the kernel does. *)
Definition launch_at (e : event) (p : ptr F) (k : Tensor F -> list F)
    : M F unit :=
  t <- load p ;; log e ;; store p (with_contents t (k t)).

(** The liveness flags, set by one pass over the cache map. *)
Record cache_flags := mkFlags {
  memory_keys_not_none : bool;
  memory_values_not_none : bool;
  self_keys_not_none : bool;
  self_values_not_none : bool
}.

Definition scan_entry (fl : cache_flags) (it : string * Tensor F)
    : cache_flags :=
  let hit (key : string) (b : bool) :=
    if bool_decide (it.1 = key) && negb (is_null it.2) then true else b in
  mkFlags (hit "memory_keys"%string (memory_keys_not_none fl))
          (hit "memory_values"%string (memory_values_not_none fl))
          (hit "self_keys"%string (self_keys_not_none fl))
          (hit "self_values"%string (self_values_not_none fl)).

Definition scan_cache (layer_cache : gmap string (Tensor F)) : cache_flags :=
  foldl scan_entry (mkFlags false false false false) (map_to_list layer_cache).

(** A cache tensor is live iff it is in the map and not null. *)
Definition live (layer_cache : gmap string (Tensor F)) (slot : string) : bool :=
  match layer_cache !! slot with
  | Some t => negb (is_null t)
  | None => false
  end.
End Primitives.

(** ** The dispatcher *)

Section Dispatcher.
Context {F : Type} `{Kernels F}.
Variable self : MultiHeadedAttention F.

(** [EnforceShapeAndType] only prints the weights, at verbosity 3 and
    above; it checks nothing. *)
Definition EnforceShapeAndType : M F unit := ret tt.

(** Lines 114-225: the [attn_type == "context"] branch.  Yields
    [(q_ptr, k_ptr, v_ptr)]. *)
Definition context_branch
    (key_tensor value_tensor query_tensor : Tensor F)
    (pre_layernorm is_trans_weight : bool)
    (batch_size query_seq_length key_seq_length hidden_size size_per_head : Z)
    (devtype : DeviceKind) (devid : Z)
    (layer_cache_not_none memory_not_none : bool)
    : M F (ptr F * ptr F * ptr F) :=
  let H_ := num_attention_heads_ self in
  TT_ENFORCE_EQ (is_same_device_ctx (device_ctx query_tensor)
                                    (device_ctx value_tensor)) true ;;
  TT_ENFORCE_EQ (is_same_device_ctx (device_ctx query_tensor)
                                    (device_ctx key_tensor)) true ;;
  let q_out1 := Reshape null_tensor
                  [batch_size; query_seq_length; hidden_size] devtype devid in
  let q_out2 := null_tensor in
  qq <- (if pre_layernorm then
           let q_out2 := Reshape q_out2
                  [batch_size; query_seq_length; hidden_size] devtype devid in
           q_out2 <- launch (Launch K_Copy "context/gemm0" for_q) q_out2
                       (contents (Copy query_tensor q_out2)) ;;
           q_out2 <- launch (Launch K_LayerNorm "context/gemm0" for_q) q_out2
                       (LayerNorm (layernorm_gamma_ self) (layernorm_beta_ self)
                                  q_out2 f_1e_6) ;;
           q_out1 <- launch (Launch K_MatMul "context/gemm0" for_q) q_out1
                       (MatMul q_out2 false (q_weight_ self) is_trans_weight
                               f_one q_out1 f_zero) ;;
           ret (q_out1, q_out2)
         else
           q_out1 <- launch (Launch K_MatMul "context/gemm0" for_q) q_out1
                       (MatMul query_tensor false (q_weight_ self)
                               is_trans_weight f_one q_out1 f_zero) ;;
           ret (q_out1, q_out2)) ;;
  let q_out1 := Reshape qq.1
                  [batch_size; query_seq_length; H_; size_per_head]
                  devtype devid in
  let q_out2 := Reshape qq.2
                  [batch_size; H_; query_seq_length; size_per_head]
                  devtype devid in
  q_out2 <- launch (Launch K_AddBiasTransposeForScore
                           "context/AddBiasTransposeForScore" for_q) q_out2
              (AddBiasTransposeForScore q_out1 (q_bias_ self) q_out2) ;;
  let q_ptr := AddrOf q_out2 in
  if memory_not_none then
    v_ptr <- layer_cache_at "memory_values" ;;
    k_ptr <- layer_cache_at "memory_keys" ;;
    ret (q_ptr, k_ptr, v_ptr)
  else
    let v_out1 := Reshape null_tensor
                    [batch_size; key_seq_length; hidden_size] devtype devid in
    let k_out1 := Reshape null_tensor
                    [batch_size; key_seq_length; hidden_size] devtype devid in
    k_out1 <- launch (Launch K_MatMul "context/gemm12" for_k) k_out1
                (MatMul key_tensor false (k_weight_ self) is_trans_weight
                        f_one k_out1 f_zero) ;;
    v_out1 <- launch (Launch K_MatMul "context/gemm12" for_v) v_out1
                (MatMul value_tensor false (v_weight_ self) is_trans_weight
                        f_one v_out1 f_zero) ;;
    let v_out1 := Reshape v_out1
                    [batch_size; key_seq_length; H_; size_per_head]
                    devtype devid in
    let k_out1 := Reshape k_out1
                    [batch_size; key_seq_length; H_; size_per_head]
                    devtype devid in
    if layer_cache_not_none then
      mk <- layer_cache_at "memory_keys" ;;
      Reshape_at mk [batch_size; H_; key_seq_length; size_per_head]
                 devtype devid ;;
      mv <- layer_cache_at "memory_values" ;;
      Reshape_at mv [batch_size; H_; key_seq_length; size_per_head]
                 devtype devid ;;
      mv <- layer_cache_at "memory_values" ;;
      launch_at (Launch K_AddBiasTransposeForScore
                        "context/AddBiasTransposeForScorex2" for_v) mv
                (fun out => AddBiasTransposeForScore v_out1 (v_bias_ self) out) ;;
      mk <- layer_cache_at "memory_keys" ;;
      launch_at (Launch K_AddBiasTransposeForScore
                        "context/AddBiasTransposeForScorex2" for_k) mk
                (fun out => AddBiasTransposeForScore k_out1 (k_bias_ self) out) ;;
      v_ptr <- layer_cache_at "memory_values" ;;
      k_ptr <- layer_cache_at "memory_keys" ;;
      ret (q_ptr, k_ptr, v_ptr)
    else
      let v_out2 := Reshape null_tensor
                      [batch_size; H_; key_seq_length; size_per_head]
                      devtype devid in
      let k_out2 := Reshape null_tensor
                      [batch_size; H_; key_seq_length; size_per_head]
                      devtype devid in
      v_out2 <- launch (Launch K_AddBiasTransposeForScore
                               "context/AddBiasTransposeForScorex2" for_v)
                  v_out2 (AddBiasTransposeForScore v_out1 (v_bias_ self) v_out2) ;;
      k_out2 <- launch (Launch K_AddBiasTransposeForScore
                               "context/AddBiasTransposeForScorex2" for_k)
                  k_out2 (AddBiasTransposeForScore k_out1 (k_bias_ self) k_out2) ;;
      ret (q_ptr, AddrOf k_out2, AddrOf v_out2).

(** [kernels::Concat<float>] of the tensor [layer_cache[slot]] points to
    and the fresh projection, on axis 2. *)
Definition concat_with_cache (slot : string) (section : string)
    (o : operand) (fresh out : Tensor F) : M F (Tensor F) :=
  p <- layer_cache_at slot ;;
  cached <- load p ;;
  match Concat cached fresh 2 out with
  | Some t => log (Launch K_Concat section o) ;; ret t
  | None => throw InvalidArgument
  end.

(** Lines 226-300: the [attn_type == "self"] branch.  Neither
    [key_tensor] nor [value_tensor] occurs in it. *)
Definition self_branch
    (query_tensor : Tensor F)
    (pre_layernorm is_trans_weight : bool)
    (batch_size query_seq_length hidden_size size_per_head : Z)
    (devtype : DeviceKind) (devid : Z)
    (layer_cache_not_none self_keys_live self_values_live : bool)
    : M F (ptr F * ptr F * ptr F) :=
  let H_ := num_attention_heads_ self in
  let qkv_out1 := Reshape null_tensor
                    [3; batch_size; query_seq_length; hidden_size]
                    devtype devid in
  qkv_out1 <- (if pre_layernorm then
                 let layernormed_query :=
                   Reshape null_tensor
                     [batch_size; query_seq_length; hidden_size]
                     devtype devid in
                 layernormed_query <-
                   launch (Launch K_Copy "self/gemm012_fused" for_qkv)
                     layernormed_query
                     (contents (Copy query_tensor layernormed_query)) ;;
                 layernormed_query <-
                   launch (Launch K_LayerNorm "self/gemm012_fused" for_qkv)
                     layernormed_query
                     (LayerNorm (layernorm_gamma_ self) (layernorm_beta_ self)
                                layernormed_query f_1e_6) ;;
                 launch (Launch K_MatMul "self/gemm012_fused" for_qkv) qkv_out1
                   (MatMul layernormed_query false (qkv_weight_ self)
                           is_trans_weight f_one qkv_out1 f_zero)
               else
                 launch (Launch K_MatMul "self/gemm012_fused" for_qkv) qkv_out1
                   (MatMul query_tensor false (qkv_weight_ self)
                           is_trans_weight f_one qkv_out1 f_zero)) ;;
  let qkv_out2 := Reshape null_tensor
                    [3; batch_size; H_; query_seq_length; size_per_head]
                    devtype devid in
  qkv_out2 <- launch (Launch K_SplitAddBiasTransposeForScore
                             "self/SplitAddBiasTransposeForScore" for_qkv)
                qkv_out2
                (SplitAddBiasTransposeForScore qkv_out2 qkv_out1
                                               (qkv_bias_ self)) ;;
  q_ptr <- new_Tensor (subscript qkv_out2 0) ;;
  let k_out2 := null_tensor in
  let v_out2 := null_tensor in
  k_ptr <- (if self_keys_live then
              k_out2 <- concat_with_cache "self_keys" "self/concat0" for_k
                          (subscript qkv_out2 1) k_out2 ;;
              ret (AddrOf k_out2)
            else new_Tensor (subscript qkv_out2 1)) ;;
  v_ptr <- (if self_values_live then
              v_out2 <- concat_with_cache "self_values" "self/concat1" for_v
                          (subscript qkv_out2 2) v_out2 ;;
              ret (AddrOf v_out2)
            else new_Tensor (subscript qkv_out2 2)) ;;
  (if layer_cache_not_none then
     sk <- layer_cache_at "self_keys" ;;
     k <- load k_ptr ;;
     k_len <- shape k 2 ;;
     Reshape_at sk [batch_size; H_; k_len; size_per_head] devtype devid ;;
     sv <- layer_cache_at "self_values" ;;
     v <- load v_ptr ;;
     v_len <- shape v 2 ;;
     Reshape_at sv [batch_size; H_; v_len; size_per_head] devtype devid ;;
     k <- load k_ptr ;;
     sk <- layer_cache_at "self_keys" ;;
     launch_at (Launch K_Copy "self/copy2" for_k) sk
               (fun dst => contents (Copy k dst)) ;;
     v <- load v_ptr ;;
     sv <- layer_cache_at "self_values" ;;
     launch_at (Launch K_Copy "self/copy2" for_v) sv
               (fun dst => contents (Copy v dst))
   else ret tt) ;;
  ret (q_ptr, k_ptr, v_ptr).

(** Lines 385-398: bias, residual and LayerNorm fused after the dense
    projection. *)
Definition output_fusion (query_tensor : Tensor F) (output : ptr F)
    (post_layernorm post_add_input : bool) : M F unit :=
  if negb post_add_input then
    if negb post_layernorm then
      launch_at (Launch K_AddBias "AddBias" for_out) output
                (fun out => AddBias (dense_bias_ self) out)
    else
      launch_at (Launch K_AddBiasLayerNorm "AddBias" for_out) output
                (fun out => AddBiasLayerNorm query_tensor (dense_bias_ self)
                              (layernorm_gamma_ self) (layernorm_beta_ self)
                              out AddBiasLayerNorm_default_eps)
  else
    launch_at (Launch K_AddInputBias "AddBias" for_out) output
              (fun out => AddInputBias out query_tensor (dense_bias_ self) out).

(** Lines 313-402: scores, masked softmax, context gather, dense
    projection, output fusion, release of a call-scoped [att_score]. *)
Definition scoring
    (query_tensor attention_mask : Tensor F)
    (output att_score : ptr F)
    (post_layernorm post_add_input is_trans_weight : bool)
    (batch_size query_seq_length hidden_size size_per_head : Z)
    (devtype : DeviceKind) (devid : Z)
    (q_ptr k_ptr v_ptr : ptr F) : M F unit :=
  let H_ := num_attention_heads_ self in
  k <- load k_ptr ;;
  key_seq_length <- shape k 2 ;;
  sink <- (match att_score with
           | nullptr => p <- new_Tensor null_tensor ;; ret (p, false)
           | _ => ret (att_score, true)
           end) ;;
  let att_score := sink.1 in
  let is_return_att_score := sink.2 in
  Reshape_at att_score [batch_size; H_; query_seq_length; key_seq_length]
             devtype devid ;;
  let scaler := InvSqrt size_per_head in
  q <- load q_ptr ;;
  k <- load k_ptr ;;
  launch_at (Launch K_BatchMatMul "batch_gemm3/compute" for_out) att_score
            (fun out => BatchMatMul q false k true scaler out f_zero) ;;
  launch_at (Launch K_ApplyMaskAndSoftmax "ApplyMaskAndSoftmax" for_out)
            att_score
            (fun out => ApplyMaskAndSoftmax out attention_mask f_one) ;;
  let context_layer := Reshape null_tensor
                         [batch_size; H_; query_seq_length; size_per_head]
                         devtype devid in
  a <- load att_score ;;
  v <- load v_ptr ;;
  context_layer <- launch (Launch K_BatchMatMul "batch_gemm4" for_out)
                     context_layer
                     (BatchMatMul a false v false f_one context_layer f_zero) ;;
  let self_attr_out := Reshape null_tensor
                         [batch_size; query_seq_length; H_ * size_per_head]
                         devtype devid in
  self_attr_out <- launch (Launch K_TransposeForScore "TransposeForScore" for_out)
                     self_attr_out
                     (TransposeForScore self_attr_out context_layer) ;;
  Reshape_at output [batch_size; query_seq_length; hidden_size]
             devtype devid ;;
  launch_at (Launch K_MatMul "gemm5" for_out) output
            (fun out => MatMul self_attr_out false (dense_weight_ self)
                               is_trans_weight f_one out f_zero) ;;
  output_fusion query_tensor output post_layernorm post_add_input ;;
  if negb is_return_att_score then delete_Tensor att_score else ret tt.

(** What the first half of the operator hands to the scoring: the sizes
    read off [query_tensor] and the three operand pointers. *)
Record dispatched := mkDispatched {
  d_batch_size : Z;
  d_query_seq_length : Z;
  d_hidden_size : Z;
  d_size_per_head : Z;
  d_q_ptr : ptr F;
  d_k_ptr : ptr F;
  d_v_ptr : ptr F
}.

(** Lines 94-303: the cache binding and the projection of the selected
    branch. *)
Definition projection_stage
    (key_tensor value_tensor query_tensor : Tensor F)
    (attn_type : string) (pre_layernorm is_trans_weight : bool)
    (batch_size query_seq_length key_seq_length hidden_size size_per_head : Z)
    (devtype : DeviceKind) (devid : Z)
    : M F dispatched :=
  fun s =>
    let layer_cache := st_cache s in
    let layer_cache_not_none := bool_decide (0 < size layer_cache)%nat in
    let fl := if layer_cache_not_none then scan_cache layer_cache
              else mkFlags false false false false in
    let memory_not_none :=
      memory_values_not_none fl && memory_keys_not_none fl in
    (ptrs <- (if bool_decide (attn_type = "context"%string) then
                context_branch key_tensor value_tensor query_tensor
                  pre_layernorm is_trans_weight
                  batch_size query_seq_length key_seq_length hidden_size
                  size_per_head devtype devid
                  layer_cache_not_none memory_not_none
              else if bool_decide (attn_type = "self"%string) then
                self_branch query_tensor pre_layernorm is_trans_weight
                  batch_size query_seq_length hidden_size size_per_head
                  devtype devid layer_cache_not_none
                  (self_keys_not_none fl) (self_values_not_none fl)
              else TT_THROW) ;;
     ret (mkDispatched batch_size query_seq_length hidden_size size_per_head
                       ptrs.1.1 ptrs.1.2 ptrs.2)) s.

(** Lines 48-303: the guard, the sizes, then the projection. *)
Definition dispatch
    (key_tensor value_tensor query_tensor : Tensor F)
    (attn_type : string) (pre_layernorm is_trans_weight : bool)
    : M F dispatched :=
  TT_ENFORCE_EQ (n_dim key_tensor) 3 ;;
  TT_ENFORCE_EQ (n_dim value_tensor) 3 ;;
  TT_ENFORCE_EQ (n_dim query_tensor) 3 ;;
  key_batch <- shape key_tensor 0 ;;
  value_batch <- shape value_tensor 0 ;;
  TT_ENFORCE_EQ key_batch value_batch ;;
  EnforceShapeAndType ;;
  batch_size <- shape query_tensor 0 ;;
  query_seq_length <- shape query_tensor 1 ;;
  key_seq_length <- (if bool_decide (attn_type = "context"%string) then
                       shape key_tensor 1
                     else if bool_decide (attn_type = "self"%string) then
                       ret query_seq_length
                     else TT_THROW) ;;
  hidden_size <- shape query_tensor 2 ;;
  size_per_head <- int_div hidden_size (num_attention_heads_ self) ;;
  projection_stage key_tensor value_tensor query_tensor attn_type
    pre_layernorm is_trans_weight
    batch_size query_seq_length key_seq_length hidden_size size_per_head
    (device_type query_tensor) (device_id query_tensor).

(** [MultiHeadedAttention::operator()]. *)
Definition operator_call
    (key_tensor value_tensor query_tensor attention_mask : Tensor F)
    (attn_type : string) (output att_score : ptr F)
    (pre_layernorm post_layernorm post_add_input is_trans_weight : bool)
    : M F unit :=
  d <- dispatch key_tensor value_tensor query_tensor attn_type
         pre_layernorm is_trans_weight ;;
  scoring query_tensor attention_mask output att_score
    post_layernorm post_add_input is_trans_weight
    (d_batch_size d) (d_query_seq_length d) (d_hidden_size d)
    (d_size_per_head d) (device_type query_tensor) (device_id query_tensor)
    (d_q_ptr d) (d_k_ptr d) (d_v_ptr d).
End Dispatcher.

Arguments dispatched : clear implicits.
Arguments mkDispatched {F} _ _ _ _ _ _ _.

(** ** A reference implementation of the kernel facade

    Integer tensors.  Every kernel numbers the cells of its output from a
    base of its own, shifted by the sum of the cells of its operands, so
    that the examples can tell who wrote a tensor and from what. *)

Definition checksum (t : Tensor Z) : Z := foldr Z.add 0 (contents t).

Definition iota (out : Tensor Z) (base : Z) : list Z :=
  map (fun i => base + Z.of_nat i) (seq 0 (Z.to_nat (numel (dims out)))).

Definition ref_kernels : Kernels Z := {|
  MatMul := fun A _ B _ _ C _ => iota C (100 + checksum A + checksum B);
  BatchMatMul := fun A _ B _ _ C _ => iota C (200 + checksum A + checksum B);
  LayerNorm := fun _ _ x _ => iota x (300 + checksum x);
  AddBiasTransposeForScore := fun x b out => iota out (400 + checksum x + checksum b);
  SplitAddBiasTransposeForScore := fun out x b => iota out (500 + checksum x + checksum b);
  TransposeForScore := fun out x => iota out (600 + checksum x);
  ApplyMaskAndSoftmax := fun score mask _ => iota score (700 + checksum score + checksum mask);
  AddBias := fun b out => iota out (800 + checksum b + checksum out);
  AddBiasLayerNorm := fun x b _ _ out _ => iota out (900 + checksum x + checksum b + checksum out);
  AddInputBias := fun x1 x2 b out => iota out (1000 + checksum x1 + checksum x2 + checksum b)
|}.

Definition cpu : DeviceCtx := mkDeviceCtx HostCPU 0.

(** A host tensor of the given shape, cells numbered from [base]. *)
Definition tensor_of (shape : list Z) (base : Z) : Tensor Z :=
  mkTensor false shape cpu (iota (mkTensor false shape cpu []) base).

(** Weights for [hidden = 4] and [heads] attention heads; a weight has
    its [hidden] rows first, as [is_trans_weight = false] reads it. *)
Definition ref_weights (heads : Z) : MultiHeadedAttention Z :=
  mkMultiHeadedAttention Z
    (tensor_of [4; 4] 1) (tensor_of [4] 2) (tensor_of [4; 4] 3)
    (tensor_of [4] 4) (tensor_of [4; 4] 5) (tensor_of [4] 6)
    (tensor_of [4; 4] 7) (tensor_of [4] 8) (tensor_of [4; 12] 9)
    (tensor_of [3; 4] 10) (tensor_of [4] 11) (tensor_of [4] 12) heads.

(** The state a call starts from: a null output tensor, nothing on the
    heap, an empty trace. *)
Definition initial_state (att : option (Tensor Z))
    (layer_cache : gmap string (Tensor Z)) : State Z :=
  mkState null_tensor att layer_cache ∅ 0%nat [].

(** [B = 1], [Q = 2], [hidden = 4]. *)
Definition ref_query : Tensor Z := tensor_of [1; 2; 4] 0.
(** [B = 1], [K = 3], [hidden = 4]. *)
Definition ref_key : Tensor Z := tensor_of [1; 3; 4] 20.
Definition ref_value : Tensor Z := tensor_of [1; 3; 4] 40.
Definition other_key : Tensor Z := tensor_of [1; 3; 4] 60.
Definition other_value : Tensor Z := tensor_of [1; 3; 4] 80.
Definition ref_mask : Tensor Z := tensor_of [1; 1; 1; 3] 0.

(** A cache map with both memory slots live, [B = 1], [H = 2], [K = 3],
    [D = 2]. *)
Definition memory_cache : gmap string (Tensor Z) :=
  <["memory_keys"%string := tensor_of [1; 2; 3; 2] 50]>
    (<["memory_values"%string := tensor_of [1; 2; 3; 2] 70]> ∅).

(** A cache map with [memory_keys] live and [memory_values] present but
    null. *)
Definition unpaired_cache : gmap string (Tensor Z) :=
  <["memory_keys"%string := tensor_of [1; 2; 3; 2] 50]>
    (<["memory_values"%string := null_tensor]> ∅).

(** A cache map with both self slots live, [B = 1], [H = 2], [L = 1],
    [D = 2]. *)
Definition self_cache : gmap string (Tensor Z) :=
  <["self_keys"%string := tensor_of [1; 2; 1; 2] 50]>
    (<["self_values"%string := tensor_of [1; 2; 1; 2] 60]> ∅).

(** A call of the reference operator with all four flags off. *)
Definition ref_call (heads : Z) (attn_type : string) (att_score : ptr Z)
    (att : option (Tensor Z)) (layer_cache : gmap string (Tensor Z))
    : result unit * State Z :=
  operator_call (H := ref_kernels) (ref_weights heads)
    ref_key ref_value ref_query ref_mask attn_type OutputArg att_score
    false false false false (initial_state att layer_cache).

(** A cache map with the four slots live, as a decoder layer keeps it. *)
Definition decoder_cache : gmap string (Tensor Z) :=
  <["memory_keys"%string := tensor_of [1; 2; 3; 2] 50]>
    (<["memory_values"%string := tensor_of [1; 2; 3; 2] 70]>
       (<["self_keys"%string := tensor_of [1; 2; 1; 2] 50]>
          (<["self_values"%string := tensor_of [1; 2; 1; 2] 60]> ∅))).

(** A value tensor on another device than the query. *)
Definition remote_value : Tensor Z :=
  mkTensor false [1; 3; 4] (mkDeviceCtx Accelerator 0) [].

(** A key tensor of rank 2. *)
Definition flat_key : Tensor Z := tensor_of [3; 4] 20.

(** A cache map whose self slots are there but null, as before the first
    decoding step. *)
Definition fresh_self_cache : gmap string (Tensor Z) :=
  <["self_keys"%string := null_tensor]>
    (<["self_values"%string := null_tensor]> ∅).


(** Weights for [hidden = 4] and three heads, which do not divide it:
    [size_per_head] is 1.  The Q, K and V weights are [hidden] by
    [hidden], their biases have [H * D = 3] entries, and the dense weight
    is [H * D] by [hidden], so that in a context-mode call every kernel
    receives operands whose shapes fit together. *)
Definition odd_weights : MultiHeadedAttention Z :=
  mkMultiHeadedAttention Z
    (tensor_of [4; 4] 1) (tensor_of [3] 2) (tensor_of [4; 4] 3)
    (tensor_of [3] 4) (tensor_of [4; 4] 5) (tensor_of [3] 6)
    (tensor_of [3; 4] 7) (tensor_of [4] 8) (tensor_of [4; 12] 9)
    (tensor_of [3; 4] 10) (tensor_of [4] 11) (tensor_of [4] 12) 3.

(** The context-mode call of the operator with these weights, no cache,
    all four flags off, and a tensor of the caller's for the scores. *)
Definition odd_call : result unit * State Z :=
  operator_call (H := ref_kernels) odd_weights
    ref_key ref_value ref_query ref_mask "context" OutputArg AttScoreArg
    false false false false (initial_state (Some null_tensor) ∅).

(** * The vocabulary of the properties *)

(** ** Footprints

    What a computation may write, which events it may log, and which
    failures it may end in. *)

Record footprint := mkFootprint {
  fp_output : bool;
  fp_att_score : bool;
  fp_cache : string -> Prop;
  fp_heap : bool;
  fp_events : event -> Prop
}.

(** The scoring writes the output and the attention scores, never the
    cache. *)
Definition quiet_cache : footprint :=
  mkFootprint true true (fun _ => False) true (fun _ => True).

(** The projection writes neither the output nor the attention scores. *)
Definition any_cache : footprint :=
  mkFootprint false false (fun _ => True) true (fun _ => True).

(** A self-mode call writes no cache slot but the two self slots. *)
Definition self_slots : footprint :=
  mkFootprint true true
    (fun slot => slot = "self_keys"%string \/ slot = "self_values"%string)
    true (fun _ => True).

Definition everything : footprint :=
  mkFootprint true true (fun _ => True) true (fun _ => True).

(** A context-mode call writes no cache slot but the two memory slots;
    [heap] tells whether it may allocate. *)
Definition memory_slots (heap : bool) : footprint :=
  mkFootprint true true
    (fun slot => slot = "memory_keys"%string \/ slot = "memory_values"%string)
    heap (fun _ => True).

(** What the context branch and the self branch need of a footprint. *)
Definition context_footprint (fp : footprint) : Prop :=
  fp_cache fp "memory_keys" /\ fp_cache fp "memory_values" /\
  (forall e, ev_operand e = for_q \/ ev_operand e = for_k \/
             ev_operand e = for_v -> fp_events fp e).

Definition self_footprint (fp : footprint) : Prop :=
  fp_cache fp "self_keys" /\ fp_cache fp "self_values" /\
  fp_heap fp = true /\
  (forall e, ev_operand e = for_qkv \/ ev_operand e = for_k \/
             ev_operand e = for_v -> fp_events fp e).

Section Vocabulary.
Context {F : Type} `{Kernels F}.
Variable self : MultiHeadedAttention F.

Definition hit_any (key : string) (l : list (string * Tensor F)) : bool :=
  existsb (fun it => bool_decide (it.1 = key) && negb (is_null it.2)) l.

Definition within (fp : footprint) (s s' : State F) : Prop :=
  (fp_output fp = false -> st_output s' = st_output s) /\
  (fp_att_score fp = false -> st_att_score s' = st_att_score s) /\
  (forall slot, ~ fp_cache fp slot ->
     st_cache s' !! slot = st_cache s !! slot) /\
  (forall slot, st_cache s !! slot = None -> st_cache s' !! slot = None) /\
  (fp_heap fp = false ->
     st_heap s' = st_heap s /\ st_next s' = st_next s) /\
  exists l, st_trace s' = st_trace s ++ l /\ Forall (fp_events fp) l.

Definition may_write (fp : footprint) (p : ptr F) : Prop :=
  match p with
  | nullptr | AddrOf _ => True
  | CachePtr slot => fp_cache fp slot
  | HeapPtr _ => fp_heap fp = true
  | AttScoreArg => fp_att_score fp = true
  | OutputArg => fp_output fp = true
  end.

(** The Q, K and V pointers are never the caller's output or
    attention-score objects. *)
Definition operand_ptr (p : ptr F) : Prop :=
  match p with
  | AttScoreArg | OutputArg => False
  | _ => True
  end.

Definition operand_ptrs (p : ptr F * ptr F * ptr F) : Prop :=
  operand_ptr p.1.1 /\ operand_ptr p.1.2 /\ operand_ptr p.2.

(** The failures of the dispatcher's own: a failed check, or an
    execution that left defined behaviour. *)
Definition own_failure (e : error) : Prop :=
  e = InvalidArgument \/ e = Undefined.

Definition ensures {A} (fp : footprint) (Q : A -> Prop) (m : M F A) : Prop :=
  forall s r s', m s = (r, s') ->
    within fp s s' /\
    match r with Ok a => Q a | Fail e => own_failure e end.

(** The guard of lines 48-59 on the three shapes. *)
Definition guard_passes (key_tensor value_tensor query_tensor : Tensor F)
    (kb ks kh vs vh B Q hidden : Z) : Prop :=
  dims key_tensor = [kb; ks; kh] /\
  dims value_tensor = [kb; vs; vh] /\
  dims query_tensor = [B; Q; hidden].

(** What a caller passes for [att_score]: nothing, or a tensor of its own. *)
Definition caller_sink (p : ptr F) : Prop := p = nullptr \/ p = AttScoreArg.

(** The pointer [p] can be read in [s], and yields [t]: a call-scoped
    local, a tensor of the cache, or a tensor allocated before [s]. *)
Definition points_to (s : State F) (p : ptr F) (t : Tensor F) : Prop :=
  match p with
  | AddrOf t' => t' = t
  | CachePtr slot => st_cache s !! slot = Some t
  | HeapPtr a => st_heap s !! a = Some t /\ (a < st_next s)%nat
  | nullptr | AttScoreArg | OutputArg => False
  end.

(** Lines 227-254: the fused projection [qkv_out2] of the self branch, of
    shape [3, B, H, Q, D], as a function of the query. *)
Definition qkv_projection (query_tensor : Tensor F)
    (pre_layernorm is_trans_weight : bool) (B Q hidden D : Z)
    (devtype : DeviceKind) (devid : Z) : Tensor F :=
  let H_ := num_attention_heads_ self in
  let qkv_out1 := Reshape null_tensor [3; B; Q; hidden] devtype devid in
  let input :=
    if pre_layernorm then
      let layernormed_query :=
        Reshape null_tensor [B; Q; hidden] devtype devid in
      let layernormed_query :=
        with_contents layernormed_query
          (contents (Copy query_tensor layernormed_query)) in
      with_contents layernormed_query
        (LayerNorm (layernorm_gamma_ self) (layernorm_beta_ self)
                   layernormed_query f_1e_6)
    else query_tensor in
  let qkv_out1 :=
    with_contents qkv_out1
      (MatMul input false (qkv_weight_ self) is_trans_weight
              f_one qkv_out1 f_zero) in
  let qkv_out2 := Reshape null_tensor [3; B; H_; Q; D] devtype devid in
  with_contents qkv_out2
    (SplitAddBiasTransposeForScore qkv_out2 qkv_out1 (qkv_bias_ self)).

(** Lines 262-284: the K (or V) operand of a self-mode call, from the
    tensor [cached] the slot holds and the fresh projection: their
    concatenation on axis 2 when the cached tensor is live, the fresh
    projection alone when it is null. *)
Definition self_operand (cached fresh : Tensor F) : option (Tensor F) :=
  if is_null cached then Some fresh else Concat cached fresh 2 null_tensor.

(** The kernel of lines 385-398 and what it computes from the projected
    [out]. *)
Definition fused (query_tensor out : Tensor F)
    (post_layernorm post_add_input : bool) : kernel_name * list F :=
  if negb post_add_input then
    if negb post_layernorm then
      (K_AddBias, AddBias (dense_bias_ self) out)
    else
      (K_AddBiasLayerNorm,
       AddBiasLayerNorm query_tensor (dense_bias_ self)
         (layernorm_gamma_ self) (layernorm_beta_ self) out
         AddBiasLayerNorm_default_eps)
  else
    (K_AddInputBias, AddInputBias out query_tensor (dense_bias_ self) out).
(** The output of lines 346-398 as a function of the attention
    probabilities [probs], the V operand [v] and the output tensor [out]
    the caller passed. *)
Definition attention_output (query_tensor probs v out : Tensor F)
    (post_layernorm post_add_input is_trans_weight : bool)
    (B Q hidden D : Z) (devtype : DeviceKind) (devid : Z) : Tensor F :=
  let H_ := num_attention_heads_ self in
  let context_layer := Reshape null_tensor [B; H_; Q; D] devtype devid in
  let context_layer :=
    with_contents context_layer
      (BatchMatMul probs false v false f_one context_layer f_zero) in
  let self_attr_out := Reshape null_tensor [B; Q; H_ * D] devtype devid in
  let self_attr_out :=
    with_contents self_attr_out
      (TransposeForScore self_attr_out context_layer) in
  let out := Reshape out [B; Q; hidden] devtype devid in
  let dense :=
    with_contents out
      (MatMul self_attr_out false (dense_weight_ self) is_trans_weight
              f_one out f_zero) in
  with_contents dense
    (fused query_tensor dense post_layernorm post_add_input).2.
End Vocabulary.

(** A computation none of whose checks can fail: if it fails, it has left
    defined behaviour. *)
Definition only_undefined {F A} (m : M F A) : Prop :=
  forall s e s', m s = (Fail e, s') -> e = Undefined.

(** A cached key or value tensor a decoding step can extend: live, of
    shape [[B; H_; L; D]], holding as many cells as the shape says. *)
Definition kv_slot {F} (t : Tensor F) (B H_ L D : Z) : Prop :=
  is_null t = false /\ dims t = [B; H_; L; D] /\ well_formed t.

(** * Properties *)

(** ** The cache binding *)

Section Flags.
Context {F : Type}.
Implicit Types (l : list (string * Tensor F)) (m : gmap string (Tensor F)).

Lemma foldl_scan_entry l : forall fl,
  foldl scan_entry fl l =
  mkFlags (memory_keys_not_none fl || hit_any "memory_keys" l)
          (memory_values_not_none fl || hit_any "memory_values" l)
          (self_keys_not_none fl || hit_any "self_keys" l)
          (self_values_not_none fl || hit_any "self_values" l).
Proof.
  induction l as [|it l IH]; intros [a b c d]; simpl.
  - by rewrite !orb_false_r.
  - rewrite IH. unfold scan_entry; simpl.
    f_equal; destruct (bool_decide _ && negb _);
      by rewrite ?orb_true_l, ?orb_true_r, ?orb_false_r.
Qed.

Lemma hit_any_map_to_list key m : hit_any key (map_to_list m) = live m key.
Proof.
  unfold live, hit_any. apply eq_true_iff_eq. rewrite existsb_exists. split.
  - intros [[k t] [Hin Hb]]. apply andb_true_iff in Hb as [Hk Hn].
    apply bool_decide_eq_true in Hk. simpl in *. subst k.
    apply list_elem_of_In, elem_of_map_to_list in Hin. by rewrite Hin.
  - destruct (m !! key) as [t|] eqn:E; [|done]. intros Hn.
    exists (key, t). split.
    + by apply list_elem_of_In, elem_of_map_to_list.
    + simpl. by rewrite bool_decide_eq_true_2.
Qed.

(** The pass over the map computes liveness: each flag is set iff its
    slot is in the map and holds a tensor that is not null. *)
Lemma scan_cache_live m :
  scan_cache m = mkFlags (live m "memory_keys") (live m "memory_values")
                         (live m "self_keys") (live m "self_values").
Proof.
  unfold scan_cache. rewrite foldl_scan_entry. simpl.
  by rewrite !hit_any_map_to_list.
Qed.

Lemma lookup_size_pos m slot t : m !! slot = Some t -> (0 < size m)%nat.
Proof.
  intros E. destruct (decide (size m = 0%nat)) as [Hz|]; [|lia].
  apply map_size_empty_iff in Hz. subst. by rewrite lookup_empty in E.
Qed.

Lemma live_lookup m slot :
  live m slot = true -> exists t, m !! slot = Some t /\ is_null t = false.
Proof.
  unfold live. destruct (m !! slot) as [t|]; [|done].
  intros Hn. exists t. split; [done|]. by destruct (is_null t).
Qed.

Lemma live_absent m slot : m !! slot = None -> live m slot = false.
Proof. unfold live. by intros ->. Qed.

(** The flags as the dispatcher computes them, guard on the size
    included. *)
Lemma binding_flags m :
  (if bool_decide (0 < size m)%nat then scan_cache m
   else mkFlags false false false false) =
  mkFlags (live m "memory_keys") (live m "memory_values")
          (live m "self_keys") (live m "self_values").
Proof.
  case_bool_decide as Hs; [apply scan_cache_live|].
  assert (m = ∅) as -> by (apply map_size_empty_iff; lia).
  unfold live. by rewrite !lookup_empty.
Qed.
End Flags.

(** ** Footprints of the computations *)

Section Frames.
Context {F : Type}.
Implicit Types (s : State F) (p : ptr F).
Local Abbreviation within := (within (F:=F)).
Local Abbreviation ensures := (ensures (F:=F)).

Lemma within_refl fp s : within fp s s.
Proof.
  repeat split; try done. exists []. by rewrite app_nil_r.
Qed.

Lemma within_trans fp s1 s2 s3 :
  within fp s1 s2 -> within fp s2 s3 -> within fp s1 s3.
Proof.
  intros (Ho & Ha & Hc & Hn & Hh & l1 & Ht1 & Hl1)
         (Ho' & Ha' & Hc' & Hn' & Hh' & l2 & Ht2 & Hl2).
  split; [|split; [|split; [|split; [|split]]]].
  - intros E. by rewrite Ho', Ho.
  - intros E. by rewrite Ha', Ha.
  - intros slot E. by rewrite Hc', Hc.
  - intros slot E. by apply Hn', Hn.
  - intros E. destruct (Hh E) as [<- <-]. by apply Hh'.
  - exists (l1 ++ l2). split; [by rewrite Ht2, Ht1, app_assoc|].
    by apply Forall_app.
Qed.

Lemma ensures_mono {A} fp (Q Q' : A -> Prop) (m : M F A) :
  ensures fp Q m -> (forall a, Q a -> Q' a) -> ensures fp Q' m.
Proof.
  intros Hm HQ s r s' E. destruct (Hm _ _ _ E) as [Hw Hr].
  split; [done|]. destruct r; auto.
Qed.

Lemma ensures_ret {A} fp (Q : A -> Prop) (a : A) :
  Q a -> ensures fp Q (ret a).
Proof. intros Ha s r s' [= <- <-]. split; [apply within_refl|done]. Qed.

Lemma ensures_throw {A} fp (Q : A -> Prop) e :
  own_failure e -> ensures fp Q (throw e).
Proof. intros He s r s' [= <- <-]. split; [apply within_refl|done]. Qed.

Lemma ensures_bind_with {A B} fp (P : A -> Prop) (Q : B -> Prop)
    (m : M F A) (k : A -> M F B) :
  ensures fp P m -> (forall a, P a -> ensures fp Q (k a)) ->
  ensures fp Q (bind m k).
Proof.
  intros Hm Hk s r s'. unfold bind.
  destruct (m s) as [[a|e] s1] eqn:E; destruct (Hm _ _ _ E) as [Hw Hr].
  - intros E'. destruct (Hk a Hr _ _ _ E') as [Hw' Hr'].
    split; [by eapply within_trans|done].
  - by intros [= <- <-].
Qed.

Lemma ensures_bind {A B} fp (Q : B -> Prop) (m : M F A) (k : A -> M F B) :
  ensures fp (fun _ => True) m -> (forall a, ensures fp Q (k a)) ->
  ensures fp Q (bind m k).
Proof. intros Hm Hk. eapply ensures_bind_with; [exact Hm|auto]. Qed.

Lemma ensures_bind_ret {A B} fp (Q : B -> Prop) (a : A) (k : A -> M F B) :
  ensures fp Q (k a) -> ensures fp Q (bind (ret a) k).
Proof. done. Qed.

Lemma ensures_bind_assoc {A B C} fp (Q : C -> Prop)
    (m : M F A) (f : A -> M F B) (g : B -> M F C) :
  ensures fp Q (bind m (fun x => bind (f x) g)) ->
  ensures fp Q (bind (bind m f) g).
Proof.
  intros Hm s r s' E. apply (Hm s). revert E. unfold bind.
  by destruct (m s) as [[a|e] s1].
Qed.

Lemma ensures_TT_ENFORCE_EQ {A} `{EqDecision A} fp (a b : A) :
  ensures fp (fun _ => True) (TT_ENFORCE_EQ a b : M F unit).
Proof.
  unfold TT_ENFORCE_EQ. case_bool_decide;
    [by apply ensures_ret|apply ensures_throw; by left].
Qed.

Lemma ensures_TT_THROW {A} fp (Q : A -> Prop) :
  ensures fp Q (TT_THROW : M F A).
Proof. apply ensures_throw. by left. Qed.

Lemma ensures_shape fp (t : Tensor F) pos :
  ensures fp (fun _ => True) (shape t pos).
Proof.
  unfold shape. destruct (_ !! _);
    [by apply ensures_ret|apply ensures_throw; by right].
Qed.

Lemma ensures_int_div fp a b :
  ensures fp (fun _ => True) (int_div a b : M F Z).
Proof.
  unfold int_div. destruct (_ =? _);
    [apply ensures_throw; by right|by apply ensures_ret].
Qed.

Lemma ensures_log fp e :
  fp_events fp e -> ensures fp (fun _ => True) (log e : M F unit).
Proof.
  intros He s r s' [= <- <-]. split; [|done].
  repeat split; try done.
  exists [e]. split; [done|]. by apply Forall_singleton.
Qed.

Lemma ensures_launch fp e (out : Tensor F) d :
  fp_events fp e -> ensures fp (fun _ => True) (launch e out d).
Proof.
  intros He. unfold launch. apply ensures_bind; [by apply ensures_log|].
  intros _. by apply ensures_ret.
Qed.

Lemma ensures_load fp (p : ptr F) : ensures fp (fun _ => True) (load p).
Proof.
  intros s r s'. unfold load.
  destruct p; repeat case_match; intros [= <- <-];
    (split; [apply within_refl|done || by right]).
Qed.

Lemma ensures_store fp (p : ptr F) t :
  may_write fp p -> ensures fp (fun _ => True) (store p t).
Proof.
  intros Hp s r s'. unfold store.
  destruct p; simpl in Hp; repeat case_match; intros [= <- <-];
    (split; [|done || by right]); try apply within_refl;
    (split; [|split; [|split; [|split; [|split]]]]; simpl;
     try done; try congruence;
     try (exists []; by rewrite app_nil_r)).
  - intros slot' Hs. rewrite lookup_insert_ne; [done|].
    intros ->. by apply Hs.
  - intros slot' Hs. rewrite lookup_insert_ne; [done|]. congruence.
Qed.

Lemma ensures_new_Tensor fp (Q : ptr F -> Prop) (t : Tensor F) :
  fp_heap fp = true -> (forall a, Q (HeapPtr a)) ->
  ensures fp Q (new_Tensor t).
Proof.
  intros Hp HQ s r s' [= <- <-]. split; [|done].
  split; [|split; [|split; [|split; [|split]]]]; simpl;
    try done; try congruence.
  exists []; by rewrite app_nil_r.
Qed.

Lemma ensures_delete_Tensor fp (p : ptr F) :
  fp_heap fp = true -> ensures fp (fun _ => True) (delete_Tensor p).
Proof.
  intros Hp s r s'. unfold delete_Tensor.
  destruct p; repeat case_match; intros [= <- <-];
    (split; [|done || by right]); try apply within_refl.
  split; [|split; [|split; [|split; [|split]]]]; simpl;
    try done; try congruence.
  exists []; by rewrite app_nil_r.
Qed.

Lemma ensures_layer_cache_at fp (Q : ptr F -> Prop) slot :
  Q nullptr -> Q (CachePtr slot) -> ensures fp Q (layer_cache_at slot).
Proof.
  intros Hn Hc s r s'. unfold layer_cache_at.
  destruct (_ !! _); intros [= <- <-]; (split; [apply within_refl|done]).
Qed.

Lemma ensures_Reshape_at fp (p : ptr F) shp devtype devid :
  may_write fp p ->
  ensures fp (fun _ => True) (Reshape_at p shp devtype devid).
Proof.
  intros Hp. unfold Reshape_at. apply ensures_bind; [apply ensures_load|].
  intros t. by apply ensures_store.
Qed.

Lemma ensures_launch_at fp e (p : ptr F) k :
  fp_events fp e -> may_write fp p ->
  ensures fp (fun _ => True) (launch_at e p k).
Proof.
  intros He Hp. unfold launch_at. apply ensures_bind; [apply ensures_load|].
  intros t. apply ensures_bind; [by apply ensures_log|].
  intros _. by apply ensures_store.
Qed.
End Frames.

(** One step of a footprint proof: the rule for the head of the
    computation. *)
Ltac frame_step :=
  lazymatch goal with
  | |- ensures _ _ (bind (ret _) _) => apply ensures_bind_ret; cbn [fst snd negb]
  | |- ensures _ _ (bind (bind _ _) _) => apply ensures_bind_assoc
  | |- ensures _ _ (bind (if ?b then _ else _) _) => destruct b
  | |- ensures _ _ (bind (match ?x with _ => _ end) _) => destruct x
  | |- ensures ?fp _ (bind (layer_cache_at ?slot) _) =>
      apply (ensures_bind_with fp (fun p => p = nullptr \/ p = CachePtr slot));
      [apply ensures_layer_cache_at; [by left|by right] | intros ? ?]
  | |- ensures ?fp _ (bind (new_Tensor _) _) =>
      apply (ensures_bind_with fp (fun p => exists a, p = HeapPtr a));
      [apply ensures_new_Tensor; [|by eexists] | intros ? [? ->]]
  | |- ensures _ _ (bind _ _) => apply ensures_bind; [|intros ?]
  | |- ensures _ _ (ret _) => apply ensures_ret
  | |- ensures _ _ (throw _) => apply ensures_throw
  | |- ensures _ _ TT_THROW => apply ensures_TT_THROW
  | |- ensures _ _ (TT_ENFORCE_EQ _ _) => apply ensures_TT_ENFORCE_EQ
  | |- ensures _ _ (shape _ _) => apply ensures_shape
  | |- ensures _ _ (int_div _ _) => apply ensures_int_div
  | |- ensures _ _ (load _) => apply ensures_load
  | |- ensures _ _ (log _) => apply ensures_log
  | |- ensures _ _ (launch _ _ _) => apply ensures_launch
  | |- ensures _ _ (launch_at _ _ _) => apply ensures_launch_at
  | |- ensures _ _ (Reshape_at _ _ _ _) => apply ensures_Reshape_at
  | |- ensures _ _ (delete_Tensor _) => apply ensures_delete_Tensor
  | |- ensures _ _ (if ?b then _ else _) => destruct b
  | |- ensures _ _ (match ?x with _ => _ end) => destruct x
  end.

Ltac frame_side :=
  simpl; auto;
  try lazymatch goal with
  | |- own_failure _ => by (left + right)
  | H : ?p = nullptr \/ ?p = CachePtr _ |- may_write _ ?p =>
      destruct H as [-> | ->]; simpl; auto
  | |- operand_ptrs _ =>
      repeat match goal with
      | H : _ = nullptr \/ _ = CachePtr _ |- _ => destruct H as [-> | ->]
      end;
      by repeat split
  end.

Ltac frame := repeat frame_step; frame_side.

Section Stages.
Context {F : Type} `{Kernels F}.
Variable self : MultiHeadedAttention F.
Variable fp : footprint.

Lemma ensures_output_fusion (query_tensor : Tensor F) output
    post_layernorm post_add_input :
  may_write fp output ->
  (forall e, ev_operand e = for_out -> fp_events fp e) ->
  ensures fp (fun _ => True)
    (output_fusion self query_tensor output post_layernorm post_add_input).
Proof.
  intros Ho He. unfold output_fusion. frame.
Qed.

Lemma ensures_scoring (query_tensor attention_mask : Tensor F)
    output att_score post_layernorm post_add_input is_trans_weight
    B Q hidden D devtype devid q_ptr k_ptr v_ptr :
  may_write fp output ->
  may_write fp att_score ->
  (att_score = nullptr -> fp_heap fp = true) ->
  (forall e, ev_operand e = for_out -> fp_events fp e) ->
  ensures fp (fun _ => True)
    (scoring self query_tensor attention_mask output att_score
       post_layernorm post_add_input is_trans_weight
       B Q hidden D devtype devid q_ptr k_ptr v_ptr).
Proof.
  intros Ho Ha Hn He. unfold scoring. frame.
  all: by apply ensures_output_fusion.
Qed.

Lemma ensures_context_branch (key_tensor value_tensor query_tensor : Tensor F)
    pre_layernorm is_trans_weight B Q K hidden D devtype devid
    layer_cache_not_none memory_not_none :
  fp_cache fp "memory_keys" -> fp_cache fp "memory_values" ->
  (forall e, ev_operand e = for_q \/ ev_operand e = for_k \/
             ev_operand e = for_v -> fp_events fp e) ->
  ensures fp operand_ptrs
    (context_branch self key_tensor value_tensor query_tensor
       pre_layernorm is_trans_weight B Q K hidden D devtype devid
       layer_cache_not_none memory_not_none).
Proof.
  intros Hk Hv He. unfold context_branch. frame.
Qed.

Lemma ensures_concat_with_cache slot section o (fresh out : Tensor F) :
  fp_events fp (Launch K_Concat section o) ->
  ensures fp (fun _ => True) (concat_with_cache slot section o fresh out).
Proof.
  intros He. unfold concat_with_cache. frame.
Qed.

Lemma ensures_self_branch (query_tensor : Tensor F)
    pre_layernorm is_trans_weight B Q hidden D devtype devid
    layer_cache_not_none self_keys_live self_values_live :
  fp_cache fp "self_keys" -> fp_cache fp "self_values" ->
  fp_heap fp = true ->
  (forall e, ev_operand e = for_qkv \/ ev_operand e = for_k \/
             ev_operand e = for_v -> fp_events fp e) ->
  ensures fp operand_ptrs
    (self_branch self query_tensor pre_layernorm is_trans_weight
       B Q hidden D devtype devid
       layer_cache_not_none self_keys_live self_values_live).
Proof.
  intros Hk Hv Hh He. unfold self_branch. frame.
  all: apply ensures_concat_with_cache; apply He; simpl; auto.
Qed.

Lemma ensures_projection_stage
    (key_tensor value_tensor query_tensor : Tensor F)
    attn_type pre_layernorm is_trans_weight B Q K hidden D devtype devid :
  (attn_type = "context"%string -> context_footprint fp) ->
  (attn_type = "self"%string -> self_footprint fp) ->
  ensures fp (fun d => operand_ptrs (d_q_ptr d, d_k_ptr d, d_v_ptr d))
    (projection_stage self key_tensor value_tensor query_tensor attn_type
       pre_layernorm is_trans_weight B Q K hidden D devtype devid).
Proof.
  intros Hc Hs s r s' E. unfold projection_stage in E.
  revert E. apply (ensures_bind_with fp operand_ptrs);
    [|intros [[q k] v] Hp; by apply ensures_ret].
  case_bool_decide as Ec.
  - destruct (Hc Ec) as (? & ? & ?). by apply ensures_context_branch.
  - case_bool_decide as Es; [|apply ensures_TT_THROW].
    destruct (Hs Es) as (? & ? & ? & ?). by apply ensures_self_branch.
Qed.

Lemma ensures_dispatch (key_tensor value_tensor query_tensor : Tensor F)
    attn_type pre_layernorm is_trans_weight :
  (attn_type = "context"%string -> context_footprint fp) ->
  (attn_type = "self"%string -> self_footprint fp) ->
  ensures fp (fun d => operand_ptrs (d_q_ptr d, d_k_ptr d, d_v_ptr d))
    (dispatch self key_tensor value_tensor query_tensor attn_type
       pre_layernorm is_trans_weight).
Proof.
  intros Hc Hs. unfold dispatch, EnforceShapeAndType. frame.
  all: by apply ensures_projection_stage.
Qed.

Lemma ensures_operator_call
    (key_tensor value_tensor query_tensor attention_mask : Tensor F)
    attn_type output att_score
    pre_layernorm post_layernorm post_add_input is_trans_weight :
  (attn_type = "context"%string -> context_footprint fp) ->
  (attn_type = "self"%string -> self_footprint fp) ->
  may_write fp output ->
  may_write fp att_score ->
  (att_score = nullptr -> fp_heap fp = true) ->
  (forall e, ev_operand e = for_out -> fp_events fp e) ->
  ensures fp (fun _ => True)
    (operator_call self key_tensor value_tensor query_tensor attention_mask
       attn_type output att_score
       pre_layernorm post_layernorm post_add_input is_trans_weight).
Proof.
  intros Hc Hs Ho Ha Hn He. unfold operator_call.
  apply ensures_bind;
    [eapply ensures_mono; [by apply ensures_dispatch|done]|].
  intros d. by apply ensures_scoring.
Qed.
End Stages.

(** ** The guard

    The checks of lines 48-73 either reject the call, leaving the state as
    it was, or hand the sizes to the projection. *)

Ltac guard_cases :=
  repeat (case_bool_decide; simpl); try done; try lia.

Section Guard.
Context {F : Type} `{Kernels F}.
Variable self : MultiHeadedAttention F.

Lemma n_dim_3 (t : Tensor F) :
  n_dim t = 3 <-> exists a b c, dims t = [a; b; c].
Proof.
  unfold n_dim. split.
  - destruct (dims t) as [|a [|b [|c [|d l]]]]; simpl; try lia. eauto.
  - intros (a & b & c & ->). done.
Qed.

Lemma dispatch_passed (key_tensor value_tensor query_tensor : Tensor F)
    attn_type pre_layernorm is_trans_weight s kb ks kh vs vh B Q hidden :
  guard_passes key_tensor value_tensor query_tensor kb ks kh vs vh B Q hidden ->
  dispatch self key_tensor value_tensor query_tensor attn_type
           pre_layernorm is_trans_weight s =
  (key_seq_length <- (if bool_decide (attn_type = "context"%string) then ret ks
                      else if bool_decide (attn_type = "self"%string) then ret Q
                      else TT_THROW) ;;
   size_per_head <- int_div hidden (num_attention_heads_ self) ;;
   projection_stage self key_tensor value_tensor query_tensor attn_type
     pre_layernorm is_trans_weight B Q key_seq_length hidden size_per_head
     (device_type query_tensor) (device_id query_tensor)) s.
Proof.
  intros (Hk & Hv & Hq). unfold dispatch.
  unfold bind, TT_ENFORCE_EQ, shape, EnforceShapeAndType, ret, n_dim.
  rewrite Hk, Hv, Hq. simpl. guard_cases.
Qed.

Lemma dispatch_guard (key_tensor value_tensor query_tensor : Tensor F) :
  (exists kb ks kh vs vh B Q hidden,
     guard_passes key_tensor value_tensor query_tensor
                  kb ks kh vs vh B Q hidden) \/
  (forall key' value' attn_type pre_layernorm is_trans_weight s,
     dims key' = dims key_tensor -> dims value' = dims value_tensor ->
     dispatch self key' value' query_tensor attn_type
              pre_layernorm is_trans_weight s = (Fail InvalidArgument, s)).
Proof.
  unfold guard_passes.
  destruct (dims key_tensor) as [|kb [|ks [|kh [|? ?]]]] eqn:Hk;
  destruct (dims value_tensor) as [|vb [|vs [|vh [|? ?]]]] eqn:Hv;
  destruct (dims query_tensor) as [|B [|Q [|hidden [|? ?]]]] eqn:Hq;
  try (right; intros key' value' attn_type pre_layernorm is_trans_weight s
         Hk' Hv';
       unfold dispatch, bind, TT_ENFORCE_EQ, shape, ret, throw, n_dim;
       rewrite Hk', Hv', Hq; simpl; by guard_cases).
  destruct (decide (kb = vb)) as [->|Hne].
  - left. by eexists _, _, _, _, _, _, _, _.
  - right. intros key' value' attn_type pre_layernorm is_trans_weight s
         Hk' Hv'.
    unfold dispatch, bind, TT_ENFORCE_EQ, shape, ret, throw, n_dim.
    rewrite Hk', Hv', Hq; simpl. by guard_cases.
Qed.
End Guard.

(** ** Calls that never read the key and value tensors *)

Section Independence.
Context {F : Type} `{Kernels F}.
Variable self : MultiHeadedAttention F.

Lemma dispatch_congr (k1 v1 k2 v2 query_tensor : Tensor F)
    attn_type pre_layernorm is_trans_weight s :
  dims k1 = dims k2 -> dims v1 = dims v2 ->
  (forall B Q K hidden D,
     projection_stage self k1 v1 query_tensor attn_type pre_layernorm
       is_trans_weight B Q K hidden D
       (device_type query_tensor) (device_id query_tensor) s =
     projection_stage self k2 v2 query_tensor attn_type pre_layernorm
       is_trans_weight B Q K hidden D
       (device_type query_tensor) (device_id query_tensor) s) ->
  dispatch self k1 v1 query_tensor attn_type pre_layernorm is_trans_weight s =
  dispatch self k2 v2 query_tensor attn_type pre_layernorm is_trans_weight s.
Proof.
  intros Hk Hv Hp.
  destruct (dispatch_guard self k1 v1 query_tensor)
    as [(kb & ks & kh & vs & vh & B & Q & hidden & Hg)|Hrej].
  - assert (guard_passes k2 v2 query_tensor kb ks kh vs vh B Q hidden) as Hg'.
    { destruct Hg as (? & ? & ?). split; [|split]; congruence. }
    rewrite (dispatch_passed self _ _ _ _ _ _ _ _ _ _ _ _ _ _ _ Hg).
    rewrite (dispatch_passed self _ _ _ _ _ _ _ _ _ _ _ _ _ _ _ Hg').
    unfold bind.
    destruct ((if bool_decide (attn_type = "context"%string) then ret ks
               else if bool_decide (attn_type = "self"%string) then ret Q
               else TT_THROW) s) as [[K|e] s1] eqn:EK; [|done].
    assert (s1 = s) as ->.
    { revert EK. repeat case_bool_decide; by intros [= _ <-]. }
    unfold int_div. destruct (_ =? _); [done|]. apply Hp.
  - rewrite (Hrej k1 v1) by done. by rewrite (Hrej k2 v2).
Qed.

Lemma context_branch_hit_congr (k1 v1 k2 v2 query_tensor : Tensor F)
    pre_layernorm is_trans_weight B Q K hidden D devtype devid lcnn :
  device_ctx k1 = device_ctx k2 -> device_ctx v1 = device_ctx v2 ->
  context_branch self k1 v1 query_tensor pre_layernorm is_trans_weight
    B Q K hidden D devtype devid lcnn true =
  context_branch self k2 v2 query_tensor pre_layernorm is_trans_weight
    B Q K hidden D devtype devid lcnn true.
Proof. intros Hk Hv. unfold context_branch. by rewrite Hk, Hv. Qed.

Lemma memory_hit_flags (m : gmap string (Tensor F)) :
  live m "memory_keys" = true -> live m "memory_values" = true ->
  let fl := if bool_decide (0 < size m)%nat then scan_cache m
            else mkFlags false false false false in
  memory_values_not_none fl && memory_keys_not_none fl = true.
Proof. intros Hk Hv. rewrite binding_flags. simpl. by rewrite Hk, Hv. Qed.

Lemma context_branch_hit (key_tensor value_tensor query_tensor : Tensor F)
    pre_layernorm is_trans_weight B Q K hidden D devtype devid lcnn
    s r s' mk mv :
  st_cache s !! "memory_keys"%string = Some mk ->
  st_cache s !! "memory_values"%string = Some mv ->
  context_branch self key_tensor value_tensor query_tensor pre_layernorm
    is_trans_weight B Q K hidden D devtype devid lcnn true s = (r, s') ->
  st_cache s' = st_cache s /\
  (exists l, st_trace s' = st_trace s ++ l /\
             Forall (fun e => ev_operand e = for_q) l) /\
  (forall p, r = Ok p ->
     p.1.2 = CachePtr "memory_keys" /\ p.2 = CachePtr "memory_values").
Proof.
  intros Hmk Hmv. unfold context_branch.
  unfold bind, TT_ENFORCE_EQ, launch, log, layer_cache_at, ret, throw.
  destruct s as [out att cache heap next trace]; simpl in *.
  repeat (case_bool_decide; simpl);
    try (intros [= <- <-]; simpl; split; [done|split; [|done]];
         exists []; by rewrite app_nil_r).
  destruct pre_layernorm; simpl; rewrite Hmv; simpl; rewrite Hmk; simpl;
    intros [= <- <-]; simpl; (split; [done|split]);
    try (intros p [= <-]; done).
  - eexists [_; _; _; _]. split; [by rewrite <- !app_assoc|].
    by repeat constructor.
  - eexists [_; _]. split; [by rewrite <- !app_assoc|].
    by repeat constructor.
Qed.

End Independence.

(** ** Concatenation along the sequence axis *)

Section ConcatFacts.
Context {F : Type}.
Implicit Types (d : list F) (t : Tensor F).

Lemma take_blocks_interleave high a b : forall d1 d2,
  length d1 = (high * a)%nat -> (high * b <= length d2)%nat ->
  take_blocks high (a + b) a (interleave_blocks high a b d1 d2) = d1.
Proof.
  induction high as [|n IH]; intros d1 d2 H1 H2; simpl in *.
  - by destruct d1.
  - assert (length (take a d1) = a) as La by (rewrite length_take; lia).
    assert (length (take b d2) = b) as Lb by (rewrite length_take; lia).
    rewrite take_app_length' by done.
    rewrite app_assoc, drop_app_length' by (rewrite length_app; lia).
    rewrite IH.
    + apply take_drop.
    + rewrite length_drop. lia.
    + rewrite length_drop. lia.
Qed.

Lemma length_interleave high a b : forall d1 d2,
  length d1 = (high * a)%nat -> length d2 = (high * b)%nat ->
  length (interleave_blocks high a b d1 d2) = (high * (a + b))%nat.
Proof.
  induction high as [|n IH]; intros d1 d2 H1 H2; simpl in *; [done|].
  rewrite !length_app, !length_take, IH by (rewrite length_drop; lia). lia.
Qed.

(** A rank-4 shape that agrees with [[B; H; Q; D]] outside axis 2. *)
Lemma shapes_agree_except_4 (s1 : list Z) B H_ Q D :
  shapes_agree_except 2 s1 [B; H_; Q; D] = true ->
  exists L, s1 = [B; H_; L; D].
Proof.
  unfold shapes_agree_except. intros [Hl He]%andb_true_iff.
  apply bool_decide_eq_true in He.
  destruct s1 as [|b [|h [|l [|d [|? ?]]]]]; simplify_eq/=. by exists l.
Qed.

Lemma Concat_4 t1 t2 out t B H_ Q D :
  dims t2 = [B; H_; Q; D] ->
  Concat t1 t2 2 out = Some t ->
  exists L, dims t1 = [B; H_; L; D] /\
    t = mkTensor false [B; H_; L + Q; D] (device_ctx t1)
          (interleave_blocks (Z.to_nat (B * (H_ * 1)))
             (Z.to_nat (L * (D * 1))) (Z.to_nat (Q * (D * 1)))
             (contents t1) (contents t2)).
Proof.
  intros H2. unfold Concat. rewrite H2.
  destruct (shapes_agree_except _ _ _) eqn:Ha; [|done].
  apply shapes_agree_except_4 in Ha as [L ->]. intros [= <-].
  exists L. split; [done|]. reflexivity.
Qed.

Lemma narrow_concat (B H_ L Q D : Z) nul dev d1 d2 :
  0 <= B -> 0 <= H_ -> 0 <= L -> 0 <= Q -> 0 <= D ->
  length d1 = Z.to_nat (numel [B; H_; L; D]) ->
  length d2 = Z.to_nat (numel [B; H_; Q; D]) ->
  let t := mkTensor nul [B; H_; L + Q; D] dev
             (interleave_blocks (Z.to_nat (B * (H_ * 1)))
                (Z.to_nat (L * (D * 1))) (Z.to_nat (Q * (D * 1))) d1 d2) in
  dims (narrow t 2 L) = [B; H_; L; D] /\ contents (narrow t 2 L) = d1.
Proof.
  intros HB HH HL HQ HD H1 H2. split; [done|].
  unfold narrow; simpl in *.
  replace (Z.to_nat ((L + Q) * (D * 1)))
    with (Z.to_nat (L * (D * 1)) + Z.to_nat (Q * (D * 1)))%nat by nia.
  apply take_blocks_interleave.
  - rewrite H1. rewrite <- Z2Nat.inj_mul by nia. f_equal. ring.
  - rewrite H2. rewrite <- Z2Nat.inj_mul by nia. apply Nat.eq_le_incl.
    f_equal. ring.
Qed.

(** The [n]-th of [k] sub-tensors of a buffer that holds them all. *)
Lemma length_subscript t (n k : Z) shp :
  dims t = k :: shp -> 0 <= n < k -> Forall (fun z => 0 <= z) shp ->
  length (contents t) = Z.to_nat (numel (k :: shp)) ->
  length (contents (subscript t n)) = Z.to_nat (numel shp).
Proof.
  intros Hd Hn Hs Hl. unfold subscript. rewrite Hd. simpl in *.
  assert (0 <= numel shp) as Hv.
  { clear -Hs. induction Hs; simpl; [lia|]. unfold numel in *. nia. }
  rewrite length_take, length_drop, Hl.
  rewrite Z2Nat.inj_mul by lia. nia.
Qed.
End ConcatFacts.

(** ** Successful runs

    Inversion of a successful run, one computation at a time. *)

Lemma bind_Ok {F A B} (m : M F A) (k : A -> M F B) s b s' :
  bind m k s = (Ok b, s') ->
  exists a s1, m s = (Ok a, s1) /\ k a s1 = (Ok b, s').
Proof.
  unfold bind. destruct (m s) as [[a|e] s1]; [|done]. eauto.
Qed.

Lemma load_state {F} (p : ptr F) s t s' : load p s = (Ok t, s') -> s' = s.
Proof. unfold load. destruct p; repeat case_match; by intros [= _ <-]. Qed.

Section Operands.
Context {F : Type} `{Kernels F}.
Variable self : MultiHeadedAttention F.

(** An operand pointer reads the cache or the heap, nothing else. *)
Lemma load_operand (p : ptr F) s s' :
  operand_ptr p -> st_cache s' = st_cache s -> st_heap s' = st_heap s ->
  forall t, load p s = (Ok t, s) -> load p s' = (Ok t, s').
Proof.
  intros Hp Hc Hh t. unfold load. destruct p; try done; rewrite ?Hc, ?Hh;
    repeat case_match; by intros [= <-].
Qed.

(** The fusion of lines 385-398 always returns: it is one kernel on the
    output tensor. *)
Lemma output_fusion_run (query_tensor : Tensor F)
    post_layernorm post_add_input s :
  output_fusion self query_tensor OutputArg post_layernorm post_add_input s =
  (Ok tt,
   mkState (with_contents (st_output s)
              (fused self query_tensor (st_output s)
                     post_layernorm post_add_input).2)
           (st_att_score s) (st_cache s) (st_heap s) (st_next s)
           (st_trace s ++
            [Launch (fused self query_tensor (st_output s)
                            post_layernorm post_add_input).1
                    "AddBias" for_out])).
Proof. unfold output_fusion, fused. by destruct post_add_input, post_layernorm. Qed.
End Operands.

Ltac simp_lookup H :=
  repeat first
    [ rewrite lookup_insert_eq in H
    | rewrite lookup_insert_ne in H by done
    | match goal with
      | E : ?m !! ?k = _ |- _ => rewrite E in H
      end ].

Ltac inv_prim H :=
  unfold log, load, store, shape, int_div, layer_cache_at,
    new_Tensor, delete_Tensor, TT_ENFORCE_EQ, TT_THROW in H;
  unfold ret, throw in H;
  cbn beta iota delta [st_output st_att_score st_cache st_heap st_next
                       st_trace fst snd] in H;
  simp_lookup H;
  repeat lazymatch type of H with
  | context [match ?x with _ => _ end] =>
      let E := fresh "E" in destruct x eqn:E; try discriminate H
  end;
  simplify_eq.

Ltac inv_step H :=
  cbv beta in H; cbn [fst snd negb] in H;
  lazymatch type of H with
  | bind _ _ _ = (Ok _, _) =>
      let Hm := fresh "Hm" in
      apply bind_Ok in H as (? & ? & Hm & H); inv_step Hm; inv_step H
  | launch _ _ _ _ = _ => unfold launch in H; inv_step H
  | launch_at _ _ _ _ = _ => unfold launch_at in H; inv_step H
  | Reshape_at _ _ _ _ _ = _ => unfold Reshape_at in H; inv_step H
  | concat_with_cache _ _ _ _ _ _ = _ =>
      unfold concat_with_cache in H; inv_step H
  | output_fusion _ _ OutputArg _ _ _ = _ =>
      rewrite output_fusion_run in H; inv_prim H
  | (if ?b then _ else _) _ = _ => destruct b; inv_step H
  | match ?x with Some _ => _ | None => _ end _ = _ =>
      let E := fresh "E" in destruct x eqn:E; inv_step H
  | load ?p _ = (Ok _, ?s1) =>
      first [ is_var p; is_var s1;
              let E := fresh "E" in
              pose proof (load_state _ _ _ _ H) as E; subst s1
            | inv_prim H ]
  | _ => inv_prim H
  end.

(** ** The self-attention cache *)

Section SelfCache.
Context {F : Type} `{Kernels F}.
Variable self : MultiHeadedAttention F.

Lemma self_branch_live (query_tensor : Tensor F)
    pre_layernorm is_trans_weight B Q hidden D devtype devid s p s1 ck cv :
  st_cache s !! "self_keys"%string = Some ck ->
  st_cache s !! "self_values"%string = Some cv ->
  self_branch self query_tensor pre_layernorm is_trans_weight
    B Q hidden D devtype devid true true true s = (Ok p, s1) ->
  exists qkv k v,
    dims qkv = [3; B; num_attention_heads_ self; Q; D] /\
    (exists out x b, contents qkv = SplitAddBiasTransposeForScore out x b /\
                     dims out = dims qkv) /\
    Concat ck (subscript qkv 1) 2 null_tensor = Some k /\
    Concat cv (subscript qkv 2) 2 null_tensor = Some v /\
    p = (HeapPtr (st_next s), AddrOf k, AddrOf v) /\
    st_cache s1 !! "self_keys"%string =
      Some (Copy k (Reshape ck [B; num_attention_heads_ self;
                                default 0 (dims k !! 2%nat); D] devtype devid)) /\
    st_cache s1 !! "self_values"%string =
      Some (Copy v (Reshape cv [B; num_attention_heads_ self;
                                default 0 (dims v !! 2%nat); D] devtype devid)).
Proof.
  intros Hk Hv Hrun. unfold self_branch in Hrun.
  destruct s as [out att cache heap next trace]; simpl in Hk, Hv.
  inv_step Hrun.
  all: match goal with
    | Ek : Concat _ (subscript _ 1) _ _ = Some _,
      Ev : Concat _ (subscript _ 2) _ _ = Some _,
      E1 : dims _ !! 2%nat = Some _, E2 : dims _ !! 2%nat = Some _ |- _ =>
        eexists _, _, _;
        refine (conj _ (conj _ (conj Ek (conj Ev (conj eq_refl _)))));
        [reflexivity | by eexists _, _, _ | simpl; rewrite E1, E2; simpl]
    end.
  all: split; [by rewrite lookup_insert_ne, lookup_insert_eq by done|].
  all: by rewrite lookup_insert_eq.
Qed.

Lemma scoring_keeps_cache (query_tensor attention_mask : Tensor F)
    att_score post_layernorm post_add_input is_trans_weight
    B Q hidden D devtype devid q_ptr k_ptr v_ptr s r s' :
  caller_sink att_score ->
  scoring self query_tensor attention_mask OutputArg att_score
    post_layernorm post_add_input is_trans_weight
    B Q hidden D devtype devid q_ptr k_ptr v_ptr s = (r, s') ->
  st_cache s' = st_cache s.
Proof.
  intros Ha Hrun.
  destruct (ensures_scoring self quiet_cache query_tensor attention_mask
              OutputArg att_score post_layernorm post_add_input
              is_trans_weight B Q hidden D devtype devid q_ptr k_ptr v_ptr)
    with (s := s) (r := r) (s' := s') as [(_ & _ & Hc & _) _];
    try done.
  - by destruct Ha as [-> | ->].
  - apply map_eq. intros slot. apply Hc. tauto.
Qed.

Lemma dispatch_self_Ok (key_tensor value_tensor query_tensor : Tensor F)
    pre_layernorm is_trans_weight s d s1 :
  dispatch self key_tensor value_tensor query_tensor "self"
           pre_layernorm is_trans_weight s = (Ok d, s1) ->
  exists B Q hidden p,
    dims query_tensor = [B; Q; hidden] /\
    num_attention_heads_ self <> 0 /\
    d = mkDispatched B Q hidden (Z.quot hidden (num_attention_heads_ self))
                     p.1.1 p.1.2 p.2 /\
    self_branch self query_tensor pre_layernorm is_trans_weight
      B Q hidden (Z.quot hidden (num_attention_heads_ self))
      (device_type query_tensor) (device_id query_tensor)
      (bool_decide (0 < size (st_cache s))%nat)
      (live (st_cache s) "self_keys") (live (st_cache s) "self_values") s
    = (Ok p, s1).
Proof.
  intros Hd.
  destruct (dispatch_guard self key_tensor value_tensor query_tensor)
    as [(kb & ks & kh & vs & vh & B & Q & hidden & Hg)|Hrej];
    [|by rewrite Hrej in Hd].
  rewrite (dispatch_passed self _ _ _ _ _ _ _ _ _ _ _ _ _ _ _ Hg) in Hd.
  destruct Hg as (_ & _ & Hq).
  unfold bind at 1 in Hd. simpl in Hd.
  unfold bind at 1, int_div in Hd.
  destruct (Z.eqb_spec (num_attention_heads_ self) 0) as [|Hne]; [done|].
  simpl in Hd. unfold projection_stage in Hd.
  rewrite binding_flags in Hd. simpl in Hd.
  apply bind_Ok in Hd as (p & s2 & Hb & Hr).
  injection Hr as <- <-. by exists B, Q, hidden, p.
Qed.

Lemma well_formed_4 (t : Tensor F) B H_ L D :
  well_formed t -> dims t = [B; H_; L; D] ->
  0 <= B /\ 0 <= H_ /\ 0 <= L /\ 0 <= D /\
  length (contents t) = Z.to_nat (numel [B; H_; L; D]).
Proof.
  intros [Hn Hl] Hd. rewrite Hd in Hn, Hl.
  repeat (apply Forall_cons in Hn as [? Hn]). done.
Qed.

(** One half of the cache growth: what the write-back leaves in a slot
    whose cached tensor [c] was concatenated with the [i]-th part of the
    fused projection. *)
Lemma grown_slot (c qkv k : Tensor F) (i : Z) B H_ Q D L devtype devid :
  well_formed c -> dims c !! 2%nat = Some L ->
  dims qkv = [3; B; H_; Q; D] -> 0 <= i < 3 -> 0 <= Q ->
  length (contents qkv) = Z.to_nat (numel (dims qkv)) ->
  Concat c (subscript qkv i) 2 null_tensor = Some k ->
  let n := Copy k (Reshape c [B; H_; default 0 (dims k !! 2%nat); D]
                     devtype devid) in
  dims n !! 2%nat = Some (L + Q) /\
  dims (narrow n 2 L) = dims c /\ contents (narrow n 2 L) = contents c.
Proof.
  intros Hwf HL Hq Hi HQ Hlen Hc.
  assert (dims (subscript qkv i) = [B; H_; Q; D]) as Hf
    by (unfold subscript; by rewrite Hq).
  destruct (Concat_4 _ _ _ _ _ _ _ _ Hf Hc) as (L' & Hdc & ->).
  rewrite Hdc in HL. simplify_eq/=.
  destruct (well_formed_4 _ _ _ _ _ Hwf Hdc) as (HB & HH & HL & HD & Hlc).
  split; [done|]. rewrite Hdc.
  apply (narrow_concat B H_ L Q D false (mkDeviceCtx devtype devid));
    try done.
  apply (length_subscript qkv i 3); try done.
  - by repeat constructor.
  - by rewrite <- Hq.
Qed.

End SelfCache.

(** ** The scoring *)

Section Scoring.
Context {F : Type} `{Kernels F}.
Variable self : MultiHeadedAttention F.

Lemma scoring_att_arg (query_tensor attention_mask : Tensor F)
    post_layernorm post_add_input is_trans_weight
    B Q hidden D devtype devid q_ptr k_ptr v_ptr s s' :
  operand_ptr q_ptr -> operand_ptr k_ptr ->
  scoring self query_tensor attention_mask OutputArg AttScoreArg
    post_layernorm post_add_input is_trans_weight
    B Q hidden D devtype devid q_ptr k_ptr v_ptr s = (Ok tt, s') ->
  exists q k K a0,
    load q_ptr s = (Ok q, s) /\ load k_ptr s = (Ok k, s) /\
    dims k !! 2%nat = Some K /\ st_att_score s = Some a0 /\
    let a1 := Reshape a0 [B; num_attention_heads_ self; Q; K] devtype devid in
    let scores :=
      with_contents a1 (BatchMatMul q false k true (InvSqrt D) a1 f_zero) in
    st_att_score s' =
      Some (with_contents scores
              (ApplyMaskAndSoftmax scores attention_mask f_one)) /\
    st_heap s' = st_heap s.
Proof.
  intros Hq Hk Hrun. unfold scoring in Hrun.
  destruct s as [out att cache heap next trace].
  inv_step Hrun.
  match goal with
    | Hk1 : load k_ptr ?s1 = (Ok ?k, ?s1),
      Hq2 : load q_ptr ?s2 = (Ok ?q, ?s2),
      Hk2 : load k_ptr ?s2 = (Ok ?k', ?s2),
      HK : dims ?k !! 2%nat = Some ?K |- _ =>
        apply (load_operand _ _ s1 Hq) in Hq2; [|done..];
        apply (load_operand _ _ s1 Hk) in Hk2; [|done..];
        rewrite Hk1 in Hk2; injection Hk2 as <-;
        by eexists q, k, K, _
    end.
Qed.

Lemma scoring_att_null (query_tensor attention_mask : Tensor F)
    post_layernorm post_add_input is_trans_weight
    B Q hidden D devtype devid q_ptr k_ptr v_ptr s s' :
  scoring self query_tensor attention_mask OutputArg nullptr
    post_layernorm post_add_input is_trans_weight
    B Q hidden D devtype devid q_ptr k_ptr v_ptr s = (Ok tt, s') ->
  st_att_score s' = st_att_score s /\
  st_next s' = S (st_next s) /\
  st_heap s' !! st_next s = None /\
  forall a, a <> st_next s -> st_heap s' !! a = st_heap s !! a.
Proof.
  intros Hrun. unfold scoring in Hrun.
  destruct s as [out att cache heap next trace].
  inv_step Hrun. simpl.
  split; [done|]. split; [done|]. split; [by rewrite lookup_delete_eq|].
  intros a Ha. by rewrite lookup_delete_ne, !lookup_insert_ne by done.
Qed.

Lemma scoring_output (query_tensor attention_mask : Tensor F)
    att_score post_layernorm post_add_input is_trans_weight
    B Q hidden D devtype devid q_ptr k_ptr v_ptr s s' :
  caller_sink att_score ->
  scoring self query_tensor attention_mask OutputArg att_score
    post_layernorm post_add_input is_trans_weight
    B Q hidden D devtype devid q_ptr k_ptr v_ptr s = (Ok tt, s') ->
  exists dense l,
    dims dense = [B; Q; hidden] /\
    st_output s' =
      with_contents dense
        (fused self query_tensor dense post_layernorm post_add_input).2 /\
    st_trace s' =
      st_trace s ++ l ++
      [Launch K_MatMul "gemm5" for_out;
       Launch (fused self query_tensor dense post_layernorm post_add_input).1
              "AddBias" for_out].
Proof.
  intros [-> | ->] Hrun; unfold scoring in Hrun;
    destruct s as [out att cache heap next trace];
    inv_step Hrun; simpl;
    eexists _, [_; _; _; _];
    (refine (conj _ (conj eq_refl _));
     [reflexivity|by rewrite <- !app_assoc]).
Qed.

Lemma dispatch_Ok (key_tensor value_tensor query_tensor : Tensor F)
    attn_type pre_layernorm is_trans_weight s d s1 :
  dispatch self key_tensor value_tensor query_tensor attn_type
           pre_layernorm is_trans_weight s = (Ok d, s1) ->
  dims query_tensor =
    [d_batch_size d; d_query_seq_length d; d_hidden_size d] /\
  num_attention_heads_ self <> 0 /\
  d_size_per_head d = Z.quot (d_hidden_size d) (num_attention_heads_ self) /\
  operand_ptr (d_q_ptr d) /\ operand_ptr (d_k_ptr d) /\
  st_output s1 = st_output s /\ st_att_score s1 = st_att_score s /\
  exists l, st_trace s1 = st_trace s ++ l.
Proof.
  intros Hd.
  destruct (ensures_dispatch self any_cache key_tensor value_tensor
              query_tensor attn_type pre_layernorm is_trans_weight)
    with (s := s) (r := Ok d) (s' := s1)
    as [(Ho & Ha & _ & _ & _ & l & Hl & _) (Hq & Hk & _)];
    [by repeat split..|].
  destruct (dispatch_guard self key_tensor value_tensor query_tensor)
    as [(kb & ks & kh & vs & vh & B & Q & hidden & Hg)|Hrej];
    [|by rewrite Hrej in Hd].
  rewrite (dispatch_passed self _ _ _ _ _ _ _ _ _ _ _ _ _ _ _ Hg) in Hd.
  destruct Hg as (_ & _ & Hdq).
  apply bind_Ok in Hd as (K & s2 & _ & Hd).
  apply bind_Ok in Hd as (D & s3 & HD & Hd).
  unfold int_div in HD.
  destruct (Z.eqb_spec (num_attention_heads_ self) 0) as [|Hne]; [done|].
  injection HD as <- <-.
  unfold projection_stage in Hd.
  apply bind_Ok in Hd as (p & s4 & _ & Hd). injection Hd as <- <-.
  repeat split; eauto.
Qed.
End Scoring.

(** ** Write-back of the self-attention cache *)

Section Writeback.
Context {F : Type} `{Kernels F}.
Variable self : MultiHeadedAttention F.

Lemma self_branch_writeback (query_tensor : Tensor F)
    pre_layernorm is_trans_weight B Q hidden D devtype devid
    keys_live values_live s p s1 :
  self_branch self query_tensor pre_layernorm is_trans_weight
    B Q hidden D devtype devid true keys_live values_live s = (Ok p, s1) ->
  exists sk sv k v Kt Vt,
    st_cache s !! "self_keys"%string = Some sk /\
    st_cache s !! "self_values"%string = Some sv /\
    load p.1.2 s1 = (Ok k, s1) /\ load p.2 s1 = (Ok v, s1) /\
    dims k !! 2%nat = Some Kt /\ dims v !! 2%nat = Some Vt /\
    st_cache s1 !! "self_keys"%string =
      Some (Copy k (Reshape sk [B; num_attention_heads_ self; Kt; D]
                      devtype devid)) /\
    st_cache s1 !! "self_values"%string =
      Some (Copy v (Reshape sv [B; num_attention_heads_ self; Vt; D]
                      devtype devid)).
Proof.
  intros Hrun. unfold self_branch in Hrun.
  destruct s as [out att cache heap next trace].
  destruct keys_live, values_live; inv_step Hrun.
  all: cbn [st_cache fst snd]; eexists _, _, _, _, _, _.
  all: split; [eassumption|]; split; [eassumption|].
  all: split;
    [unfold load; cbn [st_heap];
     rewrite ?lookup_insert_eq, ?lookup_insert_ne by lia;
     rewrite ?lookup_insert_eq; reflexivity|].
  all: split;
    [unfold load; cbn [st_heap];
     rewrite ?lookup_insert_eq, ?lookup_insert_ne by lia;
     rewrite ?lookup_insert_eq; reflexivity|].
  all: match goal with
    | |- _ /\ _ /\ ?C =>
        let HC := fresh "HC" in
        assert C as HC
          by (split; [by rewrite lookup_insert_ne, lookup_insert_eq by done
                     |by rewrite lookup_insert_eq]);
        refine (conj _ (conj _ HC)); eassumption
    end.
Qed.
End Writeback.

(** ** Filling the memory cache *)

Section Fill.
Context {F : Type} `{Kernels F}.
Variable self : MultiHeadedAttention F.

Lemma context_branch_fill (key_tensor value_tensor query_tensor : Tensor F)
    pre_layernorm is_trans_weight B Q K hidden D devtype devid s p s1 :
  context_branch self key_tensor value_tensor query_tensor pre_layernorm
    is_trans_weight B Q K hidden D devtype devid true false s = (Ok p, s1) ->
  exists mk mv k_out1 v_out1,
    st_cache s !! "memory_keys"%string = Some mk /\
    st_cache s !! "memory_values"%string = Some mv /\
    dims k_out1 = [B; K; num_attention_heads_ self; D] /\
    dims v_out1 = [B; K; num_attention_heads_ self; D] /\
    contents k_out1 =
      MatMul key_tensor false (k_weight_ self) is_trans_weight f_one
        (Reshape null_tensor [B; K; hidden] devtype devid) f_zero /\
    contents v_out1 =
      MatMul value_tensor false (v_weight_ self) is_trans_weight f_one
        (Reshape null_tensor [B; K; hidden] devtype devid) f_zero /\
    let mk' := Reshape mk [B; num_attention_heads_ self; K; D] devtype devid in
    let mv' := Reshape mv [B; num_attention_heads_ self; K; D] devtype devid in
    st_cache s1 !! "memory_keys"%string =
      Some (with_contents mk'
              (AddBiasTransposeForScore k_out1 (k_bias_ self) mk')) /\
    st_cache s1 !! "memory_values"%string =
      Some (with_contents mv'
              (AddBiasTransposeForScore v_out1 (v_bias_ self) mv')) /\
    p.1.2 = CachePtr "memory_keys" /\ p.2 = CachePtr "memory_values".
Proof.
  intros Hrun. unfold context_branch in Hrun.
  destruct s as [out att cache heap next trace].
  inv_step Hrun.
  all: cbn [st_cache fst snd]; eexists _, _, _, _.
  all: split; [eassumption|]; split; [eassumption|].
  all: match goal with
    | |- _ /\ _ /\ _ /\ _ /\ ?C =>
        let HC := fresh "HC" in
        assert C as HC
          by (cbv zeta; split;
              [by rewrite lookup_insert_eq
              |split; [by rewrite lookup_insert_ne, lookup_insert_eq by done
                      |done]]);
        by refine (conj _ (conj _ (conj _ (conj _ HC))))
    end.
Qed.

Lemma dispatch_context_Ok (key_tensor value_tensor query_tensor : Tensor F)
    pre_layernorm is_trans_weight s d s1 :
  dispatch self key_tensor value_tensor query_tensor "context"
           pre_layernorm is_trans_weight s = (Ok d, s1) ->
  exists B Q K hidden p,
    dims query_tensor = [B; Q; hidden] /\
    dims key_tensor !! 1%nat = Some K /\
    num_attention_heads_ self <> 0 /\
    d = mkDispatched B Q hidden (Z.quot hidden (num_attention_heads_ self))
                     p.1.1 p.1.2 p.2 /\
    context_branch self key_tensor value_tensor query_tensor
      pre_layernorm is_trans_weight
      B Q K hidden (Z.quot hidden (num_attention_heads_ self))
      (device_type query_tensor) (device_id query_tensor)
      (bool_decide (0 < size (st_cache s))%nat)
      (live (st_cache s) "memory_values" && live (st_cache s) "memory_keys") s
    = (Ok p, s1).
Proof.
  intros Hd.
  destruct (dispatch_guard self key_tensor value_tensor query_tensor)
    as [(kb & ks & kh & vs & vh & B & Q & hidden & Hg)|Hrej];
    [|by rewrite Hrej in Hd].
  rewrite (dispatch_passed self _ _ _ _ _ _ _ _ _ _ _ _ _ _ _ Hg) in Hd.
  destruct Hg as (Hk & _ & Hq).
  unfold bind at 1 in Hd. simpl in Hd.
  unfold bind at 1, int_div in Hd.
  destruct (Z.eqb_spec (num_attention_heads_ self) 0) as [|Hne]; [done|].
  simpl in Hd. unfold projection_stage in Hd.
  rewrite binding_flags in Hd. simpl in Hd.
  apply bind_Ok in Hd as (p & s2 & Hb & Hr).
  injection Hr as <- <-. exists B, Q, ks, hidden, p.
  by rewrite Hk.
Qed.

(** The operator fails with its own two kinds of failure only. *)
Lemma operator_call_failures
    (key_tensor value_tensor query_tensor attention_mask : Tensor F)
    attn_type output att_score
    pre_layernorm post_layernorm post_add_input is_trans_weight s e s' :
  operator_call self key_tensor value_tensor query_tensor attention_mask
    attn_type output att_score
    pre_layernorm post_layernorm post_add_input is_trans_weight s
  = (Fail e, s') ->
  own_failure e.
Proof.
  intros Hrun.
  destruct (ensures_operator_call self everything key_tensor value_tensor
              query_tensor attention_mask attn_type output att_score
              pre_layernorm post_layernorm post_add_input is_trans_weight)
    with (s := s) (r := @Fail unit e) (s' := s') as [_ He]; try done.
  all: try (intros _; unfold context_footprint, self_footprint; simpl; tauto).
  - by destruct output.
  - by destruct att_score.
Qed.
End Fill.

(** ** The tensors allocated for the Q, K and V pointers *)

Section Leak.
Context {F : Type} `{Kernels F}.
Variable self : MultiHeadedAttention F.

Lemma self_branch_heap (query_tensor : Tensor F)
    pre_layernorm is_trans_weight B Q hidden D devtype devid
    lcnn keys_live values_live s p s1 :
  self_branch self query_tensor pre_layernorm is_trans_weight
    B Q hidden D devtype devid lcnn keys_live values_live s = (Ok p, s1) ->
  p.1.1 = HeapPtr (st_next s) /\
  (st_next s < st_next s1)%nat /\
  exists q, st_heap s1 !! st_next s = Some q /\
            dims q = [B; num_attention_heads_ self; Q; D].
Proof.
  intros Hrun. unfold self_branch in Hrun.
  destruct s as [out att cache heap next trace].
  destruct lcnn, keys_live, values_live; inv_step Hrun.
  all: cbn [st_heap st_next fst snd]; split; [done|]; split; [lia|].
  all: eexists; split;
    [rewrite ?lookup_insert_ne by lia; by rewrite lookup_insert_eq|done].
Qed.

(** Every successful self-mode call returns with the tensor it allocated
    for Q still allocated. *)
Lemma self_call_leaks_q
    (key_tensor value_tensor query_tensor attention_mask : Tensor F)
    (att_score : ptr F)
    (pre_layernorm post_layernorm post_add_input is_trans_weight : bool)
    (s s' : State F) :
  caller_sink att_score ->
  operator_call self key_tensor value_tensor query_tensor attention_mask
    "self" OutputArg att_score
    pre_layernorm post_layernorm post_add_input is_trans_weight s
  = (Ok tt, s') ->
  is_Some (st_heap s' !! st_next s).
Proof.
  intros Hsink Hrun. unfold operator_call in Hrun.
  apply bind_Ok in Hrun as (d & s1 & Hd & Hs).
  pose proof Hd as Hd'.
  apply dispatch_Ok in Hd' as (_ & _ & _ & Hpq & Hpk & _).
  apply dispatch_self_Ok in Hd as (B & Q & hidden & p & Hq & HH & -> & Hb).
  apply self_branch_heap in Hb as (_ & Hlt & q & Hq' & _).
  destruct Hsink as [-> | ->].
  - apply scoring_att_null in Hs as (_ & _ & _ & Hh).
    rewrite Hh by lia. by rewrite Hq'.
  - apply scoring_att_arg in Hs as (? & ? & ? & ? & _ & _ & _ & _ & _ & Hh);
      [|done..].
    by rewrite Hh, Hq'.
Qed.
End Leak.

(** ** Computations whose checks cannot fail *)

Section Undefined.
Context {F : Type}.

Lemma only_undefined_ret {A} (a : A) : only_undefined (ret a : M F A).
Proof. by intros s e s'. Qed.

Lemma only_undefined_bind {A B} (m : M F A) (k : A -> M F B) :
  only_undefined m -> (forall a, only_undefined (k a)) ->
  only_undefined (bind m k).
Proof.
  intros Hm Hk s e s'. unfold bind.
  destruct (m s) as [[a|e1] s1] eqn:E.
  - apply Hk.
  - intros [= <- <-]. by eapply Hm.
Qed.

Lemma only_undefined_shape (t : Tensor F) pos : only_undefined (shape t pos).
Proof. intros s e s'. unfold shape. destruct (_ !! _); by intros [= <-]. Qed.

Lemma only_undefined_log e : only_undefined (log e : M F unit).
Proof. by intros s e' s'. Qed.

Lemma only_undefined_launch e (out : Tensor F) d :
  only_undefined (launch e out d).
Proof. by intros s e' s'. Qed.

Lemma only_undefined_load (p : ptr F) : only_undefined (load p).
Proof.
  intros s e s'. unfold load. destruct p; repeat case_match; by intros [= <-].
Qed.

Lemma only_undefined_store (p : ptr F) t : only_undefined (store p t).
Proof.
  intros s e s'. unfold store. destruct p; repeat case_match; by intros [= <-].
Qed.

Lemma only_undefined_new_Tensor (t : Tensor F) : only_undefined (new_Tensor t).
Proof. by intros s e s'. Qed.

Lemma only_undefined_delete_Tensor (p : ptr F) :
  only_undefined (delete_Tensor p).
Proof.
  intros s e s'. unfold delete_Tensor.
  destruct p; repeat case_match; by intros [= <-].
Qed.

Lemma only_undefined_layer_cache_at slot :
  only_undefined (layer_cache_at slot : M F (ptr F)).
Proof. intros s e s'. unfold layer_cache_at. by destruct (_ !! _). Qed.

Lemma only_undefined_Reshape_at (p : ptr F) shp devtype devid :
  only_undefined (Reshape_at p shp devtype devid).
Proof.
  unfold Reshape_at. apply only_undefined_bind; [apply only_undefined_load|].
  intros t. apply only_undefined_store.
Qed.

Lemma only_undefined_launch_at e (p : ptr F) k :
  only_undefined (launch_at e p k).
Proof.
  unfold launch_at. apply only_undefined_bind; [apply only_undefined_load|].
  intros t. apply only_undefined_bind; [apply only_undefined_log|].
  intros _. apply only_undefined_store.
Qed.
End Undefined.

Ltac undef_step :=
  lazymatch goal with
  | |- only_undefined (bind _ _) => apply only_undefined_bind; [|intros ?]
  | |- only_undefined (ret _) => apply only_undefined_ret
  | |- only_undefined (shape _ _) => apply only_undefined_shape
  | |- only_undefined (load _) => apply only_undefined_load
  | |- only_undefined (log _) => apply only_undefined_log
  | |- only_undefined (launch _ _ _) => apply only_undefined_launch
  | |- only_undefined (launch_at _ _ _) => apply only_undefined_launch_at
  | |- only_undefined (Reshape_at _ _ _ _) => apply only_undefined_Reshape_at
  | |- only_undefined (new_Tensor _) => apply only_undefined_new_Tensor
  | |- only_undefined (delete_Tensor _) => apply only_undefined_delete_Tensor
  | |- only_undefined (layer_cache_at _) => apply only_undefined_layer_cache_at
  | |- only_undefined (if ?b then _ else _) => destruct b
  | |- only_undefined (match ?x with _ => _ end) => destruct x
  end.

Section UndefinedStages.
Context {F : Type} `{Kernels F}.
Variable self : MultiHeadedAttention F.

Lemma only_undefined_scoring (query_tensor attention_mask : Tensor F)
    output att_score post_layernorm post_add_input is_trans_weight
    B Q hidden D devtype devid q_ptr k_ptr v_ptr :
  only_undefined
    (scoring self query_tensor attention_mask output att_score
       post_layernorm post_add_input is_trans_weight
       B Q hidden D devtype devid q_ptr k_ptr v_ptr).
Proof.
  unfold scoring, output_fusion. cbv zeta. repeat undef_step.
Qed.

(** Past its two device checks the context branch checks nothing more. *)
Lemma only_undefined_context_branch
    (key_tensor value_tensor query_tensor : Tensor F)
    pre_layernorm is_trans_weight B Q K hidden D devtype devid
    layer_cache_not_none memory_not_none :
  is_same_device_ctx (device_ctx query_tensor) (device_ctx value_tensor)
  = true ->
  is_same_device_ctx (device_ctx query_tensor) (device_ctx key_tensor)
  = true ->
  only_undefined
    (context_branch self key_tensor value_tensor query_tensor
       pre_layernorm is_trans_weight B Q K hidden D devtype devid
       layer_cache_not_none memory_not_none).
Proof.
  intros Hv Hk. unfold context_branch. rewrite Hv, Hk.
  unfold TT_ENFORCE_EQ. rewrite bool_decide_eq_true_2 by done.
  cbv zeta. repeat undef_step.
Qed.

(** Without cached keys and values to concatenate with, the self branch
    checks nothing. *)
Lemma only_undefined_self_branch (query_tensor : Tensor F)
    pre_layernorm is_trans_weight B Q hidden D devtype devid
    layer_cache_not_none :
  only_undefined
    (self_branch self query_tensor pre_layernorm is_trans_weight
       B Q hidden D devtype devid layer_cache_not_none false false).
Proof. unfold self_branch. cbv zeta. repeat undef_step. Qed.
End UndefinedStages.

(** ** Calls that return *)

Section Run.
Context {F : Type}.
Implicit Types (s : State F) (t : Tensor F).

Lemma load_AddrOf t s : load (AddrOf t) s = (Ok t, s).
Proof. done. Qed.

Lemma load_OutputArg s : load OutputArg s = (Ok (st_output s), s).
Proof. done. Qed.

Lemma load_AttScoreArg s t :
  st_att_score s = Some t -> load AttScoreArg s = (Ok t, s).
Proof. unfold load. by intros ->. Qed.

Lemma load_CachePtr slot s t :
  st_cache s !! slot = Some t -> load (CachePtr slot) s = (Ok t, s).
Proof. unfold load. by intros ->. Qed.

Lemma load_HeapPtr a s t :
  st_heap s !! a = Some t -> load (HeapPtr a) s = (Ok t, s).
Proof. unfold load. by intros ->. Qed.

Lemma layer_cache_at_Some slot s t :
  st_cache s !! slot = Some t ->
  layer_cache_at slot s = (Ok (CachePtr slot), s).
Proof. unfold layer_cache_at. by intros ->. Qed.

Lemma store_OutputArg t s :
  store OutputArg t s =
  (Ok tt, mkState t (st_att_score s) (st_cache s) (st_heap s) (st_next s)
                  (st_trace s)).
Proof. done. Qed.

Lemma store_AttScoreArg t s t0 :
  st_att_score s = Some t0 ->
  store AttScoreArg t s =
  (Ok tt, mkState (st_output s) (Some t) (st_cache s) (st_heap s) (st_next s)
                  (st_trace s)).
Proof. unfold store. by intros ->. Qed.

Lemma store_CachePtr slot t s t0 :
  st_cache s !! slot = Some t0 ->
  store (CachePtr slot) t s =
  (Ok tt, mkState (st_output s) (st_att_score s) (<[slot := t]> (st_cache s))
                  (st_heap s) (st_next s) (st_trace s)).
Proof. unfold store. by intros ->. Qed.

Lemma store_HeapPtr a t s t0 :
  st_heap s !! a = Some t0 ->
  store (HeapPtr a) t s =
  (Ok tt, mkState (st_output s) (st_att_score s) (st_cache s)
                  (<[a := t]> (st_heap s)) (st_next s) (st_trace s)).
Proof. unfold store. by intros ->. Qed.

Lemma delete_HeapPtr a s t0 :
  st_heap s !! a = Some t0 ->
  delete_Tensor (HeapPtr a) s =
  (Ok tt, mkState (st_output s) (st_att_score s) (st_cache s)
                  (delete a (st_heap s)) (st_next s) (st_trace s)).
Proof. unfold delete_Tensor. by intros ->. Qed.

Lemma layer_cache_at_None slot s :
  st_cache s !! slot = None -> layer_cache_at slot s = (Ok nullptr, s).
Proof. unfold layer_cache_at. by intros ->. Qed.

Lemma load_nullptr s : load nullptr s = (Fail Undefined, s).
Proof. done. Qed.

Lemma shape_run t pos d s :
  dims t !! pos = Some d -> shape t pos s = (Ok d, s).
Proof. unfold shape. by intros ->. Qed.

(** What [points_to] promises survives every write that leaves the cache
    and the tensors allocated so far as they are. *)
Lemma load_points_to s p t s2 :
  points_to s p t ->
  st_cache s2 = st_cache s ->
  (forall a, (a < st_next s)%nat -> st_heap s2 !! a = st_heap s !! a) ->
  load p s2 = (Ok t, s2).
Proof.
  intros Hp Hc Hh. destruct p; try done; simpl in Hp.
  - by subst.
  - unfold load. by rewrite Hc, Hp.
  - destruct Hp as [Hp Ha]. unfold load. by rewrite (Hh _ Ha), Hp.
Qed.
End Run.

(** Forward execution of a computation on a state given by its fields:
    [step] unfolds the binds and the launches up to the next read or
    write of the state, [run_prim] replaces that read or write by its
    result. *)
Ltac step :=
  cbv beta iota zeta delta
    [bind ret launch log launch_at Reshape_at new_Tensor concat_with_cache
     st_output st_att_score st_cache st_heap st_next st_trace fst snd negb].

Ltac solve_lookup :=
  cbn [st_output st_att_score st_cache st_heap st_next st_trace];
  repeat first
    [ rewrite lookup_insert_eq
    | rewrite lookup_insert_ne by (first [done | lia]) ];
  first [eassumption | reflexivity].

Ltac solve_frame :=
  first
    [ reflexivity
    | let a := fresh "a" in
      let Ha := fresh "Ha" in
      intros a Ha;
      cbn [st_output st_att_score st_cache st_heap st_next st_trace] in *;
      rewrite ?lookup_insert_ne by lia; reflexivity ].

Ltac run_prim :=
  first
    [ rewrite load_AddrOf
    | rewrite load_OutputArg
    | rewrite store_OutputArg
    | erewrite load_AttScoreArg by solve_lookup
    | erewrite store_AttScoreArg by solve_lookup
    | erewrite layer_cache_at_Some by solve_lookup
    | rewrite layer_cache_at_None by solve_lookup
    | rewrite load_nullptr
    | erewrite load_CachePtr by solve_lookup
    | erewrite store_CachePtr by solve_lookup
    | erewrite load_HeapPtr by solve_lookup
    | erewrite store_HeapPtr by solve_lookup
    | erewrite delete_HeapPtr by solve_lookup
    | erewrite shape_run by solve_lookup
    | rewrite output_fusion_run
    | match goal with
      | Hp : points_to ?s0 ?p ?t |- context [load ?p ?s2] =>
          rewrite (load_points_to s0 p t s2 Hp) by solve_frame
      end
    | match goal with
      | E : Concat _ _ _ _ = Some _ |- _ => rewrite E
      end ].

Ltac run := step; repeat (run_prim; step).

Section Returns.
Context {F : Type} `{Kernels F}.
Variable self : MultiHeadedAttention F.

(** The scoring returns whenever it can read its three operands, the K
    operand has an axis 2, and the caller's [att_score], if any, is a
    tensor. *)
Lemma scoring_returns
    (query_tensor attention_mask q k v : Tensor F) att_score
    post_layernorm post_add_input is_trans_weight
    B Q hidden D devtype devid q_ptr k_ptr v_ptr Kt s :
  points_to s q_ptr q -> points_to s k_ptr k -> points_to s v_ptr v ->
  dims k !! 2%nat = Some Kt ->
  att_score = nullptr \/
  att_score = AttScoreArg /\ is_Some (st_att_score s) ->
  exists s',
    scoring self query_tensor attention_mask OutputArg att_score
      post_layernorm post_add_input is_trans_weight B Q hidden D
      devtype devid q_ptr k_ptr v_ptr s
    = (Ok tt, s') /\
    st_cache s' = st_cache s.
Proof.
  intros Hq Hk Hv HK Hsink. destruct s as [out att cache heap next trace].
  unfold scoring.
  destruct Hsink as [-> | [-> [a0 Ha]]].
  - run. by eexists.
  - simpl in Ha. subst att. run. by eexists.
Qed.

(** The context branch without a cache map returns, with three
    call-scoped operands of the shapes the scoring expects. *)
Lemma context_branch_returns
    (key_tensor value_tensor query_tensor : Tensor F)
    pre_layernorm is_trans_weight B Q K hidden D devtype devid s :
  is_same_device_ctx (device_ctx query_tensor) (device_ctx value_tensor)
  = true ->
  is_same_device_ctx (device_ctx query_tensor) (device_ctx key_tensor)
  = true ->
  exists q k v tr,
    context_branch self key_tensor value_tensor query_tensor pre_layernorm
      is_trans_weight B Q K hidden D devtype devid false false s
    = (Ok (AddrOf q, AddrOf k, AddrOf v),
       mkState (st_output s) (st_att_score s) (st_cache s) (st_heap s)
               (st_next s) tr) /\
    dims q = [B; num_attention_heads_ self; Q; D] /\
    dims k = [B; num_attention_heads_ self; K; D] /\
    dims v = [B; num_attention_heads_ self; K; D].
Proof.
  intros Hdv Hdk. destruct s as [out att cache heap next trace].
  unfold context_branch, TT_ENFORCE_EQ. rewrite Hdv, Hdk.
  rewrite bool_decide_eq_true_2 by done.
  destruct pre_layernorm; step; eexists _, _, _, _;
    (split; [reflexivity|done]).
Qed.


(** The self branch on a cache map that carries both slots: it returns,
    and leaves in the slots the K and V operands. *)
Lemma self_branch_returns (query_tensor : Tensor F)
    pre_layernorm is_trans_weight B Q hidden D devtype devid s
    ck cv k v Kt Vt :
  let qkv := qkv_projection self query_tensor pre_layernorm is_trans_weight
               B Q hidden D devtype devid in
  st_cache s !! "self_keys"%string = Some ck ->
  st_cache s !! "self_values"%string = Some cv ->
  self_operand ck (subscript qkv 1) = Some k ->
  self_operand cv (subscript qkv 2) = Some v ->
  dims k !! 2%nat = Some Kt -> dims v !! 2%nat = Some Vt ->
  exists p s1,
    self_branch self query_tensor pre_layernorm is_trans_weight
      B Q hidden D devtype devid true
      (negb (is_null ck)) (negb (is_null cv)) s
    = (Ok p, s1) /\
    points_to s1 p.1.1 (subscript qkv 0) /\
    points_to s1 p.1.2 k /\ points_to s1 p.2 v /\
    st_output s1 = st_output s /\ st_att_score s1 = st_att_score s /\
    st_cache s1 =
      <["self_values"%string :=
          Copy v (Reshape cv [B; num_attention_heads_ self; Vt; D]
                    devtype devid)]>
        (<["self_keys"%string :=
             Copy k (Reshape ck [B; num_attention_heads_ self; Kt; D]
                       devtype devid)]> (st_cache s)).
Proof.
  intros qkv Hck Hcv Hk Hv HK HV.
  destruct s as [out att cache heap next trace]; simpl in Hck, Hcv.
  unfold self_operand in Hk, Hv. subst qkv.
  unfold self_branch.
  destruct pre_layernorm, (is_null ck), (is_null cv);
    cbv beta iota zeta delta [qkv_projection] in Hk, Hv;
    try (injection Hk as <-; change (Some Q = Some Kt) in HK;
         injection HK as <-);
    try (injection Hv as <-; change (Some Q = Some Vt) in HV;
         injection HV as <-);
    run.
  all: eexists _, _.
  all: split; [reflexivity|].
  all: cbv beta iota delta [points_to st_heap st_next st_cache].
  all: repeat split; try done; try lia.
  all: try (rewrite ?lookup_insert_ne by lia; by rewrite lookup_insert_eq).
  all: apply map_eq; intros slot;
    destruct (decide (slot = "self_values"%string)) as [->|];
    [by rewrite !lookup_insert_eq|];
    rewrite !(lookup_insert_ne _ "self_values"%string) by done;
    destruct (decide (slot = "self_keys"%string)) as [->|];
    [by rewrite !lookup_insert_eq|];
    by rewrite !lookup_insert_ne by done.
Qed.


End Returns.

Lemma bind_run {F A B} (m : M F A) (k : A -> M F B) s a s1 res :
  m s = (Ok a, s1) -> k a s1 = res -> bind m k s = res.
Proof. intros Hm Hk. unfold bind. by rewrite Hm. Qed.

Lemma bind_fail {F A B} (m : M F A) (k : A -> M F B) s e s1 :
  m s = (Fail e, s1) -> bind m k s = (Fail e, s1).
Proof. intros Hm. unfold bind. by rewrite Hm. Qed.

Section Calls.
Context {F : Type} `{Kernels F}.
Variable self : MultiHeadedAttention F.


Lemma dispatch_context_passed
    (key_tensor value_tensor query_tensor : Tensor F)
    pre_layernorm is_trans_weight s kb ks kh vs vh B Q hidden :
  guard_passes key_tensor value_tensor query_tensor kb ks kh vs vh B Q hidden ->
  num_attention_heads_ self <> 0 ->
  dispatch self key_tensor value_tensor query_tensor "context"
           pre_layernorm is_trans_weight s =
  (ptrs <- context_branch self key_tensor value_tensor query_tensor
             pre_layernorm is_trans_weight
             B Q ks hidden (Z.quot hidden (num_attention_heads_ self))
             (device_type query_tensor) (device_id query_tensor)
             (bool_decide (0 < size (st_cache s))%nat)
             (live (st_cache s) "memory_values" &&
              live (st_cache s) "memory_keys") ;;
   ret (mkDispatched B Q hidden (Z.quot hidden (num_attention_heads_ self))
                     ptrs.1.1 ptrs.1.2 ptrs.2)) s.
Proof.
  intros Hg HH.
  rewrite (dispatch_passed self _ _ _ _ _ _ _ _ _ _ _ _ _ _ _ Hg).
  unfold bind at 1. simpl. unfold bind at 1, int_div.
  rewrite (proj2 (Z.eqb_neq _ _) HH). simpl.
  unfold projection_stage. rewrite binding_flags. reflexivity.
Qed.



(** Past the guard and the two device checks, a context-mode call checks
    nothing more. *)
Lemma context_call_only_undefined
    (key_tensor value_tensor query_tensor attention_mask : Tensor F)
    output att_score
    pre_layernorm post_layernorm post_add_input is_trans_weight
    kb ks kh vs vh B Q hidden :
  guard_passes key_tensor value_tensor query_tensor kb ks kh vs vh B Q hidden ->
  num_attention_heads_ self <> 0 ->
  is_same_device_ctx (device_ctx query_tensor) (device_ctx value_tensor)
  = true ->
  is_same_device_ctx (device_ctx query_tensor) (device_ctx key_tensor)
  = true ->
  only_undefined
    (operator_call self key_tensor value_tensor query_tensor attention_mask
       "context" output att_score
       pre_layernorm post_layernorm post_add_input is_trans_weight).
Proof.
  intros Hg HH Hv Hk. unfold operator_call.
  apply only_undefined_bind; [|intros d; apply only_undefined_scoring].
  intros s e s1 Hd.
  rewrite (dispatch_context_passed _ _ _ _ _ _ _ _ _ _ _ _ _ _ Hg HH) in Hd.
  revert Hd. apply only_undefined_bind.
  - by apply only_undefined_context_branch.
  - intros p. apply only_undefined_ret.
Qed.

Lemma context_call_device_mismatch
    (key_tensor value_tensor query_tensor attention_mask : Tensor F)
    output att_score
    pre_layernorm post_layernorm post_add_input is_trans_weight
    s kb ks kh vs vh B Q hidden :
  guard_passes key_tensor value_tensor query_tensor kb ks kh vs vh B Q hidden ->
  num_attention_heads_ self <> 0 ->
  is_same_device_ctx (device_ctx query_tensor) (device_ctx value_tensor) &&
  is_same_device_ctx (device_ctx query_tensor) (device_ctx key_tensor)
  = false ->
  operator_call self key_tensor value_tensor query_tensor attention_mask
    "context" output att_score
    pre_layernorm post_layernorm post_add_input is_trans_weight s
  = (Fail InvalidArgument, s).
Proof.
  intros Hg HH Hco. unfold operator_call. apply bind_fail.
  rewrite (dispatch_context_passed _ _ _ _ _ _ _ _ _ _ _ _ _ _ Hg HH).
  apply bind_fail. unfold context_branch, TT_ENFORCE_EQ.
  destruct (is_same_device_ctx _ (device_ctx value_tensor)); [|done].
  simpl in Hco. by rewrite Hco.
Qed.

(** A context-mode call without a cache map, on one device, with a tensor
    of the caller's for the scores, returns. *)
Lemma context_call_returns
    (key_tensor value_tensor query_tensor attention_mask : Tensor F)
    pre_layernorm post_layernorm post_add_input is_trans_weight
    s a0 kb ks kh vs vh B Q hidden :
  guard_passes key_tensor value_tensor query_tensor kb ks kh vs vh B Q hidden ->
  num_attention_heads_ self <> 0 ->
  is_same_device_ctx (device_ctx query_tensor) (device_ctx value_tensor)
  = true ->
  is_same_device_ctx (device_ctx query_tensor) (device_ctx key_tensor)
  = true ->
  st_cache s = ∅ ->
  st_att_score s = Some a0 ->
  let H_ := num_attention_heads_ self in
  let D := Z.quot hidden H_ in
  exists s' q k,
    operator_call self key_tensor value_tensor query_tensor attention_mask
      "context" OutputArg AttScoreArg
      pre_layernorm post_layernorm post_add_input is_trans_weight s
    = (Ok tt, s') /\
    dims q = [B; H_; Q; D] /\ dims k = [B; H_; ks; D] /\
    let a1 := Reshape a0 [B; H_; Q; ks]
                (device_type query_tensor) (device_id query_tensor) in
    let scores :=
      with_contents a1 (BatchMatMul q false k true (InvSqrt D) a1 f_zero) in
    st_att_score s' =
      Some (with_contents scores
              (ApplyMaskAndSoftmax scores attention_mask f_one)).
Proof.
  intros Hg HH Hdv Hdk Hc Ha H_ D.
  destruct (context_branch_returns self key_tensor value_tensor query_tensor
              pre_layernorm is_trans_weight B Q ks hidden D
              (device_type query_tensor) (device_id query_tensor) s Hdv Hdk)
    as (q & k & v & tr & Hb & Hq & Hk & Hv).
  set (s1 := mkState (st_output s) (st_att_score s) (st_cache s) (st_heap s)
                     (st_next s) tr) in Hb.
  assert (dims k !! 2%nat = Some ks) as HK by (by rewrite Hk).
  destruct (scoring_returns self query_tensor attention_mask q k v AttScoreArg
              post_layernorm post_add_input is_trans_weight
              B Q hidden D (device_type query_tensor)
              (device_id query_tensor) (AddrOf q) (AddrOf k) (AddrOf v)
              ks s1)
    as (s' & Hs & _); try done.
  { right. split; [done|]. simpl. by rewrite Ha. }
  exists s', q, k. split; [|split; [done|split; [done|]]].
  - unfold operator_call.
    apply (bind_run _ _ s (mkDispatched B Q hidden D (AddrOf q) (AddrOf k)
                             (AddrOf v)) s1); [|exact Hs].
    rewrite (dispatch_context_passed _ _ _ _ _ _ _ _ _ _ _ _ _ _ Hg HH).
    unfold live. rewrite Hc, !lookup_empty, map_size_empty.
    rewrite bool_decide_eq_false_2 by lia.
    eapply bind_run; [exact Hb|reflexivity].
  - apply scoring_att_arg in Hs
      as (q' & k' & K & a0' & Hlq & Hlk & HK' & Ha' & Hatt & _); [|done..].
    injection Hlq as <-. injection Hlk as <-.
    rewrite HK in HK'. injection HK' as <-.
    simpl in Ha'. rewrite Ha in Ha'. injection Ha' as <-.
    exact Hatt.
Qed.
End Calls.

(** * The claims of the specification *)

Section Claims.
Context {F : Type} `{Kernels F}.
Variable self : MultiHeadedAttention F.

(** C1: in a context-mode call whose cache map has [memory_keys] and
    [memory_values] live, the K and V pointers handed to the scoring are
    the two cache pointers, the projection leaves the cache as it was and
    launches kernels for Q only (no K or V projection); and two such
    calls that differ only in the contents of [key_tensor] and
    [value_tensor] (same shapes, same devices) end with the same result
    in the same state: output, attention scores, cache, heap and trace. *)
Theorem C1_context_cache_hit
    (key1 value1 key2 value2 query_tensor attention_mask : Tensor F)
    (output att_score : ptr F)
    (pre_layernorm post_layernorm post_add_input is_trans_weight : bool)
    (s : State F) :
  live (st_cache s) "memory_keys" = true ->
  live (st_cache s) "memory_values" = true ->
  dims key1 = dims key2 -> device_ctx key1 = device_ctx key2 ->
  dims value1 = dims value2 -> device_ctx value1 = device_ctx value2 ->
  (forall d s1,
     dispatch self key1 value1 query_tensor "context"
              pre_layernorm is_trans_weight s = (Ok d, s1) ->
     d_k_ptr d = CachePtr "memory_keys" /\
     d_v_ptr d = CachePtr "memory_values" /\
     st_cache s1 = st_cache s /\
     exists l, st_trace s1 = st_trace s ++ l /\
               Forall (fun e => ev_operand e = for_q) l) /\
  operator_call self key1 value1 query_tensor attention_mask
    "context" output att_score
    pre_layernorm post_layernorm post_add_input is_trans_weight s
  = operator_call self key2 value2 query_tensor attention_mask
    "context" output att_score
    pre_layernorm post_layernorm post_add_input is_trans_weight s.
Proof.
  intros Hlk Hlv Hdk Hck Hdv Hcv. split.
  - intros d s1 Hd.
    destruct (dispatch_guard self key1 value1 query_tensor)
      as [(kb & ks & kh & vs & vh & B & Q & hidden & Hg)|Hrej];
      [|by rewrite Hrej in Hd].
    rewrite (dispatch_passed self _ _ _ _ _ _ _ _ _ _ _ _ _ _ _ Hg) in Hd.
    unfold bind at 1 in Hd. simpl in Hd.
    unfold bind at 1, int_div in Hd.
    destruct (_ =? _); [done|]. simpl in Hd.
    unfold projection_stage in Hd.
    rewrite memory_hit_flags in Hd by done. simpl in Hd.
    unfold bind at 1 in Hd.
    destruct (context_branch _ _ _ _ _ _ _ _ _ _ _ _ _ _ _ s)
      as [[p|e] s2] eqn:Eb; [|done].
    destruct (live_lookup _ _ Hlk) as (mk & Hmk & _).
    destruct (live_lookup _ _ Hlv) as (mv & Hmv & _).
    destruct (context_branch_hit self _ _ _ _ _ _ _ _ _ _ _ _ _ _ _ _ _ _
                Hmk Hmv Eb) as (Hc & Ht & Hp).
    destruct (Hp p eq_refl) as [Hpk Hpv].
    injection Hd as <- <-. simpl. by rewrite Hpk, Hpv.
  - unfold operator_call. unfold bind at 1 2.
    rewrite (dispatch_congr self key1 value1 key2 value2); [done..|].
    intros B Q K hidden D. unfold projection_stage.
    rewrite memory_hit_flags by done. simpl.
    by rewrite (context_branch_hit_congr self key1 value1 key2 value2).
Qed.

(** C2: in a self-mode call whose cache map carries live [self_keys] and
    [self_values] of cached sequence length [L], with [Q] new tokens, after
    the call both slots have length [L + Q] along axis 2, and their first
    [L] positions along that axis are the cached keys and values of before
    the call, cell for cell.  The cached tensors hold as many cells as
    their shape says, and the split kernel fills its output. *)
Theorem C2_self_cache_growth
    (key_tensor value_tensor query_tensor attention_mask : Tensor F)
    (att_score : ptr F)
    (pre_layernorm post_layernorm post_add_input is_trans_weight : bool)
    (s s' : State F) (ck cv : Tensor F) (L Q : Z) :
  st_cache s !! "self_keys"%string = Some ck -> is_null ck = false ->
  st_cache s !! "self_values"%string = Some cv -> is_null cv = false ->
  well_formed ck -> well_formed cv ->
  dims ck !! 2%nat = Some L -> dims cv !! 2%nat = Some L ->
  dims query_tensor !! 1%nat = Some Q -> 0 <= Q ->
  (forall out x b,
     length (SplitAddBiasTransposeForScore out x b) =
     Z.to_nat (numel (dims out))) ->
  caller_sink att_score ->
  operator_call self key_tensor value_tensor query_tensor attention_mask
    "self" OutputArg att_score
    pre_layernorm post_layernorm post_add_input is_trans_weight s
  = (Ok tt, s') ->
  exists nk nv,
    st_cache s' !! "self_keys"%string = Some nk /\
    st_cache s' !! "self_values"%string = Some nv /\
    dims nk !! 2%nat = Some (L + Q) /\
    dims nv !! 2%nat = Some (L + Q) /\
    dims (narrow nk 2 L) = dims ck /\
    contents (narrow nk 2 L) = contents ck /\
    dims (narrow nv 2 L) = dims cv /\
    contents (narrow nv 2 L) = contents cv.
Proof.
  intros Hk Hnk Hv Hnv Hwk Hwv HLk HLv HQ HQ0 Hfill Hsink Hrun.
  unfold operator_call in Hrun.
  apply bind_Ok in Hrun as (d & s1 & Hd & Hs).
  apply scoring_keeps_cache in Hs as ->; [|done].
  apply dispatch_self_Ok in Hd as (B & Q' & hidden & p & Hq & HH & -> & Hb).
  rewrite Hq in HQ. simplify_eq/=.
  rewrite (bool_decide_eq_true_2 _ (lookup_size_pos _ _ _ Hk)) in Hb.
  unfold live in Hb. rewrite Hk, Hv, Hnk, Hnv in Hb. simpl in Hb.
  eapply self_branch_live in Hb; [|exact Hk|exact Hv].
  destruct Hb as (qkv & k & v & Hdq & (out & x & b & Hcq & Hdo) & Hck & Hcv
                  & _ & Hsk & Hsv).
  assert (length (contents qkv) = Z.to_nat (numel (dims qkv))) as Hlen
    by (by rewrite Hcq, Hfill, Hdo).
  destruct (grown_slot ck qkv k 1 _ _ _ _ L (device_type query_tensor)
              (device_id query_tensor) Hwk HLk Hdq) as (? & ? & ?);
    [lia|done..|].
  destruct (grown_slot cv qkv v 2 _ _ _ _ L (device_type query_tensor)
              (device_id query_tensor) Hwv HLv Hdq) as (? & ? & ?);
    [lia|done..|].
  eexists _, _. split; [exact Hsk|]. split; [exact Hsv|]. done.
Qed.

(** C3: in every call that returns, exactly one fusion kernel runs, right
    after the dense projection [gemm5], on the projected output [dense]:
    [AddBias] (output + dense_bias) when [post_add_input] and
    [post_layernorm] are both false; [AddBiasLayerNorm] of the query, the
    bias, gamma and beta when [post_add_input] is false and
    [post_layernorm] is true, with the epsilon the kernel declares as its
    default (the call passes none; [AddBiasLayerNorm_default_eps], 1e-6);
    [AddInputBias] (output + query + dense_bias, no LayerNorm) when
    [post_add_input] is true, whatever [post_layernorm] is. *)
Theorem C3_output_fusion
    (key_tensor value_tensor query_tensor attention_mask : Tensor F)
    (attn_type : string) (att_score : ptr F)
    (pre_layernorm post_layernorm post_add_input is_trans_weight : bool)
    (s s' : State F) :
  caller_sink att_score ->
  operator_call self key_tensor value_tensor query_tensor attention_mask
    attn_type OutputArg att_score
    pre_layernorm post_layernorm post_add_input is_trans_weight s
  = (Ok tt, s') ->
  exists dense l k,
    dims dense = dims query_tensor /\
    st_output s' = with_contents dense k.2 /\
    st_trace s' =
      st_trace s ++ l ++
      [Launch K_MatMul "gemm5" for_out; Launch k.1 "AddBias" for_out] /\
    (post_add_input = false -> post_layernorm = false ->
     k = (K_AddBias, AddBias (dense_bias_ self) dense)) /\
    (post_add_input = false -> post_layernorm = true ->
     k = (K_AddBiasLayerNorm,
          AddBiasLayerNorm query_tensor (dense_bias_ self)
            (layernorm_gamma_ self) (layernorm_beta_ self) dense
            AddBiasLayerNorm_default_eps)) /\
    (post_add_input = true ->
     k = (K_AddInputBias,
          AddInputBias dense query_tensor (dense_bias_ self) dense)).
Proof.
  intros Hsink Hrun. unfold operator_call in Hrun.
  apply bind_Ok in Hrun as (d & s1 & Hd & Hs).
  apply dispatch_Ok in Hd as (Hq & _ & _ & _ & _ & _ & _ & l1 & Hl1).
  apply scoring_output in Hs as (dense & l2 & Hdd & Ho & Ht); [|done].
  exists dense, (l1 ++ l2),
    (fused self query_tensor dense post_layernorm post_add_input).
  split; [by rewrite Hq|]. split; [done|].
  split; [by rewrite Ht, Hl1, <- !app_assoc|].
  unfold fused. by repeat split; intros; subst.
Qed.

(** C4, as amended: a call whose cache map has exactly one of
    [memory_keys] and [memory_values] live is not rejected for it; the
    operator never fails with [InvariantViolation].  In context mode such a
    call is a cache miss: when it returns, both memory slots have been
    reshaped to [B, H, K, D] and hold the fresh projections of
    [key_tensor] and [value_tensor]. *)
Theorem C4_unpaired_memory_is_cache_miss
    (key_tensor value_tensor query_tensor attention_mask : Tensor F)
    (attn_type : string) (att_score : ptr F)
    (pre_layernorm post_layernorm post_add_input is_trans_weight : bool)
    (s s' : State F) (r : result unit) :
  live (st_cache s) "memory_keys" <> live (st_cache s) "memory_values" ->
  caller_sink att_score ->
  operator_call self key_tensor value_tensor query_tensor attention_mask
    attn_type OutputArg att_score
    pre_layernorm post_layernorm post_add_input is_trans_weight s
  = (r, s') ->
  r <> Fail InvariantViolation /\
  (attn_type = "context"%string -> r = Ok tt ->
   exists B Q K hidden mk mv k_out1 v_out1,
     dims query_tensor = [B; Q; hidden] /\
     dims key_tensor !! 1%nat = Some K /\
     st_cache s !! "memory_keys"%string = Some mk /\
     st_cache s !! "memory_values"%string = Some mv /\
     let D := Z.quot hidden (num_attention_heads_ self) in
     let devtype := device_type query_tensor in
     let devid := device_id query_tensor in
     dims k_out1 = [B; K; num_attention_heads_ self; D] /\
     dims v_out1 = [B; K; num_attention_heads_ self; D] /\
     contents k_out1 =
       MatMul key_tensor false (k_weight_ self) is_trans_weight f_one
         (Reshape null_tensor [B; K; hidden] devtype devid) f_zero /\
     contents v_out1 =
       MatMul value_tensor false (v_weight_ self) is_trans_weight f_one
         (Reshape null_tensor [B; K; hidden] devtype devid) f_zero /\
     let mk' := Reshape mk [B; num_attention_heads_ self; K; D] devtype devid in
     let mv' := Reshape mv [B; num_attention_heads_ self; K; D] devtype devid in
     st_cache s' !! "memory_keys"%string =
       Some (with_contents mk'
               (AddBiasTransposeForScore k_out1 (k_bias_ self) mk')) /\
     st_cache s' !! "memory_values"%string =
       Some (with_contents mv'
               (AddBiasTransposeForScore v_out1 (v_bias_ self) mv'))).
Proof.
  intros Hun Hsink Hrun. split.
  - intros ->. apply operator_call_failures in Hrun.
    by destruct Hrun.
  - intros -> ->. unfold operator_call in Hrun.
    apply bind_Ok in Hrun as (d & s1 & Hd & Hs).
    apply scoring_keeps_cache in Hs as ->; [|done].
    apply dispatch_context_Ok in Hd
      as (B & Q & K & hidden & p & Hq & HK & HH & -> & Hb).
    assert (0 < size (st_cache s))%nat as Hpos.
    { unfold live in Hun.
      destruct (st_cache s !! "memory_keys"%string) eqn:Ek;
        [by eapply lookup_size_pos|].
      destruct (st_cache s !! "memory_values"%string) eqn:Ev;
        [by eapply lookup_size_pos|done]. }
    rewrite (bool_decide_eq_true_2 _ Hpos) in Hb.
    replace (live (st_cache s) "memory_values" &&
             live (st_cache s) "memory_keys") with false in Hb
      by (by destruct (live _ "memory_values"), (live _ "memory_keys")).
    apply context_branch_fill in Hb
      as (mk & mv & k1 & v1 & ? & ? & ? & ? & ? & ? & ? & ? & _).
    by exists B, Q, K, hidden, mk, mv, k1, v1.
Qed.


(** C7: a call whose [attn_type] is neither "context" nor "self" fails with
    [InvalidArgument] in the state it started from: no kernel has been
    launched, and the output tensor, the attention scores, the cache and
    the heap are untouched. *)
Theorem C7_unknown_attn_type
    (key_tensor value_tensor query_tensor attention_mask : Tensor F)
    (attn_type : string) (output att_score : ptr F)
    (pre_layernorm post_layernorm post_add_input is_trans_weight : bool)
    (s : State F) :
  attn_type <> "context"%string -> attn_type <> "self"%string ->
  operator_call self key_tensor value_tensor query_tensor attention_mask
    attn_type output att_score
    pre_layernorm post_layernorm post_add_input is_trans_weight s
  = (Fail InvalidArgument, s).
Proof.
  intros Hc Hs. unfold operator_call. unfold bind at 1.
  destruct (dispatch_guard self key_tensor value_tensor query_tensor)
    as [(kb & ks & kh & vs & vh & B & Q & hidden & Hg)|Hrej];
    [|by rewrite Hrej].
  rewrite (dispatch_passed self _ _ _ _ _ _ _ _ _ _ _ _ _ _ _ Hg).
  unfold bind at 1.
  by rewrite (bool_decide_eq_false_2 _ Hc), (bool_decide_eq_false_2 _ Hs).
Qed.

(** C8: for every call that returns, with [d] and [s1] what the projection
    handed over and the state it left: if the caller passed an [att_score]
    tensor, after the call it holds the masked softmax of the scaled
    scores of the Q and K operands, with shape [B, H, Q, K_eff], [K_eff]
    being axis 2 of the K operand; if the caller passed none, a tensor is
    allocated at the next free address and is gone from the heap at
    return, no other heap cell changes, and the caller's attention-score
    object is as it was. *)
Theorem C8_att_score
    (key_tensor value_tensor query_tensor attention_mask : Tensor F)
    (attn_type : string) (att_score : ptr F)
    (pre_layernorm post_layernorm post_add_input is_trans_weight : bool)
    (s s' : State F) :
  operator_call self key_tensor value_tensor query_tensor attention_mask
    attn_type OutputArg att_score
    pre_layernorm post_layernorm post_add_input is_trans_weight s
  = (Ok tt, s') ->
  exists d s1,
    dispatch self key_tensor value_tensor query_tensor attn_type
             pre_layernorm is_trans_weight s = (Ok d, s1) /\
    (att_score = AttScoreArg ->
     exists q k K_eff a0,
       load (d_q_ptr d) s1 = (Ok q, s1) /\
       load (d_k_ptr d) s1 = (Ok k, s1) /\
       dims k !! 2%nat = Some K_eff /\
       st_att_score s = Some a0 /\
       let a1 := Reshape a0 [d_batch_size d; num_attention_heads_ self;
                             d_query_seq_length d; K_eff]
                   (device_type query_tensor) (device_id query_tensor) in
       let scores :=
         with_contents a1
           (BatchMatMul q false k true (InvSqrt (d_size_per_head d))
                        a1 f_zero) in
       let probs :=
         with_contents scores
           (ApplyMaskAndSoftmax scores attention_mask f_one) in
       st_att_score s' = Some probs /\
       dims probs = [d_batch_size d; num_attention_heads_ self;
                     d_query_seq_length d; K_eff] /\
       st_heap s' = st_heap s1) /\
    (att_score = nullptr ->
     st_att_score s' = st_att_score s /\
     st_next s' = S (st_next s1) /\
     st_heap s' !! st_next s1 = None /\
     forall a, a <> st_next s1 -> st_heap s' !! a = st_heap s1 !! a).
Proof.
  intros Hrun. unfold operator_call in Hrun.
  apply bind_Ok in Hrun as (d & s1 & Hd & Hs).
  exists d, s1. split; [done|].
  apply dispatch_Ok in Hd as (_ & _ & _ & Hpq & Hpk & _ & Ha & _).
  split; intros ->.
  - apply scoring_att_arg in Hs as (q & k & K & a0 & Hq & Hk & HK & Ha0 & Hp & Hh);
      [|done..].
    exists q, k, K, a0. rewrite <- Ha. by repeat split.
  - apply scoring_att_null in Hs as (Hs & Hn & Hf & Ho).
    rewrite <- Ha. by repeat split.
Qed.

(** C9, as amended: the operator has no check that the head count divides
    the hidden size.  For a call that passes the guard with a head count
    that is not zero, whether or not the head count divides the hidden
    size: (1) in context mode the operator fails with [InvalidArgument]
    exactly when the query is not on the device of the key and of the
    value; (2) in context mode on one device, without a cache map and
    with a tensor of the caller's for the scores, the call returns; its Q
    and K operands have the shapes [B, H, Q, D] and [B, H, K, D] with [D]
    the truncated quotient [hidden / num_attention_heads], and the scores
    are scaled by the inverse square root of [D]; (3) in either mode, the
    scores of a call that returns are scaled by the inverse square root of
    [D].  The kernels are total functions of their operands: what a
    kernel does with the shapes it receives is outside the operator. *)
Theorem C9_truncated_size_per_head
    (key_tensor value_tensor query_tensor attention_mask : Tensor F)
    (pre_layernorm post_layernorm post_add_input is_trans_weight : bool)
    (s : State F) (kb ks kh vs vh B Q hidden : Z) :
  guard_passes key_tensor value_tensor query_tensor kb ks kh vs vh B Q hidden ->
  num_attention_heads_ self <> 0 ->
  let H_ := num_attention_heads_ self in
  let D := Z.quot hidden H_ in
  let one_device :=
    is_same_device_ctx (device_ctx query_tensor) (device_ctx value_tensor) &&
    is_same_device_ctx (device_ctx query_tensor) (device_ctx key_tensor) in
  (forall output att_score,
     (operator_call self key_tensor value_tensor query_tensor attention_mask
        "context" output att_score
        pre_layernorm post_layernorm post_add_input is_trans_weight s).1
     = Fail InvalidArgument <-> one_device = false) /\
  (forall a0,
     one_device = true -> st_cache s = ∅ -> st_att_score s = Some a0 ->
     exists s' q k,
       operator_call self key_tensor value_tensor query_tensor attention_mask
         "context" OutputArg AttScoreArg
         pre_layernorm post_layernorm post_add_input is_trans_weight s
       = (Ok tt, s') /\
       dims q = [B; H_; Q; D] /\ dims k = [B; H_; ks; D] /\
       let a1 := Reshape a0 [B; H_; Q; ks]
                   (device_type query_tensor) (device_id query_tensor) in
       let scores :=
         with_contents a1 (BatchMatMul q false k true (InvSqrt D) a1 f_zero) in
       st_att_score s' =
         Some (with_contents scores
                 (ApplyMaskAndSoftmax scores attention_mask f_one))) /\
  (forall attn_type s',
     operator_call self key_tensor value_tensor query_tensor attention_mask
       attn_type OutputArg AttScoreArg
       pre_layernorm post_layernorm post_add_input is_trans_weight s
     = (Ok tt, s') ->
     exists q k a1,
       let scores :=
         with_contents a1 (BatchMatMul q false k true (InvSqrt D) a1 f_zero) in
       st_att_score s' =
         Some (with_contents scores
                 (ApplyMaskAndSoftmax scores attention_mask f_one))).
Proof.
  intros Hg HH H_ D one_device. split; [|split].
  - intros output att_score. split.
    + intros Hfail. destruct one_device eqn:Hco; [exfalso|done].
      apply andb_prop in Hco as [Hv Hk].
      destruct (operator_call _ _ _ _ _ _ _ _ _ _ _ _ s) as [r s'] eqn:Hrun.
      simpl in Hfail. subst r.
      by apply (context_call_only_undefined self _ _ _ _ _ _ _ _ _ _
                  _ _ _ _ _ _ _ _ Hg HH Hv Hk) in Hrun.
    + intros Hco.
      by rewrite (context_call_device_mismatch self _ _ _ _ _ _ _ _ _ _
                    _ _ _ _ _ _ _ _ _ Hg HH Hco).
  - intros a0 Hco Hc Ha. apply andb_prop in Hco as [Hv Hk].
    by apply (context_call_returns self _ _ _ _ _ _ _ _ _ _ kb ks kh vs vh).
  - intros attn_type s' Hrun. unfold operator_call in Hrun.
    apply bind_Ok in Hrun as (d & s1 & Hd & Hs).
    apply dispatch_Ok in Hd as (Hq & _ & HD & Hpq & Hpk & _).
    apply scoring_att_arg in Hs
      as (q & k & K & a0 & _ & _ & _ & _ & Hatt & _); [|done..].
    destruct Hg as (_ & _ & Hq'). rewrite Hq' in Hq. simplify_eq.
    rewrite HD in Hatt. by eexists q, k, _.
Qed.

(** C10: a self-mode call that passes the guard (the three inputs of rank
    3, [key.shape(0) == value.shape(0)]) reads neither [key_tensor] nor
    [value_tensor] any further: two runs that differ only in these two
    tensors, whatever their contents, devices and remaining dimensions,
    end with the same result in the same state (output, attention scores,
    cache, heap and trace). *)
Theorem C10_self_ignores_key_value
    (key1 value1 key2 value2 query_tensor attention_mask : Tensor F)
    (output att_score : ptr F)
    (pre_layernorm post_layernorm post_add_input is_trans_weight : bool)
    (s : State F) :
  n_dim key1 = 3 -> n_dim value1 = 3 ->
  dims key1 !! 0%nat = dims value1 !! 0%nat ->
  n_dim key2 = 3 -> n_dim value2 = 3 ->
  dims key2 !! 0%nat = dims value2 !! 0%nat ->
  operator_call self key1 value1 query_tensor attention_mask
    "self" output att_score
    pre_layernorm post_layernorm post_add_input is_trans_weight s
  = operator_call self key2 value2 query_tensor attention_mask
    "self" output att_score
    pre_layernorm post_layernorm post_add_input is_trans_weight s.
Proof.
  intros (kb1 & ks1 & kh1 & Hk1)%n_dim_3 (vb1 & vs1 & vh1 & Hv1)%n_dim_3 Hb1
         (kb2 & ks2 & kh2 & Hk2)%n_dim_3 (vb2 & vs2 & vh2 & Hv2)%n_dim_3 Hb2.
  rewrite Hk1, Hv1 in Hb1. rewrite Hk2, Hv2 in Hb2. simplify_eq/=.
  unfold operator_call. unfold bind at 1 2.
  destruct (decide (n_dim query_tensor = 3))
    as [(B & Q & hidden & Hq)%n_dim_3|Hq].
  - rewrite (dispatch_passed self key1 value1 query_tensor
               _ _ _ _ vb1 ks1 kh1 vs1 vh1 B Q hidden) by done.
    rewrite (dispatch_passed self key2 value2 query_tensor
               _ _ _ _ vb2 ks2 kh2 vs2 vh2 B Q hidden) by done.
    reflexivity.
  - unfold dispatch, bind, TT_ENFORCE_EQ, n_dim in *.
    rewrite Hk1, Hv1, Hk2, Hv2. simpl.
    by rewrite (bool_decide_eq_false_2 _ Hq).
Qed.
End Claims.

(** * The claims on the reference operator *)

Lemma length_iota out base :
  length (iota out base) = Z.to_nat (numel (dims out)).
Proof. unfold iota. by rewrite length_map, length_seq. Qed.

Lemma C1_witness :
  operator_call (H := ref_kernels) (ref_weights 2)
    ref_key ref_value ref_query ref_mask "context" OutputArg AttScoreArg
    false false false false (initial_state (Some null_tensor) memory_cache) =
  operator_call (H := ref_kernels) (ref_weights 2)
    other_key other_value ref_query ref_mask "context" OutputArg AttScoreArg
    false false false false (initial_state (Some null_tensor) memory_cache).
Proof.
  apply (C1_context_cache_hit (H := ref_kernels) (ref_weights 2)
           ref_key ref_value other_key other_value ref_query ref_mask
           OutputArg AttScoreArg false false false false
           (initial_state (Some null_tensor) memory_cache));
    vm_compute; reflexivity.
Defined.

Lemma C2_witness :
  exists nk nv,
    st_cache (ref_call 2 "self" nullptr None self_cache).2
      !! "self_keys"%string = Some nk /\
    st_cache (ref_call 2 "self" nullptr None self_cache).2
      !! "self_values"%string = Some nv /\
    dims nk !! 2%nat = Some (1 + 2) /\
    dims nv !! 2%nat = Some (1 + 2) /\
    dims (narrow nk 2 1) = [1; 2; 1; 2] /\
    contents (narrow nk 2 1) = [50; 51; 52; 53] /\
    dims (narrow nv 2 1) = [1; 2; 1; 2] /\
    contents (narrow nv 2 1) = [60; 61; 62; 63].
Proof.
  apply (C2_self_cache_growth (H := ref_kernels) (ref_weights 2)
           ref_key ref_value ref_query ref_mask nullptr
           false false false false (initial_state None self_cache)
           (ref_call 2 "self" nullptr None self_cache).2
           (tensor_of [1; 2; 1; 2] 50) (tensor_of [1; 2; 1; 2] 60) 1 2);
    try (vm_compute; reflexivity).
  - split; [by repeat constructor|vm_compute; reflexivity].
  - split; [by repeat constructor|vm_compute; reflexivity].
  - lia.
  - intros out x b. apply length_iota.
  - by left.
Defined.

Lemma C3_witness :
  exists dense l k,
    dims dense = dims ref_query /\
    st_output (ref_call 2 "context" nullptr None ∅).2 =
      with_contents dense k.2 /\
    st_trace (ref_call 2 "context" nullptr None ∅).2 =
      st_trace (initial_state None ∅) ++ l ++
      [Launch K_MatMul "gemm5" for_out; Launch k.1 "AddBias" for_out] /\
    k = (K_AddBias,
         AddBias (Kernels := ref_kernels) (dense_bias_ (ref_weights 2)) dense).
Proof.
  destruct (C3_output_fusion (H := ref_kernels) (ref_weights 2)
              ref_key ref_value ref_query ref_mask "context" nullptr
              false false false false (initial_state None ∅)
              (ref_call 2 "context" nullptr None ∅).2)
    as (dense & l & k & Hd & Ho & Ht & Hk & _).
  - by left.
  - vm_compute; reflexivity.
  - exists dense, l, k.
    split; [exact Hd|]. split; [exact Ho|]. split; [exact Ht|].
    by apply Hk.
Defined.

(** The unpaired call returns normally. *)
Lemma C4_counterexample :
  live unpaired_cache "memory_keys" = true /\
  live unpaired_cache "memory_values" = false /\
  (ref_call 2 "context" nullptr None unpaired_cache).1 = Ok tt /\
  st_cache (ref_call 2 "context" nullptr None unpaired_cache).2
    !! "memory_keys"%string <> unpaired_cache !! "memory_keys"%string.
Proof. vm_compute. by repeat split. Qed.

Lemma C4_witness :
  (ref_call 2 "context" nullptr None unpaired_cache).1
  <> Fail InvariantViolation.
Proof.
  destruct (C4_unpaired_memory_is_cache_miss (H := ref_kernels)
              (ref_weights 2)
              ref_key ref_value ref_query ref_mask "context" nullptr
              false false false false (initial_state None unpaired_cache)
              (ref_call 2 "context" nullptr None unpaired_cache).2
              (ref_call 2 "context" nullptr None unpaired_cache).1)
    as [Hne _].
  - vm_compute. discriminate.
  - by left.
  - vm_compute; reflexivity.
  - exact Hne.
Defined.



(** C6, at the failing input: a self-mode call with an empty cache map
    and no [att_score] returns normally with three tensors still on the
    heap, those allocated for the Q, K and V pointers; the one allocated
    for [att_score] (address 3) is the only one reclaimed. *)
Theorem C6_self_call_leaks_three_tensors :
  (ref_call 2 "self" nullptr None ∅).1 = Ok tt /\
  dims <$> st_heap (ref_call 2 "self" nullptr None ∅).2 !! 0%nat
    = Some [1; 2; 2; 2] /\
  dims <$> st_heap (ref_call 2 "self" nullptr None ∅).2 !! 1%nat
    = Some [1; 2; 2; 2] /\
  dims <$> st_heap (ref_call 2 "self" nullptr None ∅).2 !! 2%nat
    = Some [1; 2; 2; 2] /\
  st_heap (ref_call 2 "self" nullptr None ∅).2 !! 3%nat = None /\
  size (st_heap (ref_call 2 "self" nullptr None ∅).2) = 3%nat.
Proof. vm_compute. by repeat split. Qed.

Lemma C7_witness :
  operator_call (H := ref_kernels) (ref_weights 2)
    ref_key ref_value ref_query ref_mask "cross" OutputArg nullptr
    false false false false (initial_state None memory_cache)
  = (Fail InvalidArgument, initial_state None memory_cache).
Proof.
  apply (C7_unknown_attn_type (H := ref_kernels)); discriminate.
Defined.

Lemma C8_witness :
  exists d s1,
    dispatch (H := ref_kernels) (ref_weights 2) ref_key ref_value ref_query
      "context" false false (initial_state (Some null_tensor) ∅)
    = (Ok d, s1) /\
    exists probs,
      st_att_score
        (ref_call 2 "context" AttScoreArg (Some null_tensor) ∅).2
      = Some probs.
Proof.
  destruct (C8_att_score (H := ref_kernels) (ref_weights 2)
              ref_key ref_value ref_query ref_mask "context" AttScoreArg
              false false false false (initial_state (Some null_tensor) ∅)
              (ref_call 2 "context" AttScoreArg (Some null_tensor) ∅).2)
    as (d & s1 & Hd & Harg & _).
  - vm_compute; reflexivity.
  - exists d, s1. split; [exact Hd|].
    destruct (Harg eq_refl) as (q & k & K & a0 & _ & _ & _ & _ & Hp & _).
    eexists. exact Hp.
Defined.

(** Three heads do not divide a hidden size of four.  Every kernel of the
    call receives operands whose shapes fit together; the call returns,
    with scores of shape [B, H, Q, K] = [1, 3, 2, 3] and an output of
    shape [B, Q, hidden] = [1, 2, 4]. *)
Lemma C9_counterexample :
  Z.rem 4 (num_attention_heads_ odd_weights) <> 0 /\
  dims ref_query = [1; 2; 4] /\
  odd_call.1 = Ok tt /\
  dims <$> st_att_score odd_call.2 = Some [1; 3; 2; 3] /\
  dims (st_output odd_call.2) = [1; 2; 4].
Proof.
  split; [vm_compute; discriminate|].
  repeat split; vm_compute; reflexivity.
Qed.

Lemma C9_witness :
  exists s' q k,
    odd_call = (Ok tt, s') /\
    dims q = [1; 3; 2; Z.quot 4 3] /\ dims k = [1; 3; 3; Z.quot 4 3] /\
    let a1 := Reshape null_tensor [1; 3; 2; 3] HostCPU 0 in
    let scores :=
      with_contents a1
        (BatchMatMul (Kernels := ref_kernels) q false k true
           (InvSqrt (Z.quot 4 3)) a1 f_zero) in
    st_att_score s' =
      Some (with_contents scores
              (ApplyMaskAndSoftmax (Kernels := ref_kernels)
                 scores ref_mask f_one)).
Proof.
  destruct (C9_truncated_size_per_head (H := ref_kernels) odd_weights
              ref_key ref_value ref_query ref_mask
              false false false false
              (initial_state (Some null_tensor) ∅) 1 3 4 3 4 1 2 4)
    as (_ & Hret & _).
  - by repeat split.
  - discriminate.
  - apply (Hret null_tensor); reflexivity.
Defined.

Lemma C10_witness :
  operator_call (H := ref_kernels) (ref_weights 2)
    ref_key ref_value ref_query ref_mask "self" OutputArg AttScoreArg
    false false false false (initial_state (Some null_tensor) ∅)
  = operator_call (H := ref_kernels) (ref_weights 2)
    (tensor_of [5; 1; 7] 9)
    (mkTensor false [5; 2; 3] (mkDeviceCtx Accelerator 1) [])
    ref_query ref_mask "self" OutputArg AttScoreArg
    false false false false (initial_state (Some null_tensor) ∅).
Proof.
  apply (C10_self_ignores_key_value (H := ref_kernels));
    vm_compute; reflexivity.
Defined.

(** * Further properties of the dispatcher *)

(** ** Calls that are rejected *)

Section Rejections.
Context {F : Type} `{Kernels F}.
Variable self : MultiHeadedAttention F.

(** X1: a call in which one of the three inputs is not of rank 3, or in
    which [key_tensor.shape(0)] differs from [value_tensor.shape(0)], is
    rejected with [InvalidArgument] in the state it started from, whatever
    the attention type, the pointers and the flags. *)
Theorem X1_guard_rejects
    (key_tensor value_tensor query_tensor attention_mask : Tensor F)
    (attn_type : string) (output att_score : ptr F)
    (pre_layernorm post_layernorm post_add_input is_trans_weight : bool)
    (s : State F) :
  n_dim key_tensor <> 3 \/ n_dim value_tensor <> 3 \/
  n_dim query_tensor <> 3 \/
  dims key_tensor !! 0%nat <> dims value_tensor !! 0%nat ->
  operator_call self key_tensor value_tensor query_tensor attention_mask
    attn_type output att_score
    pre_layernorm post_layernorm post_add_input is_trans_weight s
  = (Fail InvalidArgument, s).
Proof.
  intros Hbad. unfold operator_call. unfold bind at 1.
  destruct (dispatch_guard self key_tensor value_tensor query_tensor)
    as [(kb & ks & kh & vs & vh & B & Q & hidden & Hk & Hv & Hq)|Hrej];
    [|by rewrite Hrej].
  exfalso. unfold n_dim in Hbad. rewrite Hk, Hv, Hq in Hbad. simpl in Hbad.
  by destruct Hbad as [?|[?|[?|?]]].
Qed.

(** X2: a context-mode call that passes the guard, with a head count that
    is not zero, in which [value_tensor] or [key_tensor] is not on the
    device of [query_tensor], is rejected with [InvalidArgument] in the
    state it started from: the device checks of lines 118-127 come before
    the first kernel. *)
Theorem X2_context_device_mismatch
    (key_tensor value_tensor query_tensor attention_mask : Tensor F)
    (output att_score : ptr F)
    (pre_layernorm post_layernorm post_add_input is_trans_weight : bool)
    (s : State F) (kb ks kh vs vh B Q hidden : Z) :
  guard_passes key_tensor value_tensor query_tensor kb ks kh vs vh B Q hidden ->
  num_attention_heads_ self <> 0 ->
  is_same_device_ctx (device_ctx query_tensor) (device_ctx value_tensor) = false \/
  is_same_device_ctx (device_ctx query_tensor) (device_ctx key_tensor) = false ->
  operator_call self key_tensor value_tensor query_tensor attention_mask
    "context" output att_score
    pre_layernorm post_layernorm post_add_input is_trans_weight s
  = (Fail InvalidArgument, s).
Proof.
  intros Hg HH Hdev. unfold operator_call. unfold bind at 1.
  rewrite (dispatch_passed self _ _ _ _ _ _ _ _ _ _ _ _ _ _ _ Hg).
  unfold bind at 1. simpl. unfold bind at 1, int_div.
  destruct (Z.eqb_spec (num_attention_heads_ self) 0) as [|_]; [done|].
  simpl. unfold projection_stage. simpl. unfold bind at 1.
  unfold context_branch, TT_ENFORCE_EQ.
  destruct Hdev as [-> | Hk]; [done|].
  destruct (is_same_device_ctx _ (device_ctx value_tensor)); [|done].
  by rewrite Hk.
Qed.

(** X3: no check protects the division of line 76.  With a head count of
    zero, a call that passes the guard with a known attention type divides
    by zero, which is undefined, before it has launched or written
    anything. *)
Theorem X3_zero_heads
    (key_tensor value_tensor query_tensor attention_mask : Tensor F)
    (attn_type : string) (output att_score : ptr F)
    (pre_layernorm post_layernorm post_add_input is_trans_weight : bool)
    (s : State F) (kb ks kh vs vh B Q hidden : Z) :
  guard_passes key_tensor value_tensor query_tensor kb ks kh vs vh B Q hidden ->
  attn_type = "context"%string \/ attn_type = "self"%string ->
  num_attention_heads_ self = 0 ->
  operator_call self key_tensor value_tensor query_tensor attention_mask
    attn_type output att_score
    pre_layernorm post_layernorm post_add_input is_trans_weight s
  = (Fail Undefined, s).
Proof.
  intros Hg Ht HH. unfold operator_call. unfold bind at 1.
  rewrite (dispatch_passed self _ _ _ _ _ _ _ _ _ _ _ _ _ _ _ Hg).
  unfold bind at 1, int_div. rewrite HH.
  by destruct Ht as [-> | ->].
Qed.
End Rejections.

(** ** Failures of a context-mode call *)

Section Failures.
Context {F : Type} `{Kernels F}.
Variable self : MultiHeadedAttention F.

(** A context-mode projection fails with [InvalidArgument] only at the
    guard or at a device check, before it has written anything. *)
Lemma dispatch_context_rejected
    (key_tensor value_tensor query_tensor : Tensor F)
    pre_layernorm is_trans_weight s s1 :
  dispatch self key_tensor value_tensor query_tensor "context"
           pre_layernorm is_trans_weight s = (Fail InvalidArgument, s1) ->
  s1 = s.
Proof.
  intros Hd.
  destruct (dispatch_guard self key_tensor value_tensor query_tensor)
    as [(kb & ks & kh & vs & vh & B & Q & hidden & Hg)|Hrej];
    [|rewrite Hrej in Hd by done; by injection Hd].
  rewrite (dispatch_passed self _ _ _ _ _ _ _ _ _ _ _ _ _ _ _ Hg) in Hd.
  unfold bind at 1 in Hd. simpl in Hd. unfold bind at 1, int_div in Hd.
  destruct (_ =? _); [done|]. simpl in Hd.
  unfold projection_stage in Hd. simpl in Hd.
  destruct (is_same_device_ctx (device_ctx query_tensor)
              (device_ctx value_tensor)) eqn:Ev;
    [|unfold bind at 1, context_branch, TT_ENFORCE_EQ in Hd;
      rewrite Ev in Hd; by injection Hd].
  destruct (is_same_device_ctx (device_ctx query_tensor)
              (device_ctx key_tensor)) eqn:Ek;
    [|unfold bind at 1, context_branch, TT_ENFORCE_EQ in Hd;
      rewrite Ev, Ek in Hd; by injection Hd].
  exfalso. revert Hd.
  match goal with
  | |- bind ?m ?k ?s = _ -> _ =>
      intros Hd;
      assert (only_undefined (bind m k)) as Hu
        by (apply only_undefined_bind;
            [by apply only_undefined_context_branch
            |intros ?; apply only_undefined_ret])
  end.
  by apply Hu in Hd.
Qed.

(** X4: a context-mode call that ends in [InvalidArgument] has had no
    effect at all: the state is the one it started from.  The checks of
    the context branch all come before its first kernel, and nothing the
    call does after them is checked. *)
Theorem X4_context_rejection_has_no_effect
    (key_tensor value_tensor query_tensor attention_mask : Tensor F)
    (output att_score : ptr F)
    (pre_layernorm post_layernorm post_add_input is_trans_weight : bool)
    (s s' : State F) :
  operator_call self key_tensor value_tensor query_tensor attention_mask
    "context" output att_score
    pre_layernorm post_layernorm post_add_input is_trans_weight s
  = (Fail InvalidArgument, s') ->
  s' = s.
Proof.
  unfold operator_call, bind.
  destruct (dispatch _ _ _ _ _ _ _ s) as [[d|e] s1] eqn:Hd.
  - intros Hs. by apply only_undefined_scoring in Hs.
  - intros [= -> <-]. by eapply dispatch_context_rejected.
Qed.
End Failures.

(** ** Cache maps that lack a slot *)

Section MissingSlot.
Context {F : Type} `{Kernels F}.
Variable self : MultiHeadedAttention F.

Lemma size_pos_non_empty (m : gmap string (Tensor F)) :
  m <> ∅ -> bool_decide (0 < size m)%nat = true.
Proof.
  intros Hne. apply bool_decide_eq_true_2.
  by apply Nat.neq_0_lt_0, map_size_non_empty_iff.
Qed.

(** X5: a cache map that is not empty but lacks [memory_keys] or
    [memory_values] is no cache miss in context mode.  A call that passes
    the guard and the device checks reaches lines 191-196, where the null
    pointer that [layer_cache[...]] inserts for the absent key is
    dereferenced: the behaviour is undefined. *)
Theorem X5_context_missing_slot
    (key_tensor value_tensor query_tensor attention_mask : Tensor F)
    (output att_score : ptr F)
    (pre_layernorm post_layernorm post_add_input is_trans_weight : bool)
    (s : State F) (kb ks kh vs vh B Q hidden : Z) :
  guard_passes key_tensor value_tensor query_tensor kb ks kh vs vh B Q hidden ->
  num_attention_heads_ self <> 0 ->
  is_same_device_ctx (device_ctx query_tensor) (device_ctx value_tensor)
  = true ->
  is_same_device_ctx (device_ctx query_tensor) (device_ctx key_tensor)
  = true ->
  st_cache s <> ∅ ->
  st_cache s !! "memory_keys"%string = None \/
  st_cache s !! "memory_values"%string = None ->
  (operator_call self key_tensor value_tensor query_tensor attention_mask
     "context" output att_score
     pre_layernorm post_layernorm post_add_input is_trans_weight s).1
  = Fail Undefined.
Proof.
  intros Hg HH Hdv Hdk Hne Hmiss.
  assert (live (st_cache s) "memory_values" && live (st_cache s) "memory_keys"
          = false) as Hlive.
  { destruct Hmiss as [E|E]; rewrite (live_absent _ _ E);
      [apply andb_false_r|done]. }
  unfold operator_call. unfold bind at 1.
  rewrite (dispatch_passed self _ _ _ _ _ _ _ _ _ _ _ _ _ _ _ Hg).
  unfold bind at 1. simpl. unfold bind at 1, int_div.
  destruct (Z.eqb_spec (num_attention_heads_ self) 0) as [|_]; [done|].
  simpl. unfold projection_stage.
  rewrite binding_flags, size_pos_non_empty by done. simpl. rewrite Hlive.
  unfold bind at 1.
  destruct (context_branch _ _ _ _ _ _ _ _ _ _ _ _ _ _ _ s)
    as [[p|e] s1] eqn:Hb; simpl.
  - exfalso. apply context_branch_fill in Hb
      as (mk & mv & _ & _ & Hk & Hv & _).
    destruct Hmiss; congruence.
  - apply only_undefined_context_branch in Hb; [|done..]. by subst.
Qed.

(** X6: a self-mode call on a cache map that is not empty but lacks
    [self_keys] or [self_values] never returns normally; when neither slot
    is live and the guard is passed, it ends at lines 288-293 in the
    dereference of the null pointer inserted for the absent key. *)
Theorem X6_self_missing_slot
    (key_tensor value_tensor query_tensor attention_mask : Tensor F)
    (att_score : ptr F)
    (pre_layernorm post_layernorm post_add_input is_trans_weight : bool)
    (s s' : State F) (r : result unit) :
  st_cache s <> ∅ ->
  st_cache s !! "self_keys"%string = None \/
  st_cache s !! "self_values"%string = None ->
  operator_call self key_tensor value_tensor query_tensor attention_mask
    "self" OutputArg att_score
    pre_layernorm post_layernorm post_add_input is_trans_weight s
  = (r, s') ->
  r <> Ok tt /\
  (forall kb ks kh vs vh B Q hidden,
     guard_passes key_tensor value_tensor query_tensor
                  kb ks kh vs vh B Q hidden ->
     live (st_cache s) "self_keys" = false ->
     live (st_cache s) "self_values" = false ->
     r = Fail Undefined).
Proof.
  intros Hne Hmiss Hrun. split.
  - intros ->. unfold operator_call in Hrun.
    apply bind_Ok in Hrun as (d & s1 & Hd & _).
    apply dispatch_self_Ok in Hd as (B & Q & hidden & p & _ & _ & _ & Hb).
    rewrite size_pos_non_empty in Hb by done.
    apply self_branch_writeback in Hb as (sk & sv & _ & _ & _ & _ & Hk & Hv & _).
    destruct Hmiss; congruence.
  - intros kb ks kh vs vh B Q hidden Hg Hlk Hlv.
    revert Hrun. unfold operator_call. unfold bind at 1.
    rewrite (dispatch_passed self _ _ _ _ _ _ _ _ _ _ _ _ _ _ _ Hg).
    unfold bind at 1. simpl. unfold bind at 1, int_div.
    destruct (_ =? _); [by intros [= <- _]|].
    simpl. unfold projection_stage.
    rewrite binding_flags, size_pos_non_empty by done. simpl.
    rewrite Hlk, Hlv. unfold bind at 1.
    destruct (self_branch _ _ _ _ _ _ _ _ _ _ _ _ _ s)
      as [[p|e] s1] eqn:Hsb; simpl.
    + exfalso.
      apply self_branch_writeback in Hsb
        as (sk & sv & _ & _ & _ & _ & Hsk & Hsv & _).
      destruct Hmiss; congruence.
    + intros [= <- _]. apply only_undefined_self_branch in Hsb. by subst.
Qed.
End MissingSlot.

(** ** What each mode leaves alone *)

Section ModeFrames.
Context {F : Type} `{Kernels F}.
Variable self : MultiHeadedAttention F.

(** X7: a self-mode call leaves every cache entry other than [self_keys]
    and [self_values] as it was, however it ends; in particular it never
    touches the memory slots of the same map. *)
Theorem X7_self_mode_cache_frame
    (key_tensor value_tensor query_tensor attention_mask : Tensor F)
    (att_score : ptr F)
    (pre_layernorm post_layernorm post_add_input is_trans_weight : bool)
    (s s' : State F) (r : result unit) :
  caller_sink att_score ->
  operator_call self key_tensor value_tensor query_tensor attention_mask
    "self" OutputArg att_score
    pre_layernorm post_layernorm post_add_input is_trans_weight s
  = (r, s') ->
  forall slot, slot <> "self_keys"%string -> slot <> "self_values"%string ->
    st_cache s' !! slot = st_cache s !! slot.
Proof.
  intros Hsink Hrun.
  destruct (ensures_operator_call self self_slots key_tensor value_tensor
              query_tensor attention_mask "self" OutputArg att_score
              pre_layernorm post_layernorm post_add_input is_trans_weight)
    with (s := s) (r := r) (s' := s') as [(_ & _ & Hc & _) _];
    try done.
  { repeat split; simpl; auto. }
  { by destruct Hsink as [-> | ->]. }
  intros slot Hk Hv. apply Hc. simpl. tauto.
Qed.

(** X8: a context-mode call leaves every cache entry other than
    [memory_keys] and [memory_values] as it was and creates no entry,
    however it ends; when the caller passes an [att_score] tensor, it
    neither allocates nor frees anything. *)
Theorem X8_context_mode_frame
    (key_tensor value_tensor query_tensor attention_mask : Tensor F)
    (att_score : ptr F)
    (pre_layernorm post_layernorm post_add_input is_trans_weight : bool)
    (s s' : State F) (r : result unit) :
  caller_sink att_score ->
  operator_call self key_tensor value_tensor query_tensor attention_mask
    "context" OutputArg att_score
    pre_layernorm post_layernorm post_add_input is_trans_weight s
  = (r, s') ->
  (forall slot, slot <> "memory_keys"%string -> slot <> "memory_values"%string ->
     st_cache s' !! slot = st_cache s !! slot) /\
  (forall slot, st_cache s !! slot = None -> st_cache s' !! slot = None) /\
  (att_score = AttScoreArg ->
   st_heap s' = st_heap s /\ st_next s' = st_next s).
Proof.
  intros Hsink Hrun.
  destruct (ensures_operator_call self
              (memory_slots (if att_score is nullptr then true else false))
              key_tensor value_tensor
              query_tensor attention_mask "context" OutputArg att_score
              pre_layernorm post_layernorm post_add_input is_trans_weight)
    with (s := s) (r := r) (s' := s') as [(_ & _ & Hc & Hn & Hh & _) _];
    try done.
  { repeat split; simpl; auto. }
  { by destruct Hsink as [-> | ->]. }
  { by intros ->. }
  split; [|split; [done|]].
  - intros slot Hk Hv. apply Hc. simpl. tauto.
  - intros ->. by apply Hh.
Qed.
End ModeFrames.

(** ** The heap *)

Section Heap.
Context {F : Type} `{Kernels F}.
Variable self : MultiHeadedAttention F.

(** The projection of a context-mode call leaves the heap alone. *)
Lemma dispatch_context_heap
    (key_tensor value_tensor query_tensor : Tensor F)
    pre_layernorm is_trans_weight s r s1 :
  dispatch self key_tensor value_tensor query_tensor "context"
           pre_layernorm is_trans_weight s = (r, s1) ->
  st_heap s1 = st_heap s /\ st_next s1 = st_next s.
Proof.
  intros Hd.
  destruct (ensures_dispatch self (memory_slots false) key_tensor value_tensor
              query_tensor "context" pre_layernorm is_trans_weight)
    with (s := s) (r := r) (s' := s1) as [(_ & _ & _ & _ & Hh & _) _];
    try done.
  - repeat split; simpl; auto.
  - by apply Hh.
Qed.

(** X9: a context-mode call that returns leaves nothing behind on the
    heap: no cell that was free is allocated at return, and no cell other
    than the one at the next free address (the call-scoped [att_score],
    released at line 401) has changed. *)
Theorem X9_context_mode_no_leak
    (key_tensor value_tensor query_tensor attention_mask : Tensor F)
    (att_score : ptr F)
    (pre_layernorm post_layernorm post_add_input is_trans_weight : bool)
    (s s' : State F) :
  caller_sink att_score ->
  operator_call self key_tensor value_tensor query_tensor attention_mask
    "context" OutputArg att_score
    pre_layernorm post_layernorm post_add_input is_trans_weight s
  = (Ok tt, s') ->
  (forall a, st_heap s !! a = None -> st_heap s' !! a = None) /\
  (forall a, a <> st_next s -> st_heap s' !! a = st_heap s !! a).
Proof.
  intros Hsink Hrun. unfold operator_call in Hrun.
  apply bind_Ok in Hrun as (d & s1 & Hd & Hs).
  pose proof Hd as Hd'.
  apply dispatch_Ok in Hd' as (_ & _ & _ & Hpq & Hpk & _).
  apply dispatch_context_heap in Hd as [Hh Hn].
  destruct Hsink as [-> | ->].
  - apply scoring_att_null in Hs as (_ & _ & Hfree & Hsame).
    rewrite Hn in Hfree, Hsame. rewrite Hh in Hsame. split; [|done].
    intros a Ha. destruct (decide (a = st_next s)) as [->|Hne]; [done|].
    by rewrite Hsame.
  - apply scoring_att_arg in Hs
      as (? & ? & ? & ? & _ & _ & _ & _ & _ & Hh'); [|done..].
    rewrite Hh', Hh. done.
Qed.

(** What the self branch leaves on the heap: the Q operand always, the K
    and V operands when they are not concatenations with the cache. *)
Lemma self_branch_allocations (query_tensor : Tensor F)
    pre_layernorm is_trans_weight B Q hidden D devtype devid
    lcnn keys_live values_live s p s1 :
  self_branch self query_tensor pre_layernorm is_trans_weight
    B Q hidden D devtype devid lcnn keys_live values_live s = (Ok p, s1) ->
  let n := st_next s in
  let shp := [B; num_attention_heads_ self; Q; D] in
  (n < st_next s1)%nat /\
  (exists q, st_heap s1 !! n = Some q /\ dims q = shp) /\
  (keys_live = false ->
   (S n < st_next s1)%nat /\
   exists k, st_heap s1 !! S n = Some k /\ dims k = shp) /\
  (values_live = false ->
   let a := if keys_live then S n else S (S n) in
   (a < st_next s1)%nat /\
   exists v, st_heap s1 !! a = Some v /\ dims v = shp).
Proof.
  intros Hrun. unfold self_branch in Hrun.
  destruct s as [out att cache heap next trace].
  destruct lcnn, keys_live, values_live; inv_step Hrun.
  all: cbn [st_heap st_next fst snd]; split; [lia|].
  all: split;
    [eexists; split;
       [rewrite ?lookup_insert_ne by lia; by rewrite lookup_insert_eq|done]|].
  all: split; intros; try done.
  all: split; [lia|].
  all: eexists; split;
    [rewrite ?lookup_insert_ne by lia; by rewrite lookup_insert_eq|done].
Qed.

(** X10: every self-mode call that returns leaves on the heap the tensor
    allocated at line 255 for the Q pointer, of shape [B, H, Q, D], and
    likewise the tensors allocated at lines 270 and 281 for the K and V
    pointers when [self_keys], respectively [self_values], are not live. *)
Theorem X10_self_mode_leaks
    (key_tensor value_tensor query_tensor attention_mask : Tensor F)
    (att_score : ptr F)
    (pre_layernorm post_layernorm post_add_input is_trans_weight : bool)
    (s s' : State F) (B Q hidden : Z) :
  caller_sink att_score ->
  dims query_tensor = [B; Q; hidden] ->
  operator_call self key_tensor value_tensor query_tensor attention_mask
    "self" OutputArg att_score
    pre_layernorm post_layernorm post_add_input is_trans_weight s
  = (Ok tt, s') ->
  let n := st_next s in
  let keys_live := live (st_cache s) "self_keys" in
  let values_live := live (st_cache s) "self_values" in
  let shp := [B; num_attention_heads_ self; Q;
              Z.quot hidden (num_attention_heads_ self)] in
  (exists q, st_heap s' !! n = Some q /\ dims q = shp) /\
  (keys_live = false -> exists k, st_heap s' !! S n = Some k /\ dims k = shp) /\
  (values_live = false ->
   exists v, st_heap s' !! (if keys_live then S n else S (S n)) = Some v /\
             dims v = shp).
Proof.
  intros Hsink Hdq Hrun n keys_live values_live shp.
  unfold operator_call in Hrun.
  apply bind_Ok in Hrun as (d & s1 & Hd & Hs).
  pose proof Hd as Hd'.
  apply dispatch_Ok in Hd' as (_ & _ & _ & Hpq & Hpk & _).
  apply dispatch_self_Ok in Hd as (B' & Q' & hidden' & p & Hq & HH & -> & Hb).
  rewrite Hdq in Hq. simplify_eq.
  apply self_branch_allocations in Hb as (Hn & Hq & Hk & Hv).
  assert (forall a, (a < st_next s1)%nat -> st_heap s' !! a = st_heap s1 !! a)
    as Hsame.
  { intros a Ha. destruct Hsink as [-> | ->].
    - apply scoring_att_null in Hs as (_ & _ & _ & Hh). apply Hh. lia.
    - apply scoring_att_arg in Hs
        as (? & ? & ? & ? & _ & _ & _ & _ & _ & Hh); [|done..].
      by rewrite Hh. }
  split; [|split].
  - destruct Hq as (q & ? & ?). exists q. by rewrite Hsame.
  - intros E. destruct (Hk E) as (? & k & ? & ?). exists k. by rewrite Hsame.
  - intros E. destruct (Hv E) as (? & v & ? & ?). exists v. by rewrite Hsame.
Qed.
End Heap.

(** ** The key length of the attention scores *)

Section KeyLength.
Context {F : Type} `{Kernels F}.
Variable self : MultiHeadedAttention F.

(** The K operand of the self branch: the fresh projection, or its
    concatenation with the cached keys. *)
Lemma self_branch_k_operand (query_tensor : Tensor F)
    pre_layernorm is_trans_weight B Q hidden D devtype devid
    lcnn keys_live values_live s p s1 :
  self_branch self query_tensor pre_layernorm is_trans_weight
    B Q hidden D devtype devid lcnn keys_live values_live s = (Ok p, s1) ->
  exists k fresh,
    load p.1.2 s1 = (Ok k, s1) /\
    dims fresh = [B; num_attention_heads_ self; Q; D] /\
    (keys_live = false -> k = fresh) /\
    (keys_live = true ->
     exists ck, st_cache s !! "self_keys"%string = Some ck /\
                Concat ck fresh 2 null_tensor = Some k).
Proof.
  intros Hrun. unfold self_branch in Hrun.
  destruct s as [out att cache heap next trace].
  destruct lcnn, keys_live, values_live; inv_step Hrun.
  all: cbn [st_cache st_heap fst snd]; eexists _, _.
  all: split;
    [unfold load; cbn [st_heap];
     rewrite ?lookup_insert_eq, ?lookup_insert_ne by lia;
     rewrite ?lookup_insert_eq; reflexivity|].
  all: match goal with
    | |- _ /\ ?B /\ ?C =>
        let HB := fresh "HB" in
        let HC := fresh "HC" in
        assert C as HC
          by (intros E'; first [discriminate E' | eexists; split; eassumption]);
        assert B as HB
          by (intros E'; first [discriminate E' | reflexivity]);
        refine (conj _ (conj HB HC)); reflexivity
    end.
Qed.

(** The K operand of a context-mode cache miss without a cache map. *)
Lemma context_branch_scratch
    (key_tensor value_tensor query_tensor : Tensor F)
    pre_layernorm is_trans_weight B Q K hidden D devtype devid s p s1 :
  context_branch self key_tensor value_tensor query_tensor pre_layernorm
    is_trans_weight B Q K hidden D devtype devid false false s = (Ok p, s1) ->
  st_cache s1 = st_cache s /\
  exists k v, p.1.2 = AddrOf k /\ p.2 = AddrOf v /\
    dims k = [B; num_attention_heads_ self; K; D] /\
    dims v = [B; num_attention_heads_ self; K; D].
Proof.
  intros Hrun. unfold context_branch in Hrun.
  destruct s as [out att cache heap next trace].
  inv_step Hrun.
  all: cbn [st_cache fst snd]; split; [done|]; by eexists _, _.
Qed.

Lemma dispatch_context_hit
    (key_tensor value_tensor query_tensor : Tensor F)
    pre_layernorm is_trans_weight s d s1 :
  live (st_cache s) "memory_keys" = true ->
  live (st_cache s) "memory_values" = true ->
  dispatch self key_tensor value_tensor query_tensor "context"
           pre_layernorm is_trans_weight s = (Ok d, s1) ->
  d_k_ptr d = CachePtr "memory_keys" /\
  d_v_ptr d = CachePtr "memory_values" /\
  st_cache s1 = st_cache s.
Proof.
  intros Hlk Hlv Hd.
  apply dispatch_context_Ok in Hd
    as (B & Q & K & hidden & p & _ & _ & _ & -> & Hb).
  rewrite Hlk, Hlv in Hb. simpl in Hb.
  destruct (live_lookup _ _ Hlk) as (mk & Hmk & _).
  destruct (live_lookup _ _ Hlv) as (mv & Hmv & _).
  destruct (context_branch_hit self _ _ _ _ _ _ _ _ _ _ _ _ _ _ _ _ _ _
              Hmk Hmv Hb) as (Hc & _ & Hp).
  destruct (Hp p eq_refl) as [Hpk Hpv]. done.
Qed.

(** X11: in a context-mode call that returns, the attention scores have
    shape [B, H, Q, K_eff], where [K_eff] is [key_tensor.shape(1)] on a
    cache miss and axis 2 of the cached [memory_keys] on a cache hit,
    whatever [key_tensor.shape(1)] is then. *)
Theorem X11_context_key_length
    (key_tensor value_tensor query_tensor attention_mask : Tensor F)
    (pre_layernorm post_layernorm post_add_input is_trans_weight : bool)
    (s s' : State F) (B Q hidden ks : Z) :
  dims query_tensor = [B; Q; hidden] ->
  dims key_tensor !! 1%nat = Some ks ->
  operator_call self key_tensor value_tensor query_tensor attention_mask
    "context" OutputArg AttScoreArg
    pre_layernorm post_layernorm post_add_input is_trans_weight s
  = (Ok tt, s') ->
  exists probs K_eff,
    st_att_score s' = Some probs /\
    dims probs = [B; num_attention_heads_ self; Q; K_eff] /\
    (live (st_cache s) "memory_keys" && live (st_cache s) "memory_values"
     = false -> K_eff = ks) /\
    (live (st_cache s) "memory_keys" && live (st_cache s) "memory_values"
     = true ->
     exists mk, st_cache s !! "memory_keys"%string = Some mk /\
                dims mk !! 2%nat = Some K_eff).
Proof.
  intros Hdq Hks Hrun. unfold operator_call in Hrun.
  apply bind_Ok in Hrun as (d & s1 & Hd & Hs).
  pose proof Hd as Hd'.
  apply dispatch_Ok in Hd' as (_ & _ & _ & Hpq & Hpk & _).
  apply scoring_att_arg in Hs
    as (q & k & K & a0 & _ & Hk & HK & _ & Hatt & _); [|done..].
  eexists _, K. split; [exact Hatt|].
  pose proof Hd as Hd'.
  apply dispatch_context_Ok in Hd'
    as (B' & Q' & K' & hidden' & p & Hq & HK' & _ & Heq & Hb).
  rewrite Hdq in Hq. rewrite Hks in HK'. simplify_eq. simpl in *.
  split; [done|].
  destruct (live (st_cache s) "memory_keys") eqn:Hlk,
           (live (st_cache s) "memory_values") eqn:Hlv; simpl in *.
  1: { split; [done|]. intros _.
       destruct (live_lookup _ _ Hlk) as (mk & Hmk & _).
       destruct (live_lookup _ _ Hlv) as (mv & Hmv & _).
       destruct (context_branch_hit self _ _ _ _ _ _ _ _ _ _ _ _ _ _ _ _ _ _
                   Hmk Hmv Hb) as (Hc & _ & Hp).
       destruct (Hp p eq_refl) as [Hpk' _]. rewrite Hpk' in Hk.
       unfold load in Hk. rewrite Hc, Hmk in Hk. simplify_eq. eauto. }
  all: split; [intros _|done].
  all: destruct (bool_decide (0 < size (st_cache s))%nat);
    [apply context_branch_fill in Hb
       as (mk & mv & k1 & v1 & _ & _ & _ & _ & _ & _ & Hmk & _ & Hpk' & _);
     rewrite Hpk' in Hk; unfold load in Hk; rewrite Hmk in Hk;
     injection Hk as <-; cbn in HK; by injection HK
    |apply context_branch_scratch in Hb
       as (_ & k2 & v2 & Hpk' & _ & Hdk & _);
     rewrite Hpk' in Hk; injection Hk as <-;
     rewrite Hdk in HK; by injection HK].
Qed.

(** X12: in a self-mode call that returns, the attention scores have shape
    [B, H, Q, K_eff], where [K_eff] is [Q] when [self_keys] is not live
    and [L + Q] when it is live with cached length [L]. *)
Theorem X12_self_key_length
    (key_tensor value_tensor query_tensor attention_mask : Tensor F)
    (pre_layernorm post_layernorm post_add_input is_trans_weight : bool)
    (s s' : State F) (B Q hidden : Z) :
  dims query_tensor = [B; Q; hidden] ->
  operator_call self key_tensor value_tensor query_tensor attention_mask
    "self" OutputArg AttScoreArg
    pre_layernorm post_layernorm post_add_input is_trans_weight s
  = (Ok tt, s') ->
  exists probs K_eff,
    st_att_score s' = Some probs /\
    dims probs = [B; num_attention_heads_ self; Q; K_eff] /\
    (live (st_cache s) "self_keys" = false -> K_eff = Q) /\
    (live (st_cache s) "self_keys" = true ->
     exists ck L, st_cache s !! "self_keys"%string = Some ck /\
                  dims ck !! 2%nat = Some L /\ K_eff = L + Q).
Proof.
  intros Hdq Hrun. unfold operator_call in Hrun.
  apply bind_Ok in Hrun as (d & s1 & Hd & Hs).
  pose proof Hd as Hd'.
  apply dispatch_Ok in Hd' as (_ & _ & _ & Hpq & Hpk & _).
  apply scoring_att_arg in Hs
    as (q & k & K & a0 & _ & Hk & HK & _ & Hatt & _); [|done..].
  eexists _, K. split; [exact Hatt|].
  apply dispatch_self_Ok in Hd
    as (B' & Q' & hidden' & p & Hq & _ & Heq & Hb).
  rewrite Hdq in Hq. simplify_eq. simpl in *. split; [done|].
  apply self_branch_k_operand in Hb
    as (k' & fresh & Hk' & Hdf & Hfresh & Hcat).
  rewrite Hk' in Hk. simplify_eq.
  split.
  - intros E. rewrite (Hfresh E), Hdf in HK. cbn in HK. by injection HK.
  - intros E. destruct (Hcat E) as (ck & Hck & Hc).
    destruct (Concat_4 _ _ _ _ _ _ _ _ Hdf Hc) as (L & Hdc & ->).
    cbn in HK. injection HK as <-. exists ck, L. by rewrite Hdc.
Qed.
End KeyLength.

(** ** The memory cache across calls *)

Section MemoryCache.
Context {F : Type} `{Kernels F}.
Variable self : MultiHeadedAttention F.

(** A context-mode projection with both memory slots live leaves the
    cache as it was, however it ends. *)
Lemma dispatch_context_hit_cache
    (key_tensor value_tensor query_tensor : Tensor F)
    pre_layernorm is_trans_weight s r s1 :
  live (st_cache s) "memory_keys" = true ->
  live (st_cache s) "memory_values" = true ->
  dispatch self key_tensor value_tensor query_tensor "context"
           pre_layernorm is_trans_weight s = (r, s1) ->
  st_cache s1 = st_cache s.
Proof.
  intros Hlk Hlv Hd.
  destruct (dispatch_guard self key_tensor value_tensor query_tensor)
    as [(kb & ks & kh & vs & vh & B & Q & hidden & Hg)|Hrej];
    [|rewrite Hrej in Hd by done; by injection Hd as _ <-].
  rewrite (dispatch_passed self _ _ _ _ _ _ _ _ _ _ _ _ _ _ _ Hg) in Hd.
  unfold bind at 1 in Hd. simpl in Hd. unfold bind at 1, int_div in Hd.
  destruct (_ =? _); [by injection Hd as _ <-|]. simpl in Hd.
  unfold projection_stage in Hd.
  rewrite memory_hit_flags in Hd by done. simpl in Hd.
  unfold bind at 1 in Hd.
  destruct (context_branch _ _ _ _ _ _ _ _ _ _ _ _ _ _ _ s)
    as [rp s2] eqn:Eb.
  destruct (live_lookup _ _ Hlk) as (mk & Hmk & _).
  destruct (live_lookup _ _ Hlv) as (mv & Hmv & _).
  destruct (context_branch_hit self _ _ _ _ _ _ _ _ _ _ _ _ _ _ _ _ _ _
              Hmk Hmv Eb) as (Hc & _).
  destruct rp; by injection Hd as _ <-.
Qed.

(** X13: after a context-mode call that returns on a cache map that is not
    empty, both memory slots are live; so a later context-mode call on the
    same map, whatever its tensors and flags, takes K and V from the cache
    and leaves the cache as it is. *)
Theorem X13_context_fill_then_hit
    (key_tensor value_tensor query_tensor attention_mask : Tensor F)
    (att_score : ptr F)
    (pre_layernorm post_layernorm post_add_input is_trans_weight : bool)
    (s s' : State F) :
  caller_sink att_score ->
  st_cache s <> ∅ ->
  operator_call self key_tensor value_tensor query_tensor attention_mask
    "context" OutputArg att_score
    pre_layernorm post_layernorm post_add_input is_trans_weight s
  = (Ok tt, s') ->
  live (st_cache s') "memory_keys" = true /\
  live (st_cache s') "memory_values" = true /\
  forall key2 value2 query2 pre_layernorm2 is_trans_weight2 d2 s2,
    dispatch self key2 value2 query2 "context"
             pre_layernorm2 is_trans_weight2 s' = (Ok d2, s2) ->
    d_k_ptr d2 = CachePtr "memory_keys" /\
    d_v_ptr d2 = CachePtr "memory_values" /\
    st_cache s2 = st_cache s'.
Proof.
  intros Hsink Hne Hrun.
  assert (live (st_cache s') "memory_keys" = true /\
          live (st_cache s') "memory_values" = true) as [Hlk Hlv].
  { unfold operator_call in Hrun.
    apply bind_Ok in Hrun as (d & s1 & Hd & Hs).
    apply scoring_keeps_cache in Hs as ->; [|done].
    destruct (live (st_cache s) "memory_keys") eqn:Hlk,
             (live (st_cache s) "memory_values") eqn:Hlv.
    1: { apply dispatch_context_hit_cache in Hd as ->; done. }
    all: apply dispatch_context_Ok in Hd
           as (B & Q & K & hidden & p & _ & _ & _ & _ & Hb);
         rewrite size_pos_non_empty, Hlk, Hlv in Hb by done;
         apply context_branch_fill in Hb
           as (mk & mv & k1 & v1 & _ & _ & _ & _ & _ & _ & Hmk & Hmv & _);
         unfold live; by rewrite Hmk, Hmv. }
  split; [done|]. split; [done|].
  intros key2 value2 query2 pl2 tw2 d2 s2 Hd2.
  by apply dispatch_context_hit in Hd2.
Qed.

(** X14: a context-mode call on a cache map with both memory slots live
    does not write the cache, however it ends. *)
Theorem X14_cache_hit_is_read_only
    (key_tensor value_tensor query_tensor attention_mask : Tensor F)
    (att_score : ptr F)
    (pre_layernorm post_layernorm post_add_input is_trans_weight : bool)
    (s s' : State F) (r : result unit) :
  caller_sink att_score ->
  live (st_cache s) "memory_keys" = true ->
  live (st_cache s) "memory_values" = true ->
  operator_call self key_tensor value_tensor query_tensor attention_mask
    "context" OutputArg att_score
    pre_layernorm post_layernorm post_add_input is_trans_weight s
  = (r, s') ->
  st_cache s' = st_cache s.
Proof.
  intros Hsink Hlk Hlv. unfold operator_call, bind.
  destruct (dispatch _ _ _ _ _ _ _ s) as [[d|e] s1] eqn:Hd;
    apply dispatch_context_hit_cache in Hd as <-; try done.
  - intros Hs. by apply scoring_keeps_cache in Hs.
  - by intros [= _ <-].
Qed.
End MemoryCache.

Section HitShape.
Context {F : Type} `{Kernels F}.
Variable self : MultiHeadedAttention F.

(** On a cache hit the context branch uses neither the key sequence
    length nor the key and value tensors, their devices apart. *)
Lemma context_branch_hit_any (k1 v1 k2 v2 query_tensor : Tensor F)
    pre_layernorm is_trans_weight B Q K1 K2 hidden D devtype devid lcnn :
  device_ctx k1 = device_ctx k2 -> device_ctx v1 = device_ctx v2 ->
  context_branch self k1 v1 query_tensor pre_layernorm is_trans_weight
    B Q K1 hidden D devtype devid lcnn true =
  context_branch self k2 v2 query_tensor pre_layernorm is_trans_weight
    B Q K2 hidden D devtype devid lcnn true.
Proof. intros Hk Hv. unfold context_branch. by rewrite Hk, Hv. Qed.

(** X15: on a cache hit the key sequence length read at line 68 is never
    used.  Two context-mode calls on a cache map with both memory slots
    live, whose key and value tensors pass the guard and are on the same
    devices, end with the same result in the same state even when the
    shapes of these tensors differ. *)
Theorem X15_cache_hit_ignores_key_shape
    (key1 value1 key2 value2 query_tensor attention_mask : Tensor F)
    (output att_score : ptr F)
    (pre_layernorm post_layernorm post_add_input is_trans_weight : bool)
    (s : State F) :
  live (st_cache s) "memory_keys" = true ->
  live (st_cache s) "memory_values" = true ->
  n_dim key1 = 3 -> n_dim value1 = 3 ->
  dims key1 !! 0%nat = dims value1 !! 0%nat ->
  n_dim key2 = 3 -> n_dim value2 = 3 ->
  dims key2 !! 0%nat = dims value2 !! 0%nat ->
  device_ctx key1 = device_ctx key2 -> device_ctx value1 = device_ctx value2 ->
  operator_call self key1 value1 query_tensor attention_mask
    "context" output att_score
    pre_layernorm post_layernorm post_add_input is_trans_weight s
  = operator_call self key2 value2 query_tensor attention_mask
    "context" output att_score
    pre_layernorm post_layernorm post_add_input is_trans_weight s.
Proof.
  intros Hlk Hlv
         (kb1 & ks1 & kh1 & Hk1)%n_dim_3 (vb1 & vs1 & vh1 & Hv1)%n_dim_3 Hb1
         (kb2 & ks2 & kh2 & Hk2)%n_dim_3 (vb2 & vs2 & vh2 & Hv2)%n_dim_3 Hb2
         Hdk Hdv.
  rewrite Hk1, Hv1 in Hb1. rewrite Hk2, Hv2 in Hb2. simplify_eq/=.
  unfold operator_call. unfold bind at 1 2.
  destruct (decide (n_dim query_tensor = 3))
    as [(B & Q & hidden & Hq)%n_dim_3|Hq].
  - rewrite (dispatch_passed self key1 value1 query_tensor
               _ _ _ _ vb1 ks1 kh1 vs1 vh1 B Q hidden) by done.
    rewrite (dispatch_passed self key2 value2 query_tensor
               _ _ _ _ vb2 ks2 kh2 vs2 vh2 B Q hidden) by done.
    unfold bind, int_div. simpl.
    destruct (_ =? _); [done|]. unfold ret, projection_stage.
    rewrite memory_hit_flags by done. unfold bind. simpl.
    by rewrite (context_branch_hit_any key1 value1 key2 value2 _ _ _ _ _
                  ks1 ks2).
  - unfold dispatch, bind, TT_ENFORCE_EQ, n_dim in *.
    rewrite Hk1, Hv1, Hk2, Hv2. simpl.
    by rewrite (bool_decide_eq_false_2 _ Hq).
Qed.
End HitShape.

(** ** The self-attention cache across decoding steps *)

Section SelfInvariant.
Context {F : Type} `{Kernels F}.
Variable self : MultiHeadedAttention F.

Lemma length_concat_4 (B H_ L Q D : Z) (d1 d2 : list F) :
  0 <= B -> 0 <= H_ -> 0 <= L -> 0 <= Q -> 0 <= D ->
  length d1 = Z.to_nat (numel [B; H_; L; D]) ->
  length d2 = Z.to_nat (numel [B; H_; Q; D]) ->
  length (interleave_blocks (Z.to_nat (B * (H_ * 1)))
            (Z.to_nat (L * (D * 1))) (Z.to_nat (Q * (D * 1))) d1 d2)
  = Z.to_nat (numel [B; H_; L + Q; D]).
Proof.
  intros HB HH HL HQ HD H1 H2. simpl in *.
  rewrite (length_interleave _ _ _ d1 d2).
  - rewrite <- Z2Nat.inj_add, <- Z2Nat.inj_mul by nia. f_equal. ring.
  - rewrite H1, <- Z2Nat.inj_mul by nia. f_equal. ring.
  - rewrite H2, <- Z2Nat.inj_mul by nia. f_equal. ring.
Qed.

(** What the write-back leaves in a slot is again a slot a step can
    extend. *)
Lemma grown_slot_ready (c qkv k : Tensor F) (i : Z) B H_ Q D B0 H0 L D0
    devtype devid :
  kv_slot c B0 H0 L D0 ->
  dims qkv = [3; B; H_; Q; D] -> 0 <= i < 3 -> 0 <= Q ->
  length (contents qkv) = Z.to_nat (numel (dims qkv)) ->
  Concat c (subscript qkv i) 2 null_tensor = Some k ->
  kv_slot (Copy k (Reshape c [B; H_; default 0 (dims k !! 2%nat); D]
                     devtype devid)) B0 H0 (L + Q) D0.
Proof.
  intros (Hnull & Hdc & Hwf) Hq Hi HQ Hlen Hc.
  assert (dims (subscript qkv i) = [B; H_; Q; D]) as Hf
    by (unfold subscript; by rewrite Hq).
  destruct (Concat_4 _ _ _ _ _ _ _ _ Hf Hc) as (L' & Hdc' & ->).
  rewrite Hdc in Hdc'. simplify_eq.
  destruct (well_formed_4 _ _ _ _ _ Hwf Hdc) as (HB & HH & HL & HD & Hlc).
  split; [done|]. split; [done|]. split.
  - cbn. by repeat constructor; try lia.
  - cbn [Copy Reshape with_contents contents dims default lookup].
    cbn. apply length_concat_4; try done.
    apply (length_subscript qkv i 3); try done.
    + by repeat constructor.
    + by rewrite <- Hq.
Qed.

End SelfInvariant.

Section FirstStep.
Context {F : Type} `{Kernels F}.
Variable self : MultiHeadedAttention F.

Lemma fresh_slot_ready (c qkv : Tensor F) (i : Z) B H_ Q D devtype devid :
  dims qkv = [3; B; H_; Q; D] -> 0 <= i < 3 ->
  0 <= B -> 0 <= H_ -> 0 <= Q -> 0 <= D ->
  length (contents qkv) = Z.to_nat (numel (dims qkv)) ->
  kv_slot (Copy (subscript qkv i) (Reshape c [B; H_; Q; D] devtype devid))
          B H_ Q D.
Proof.
  intros Hq Hi HB HH HQ HD Hlen.
  split; [done|]. split; [done|]. split.
  - cbn. by repeat constructor.
  - cbn [Copy Reshape with_contents contents dims].
    apply (length_subscript qkv i 3); try done.
    + by repeat constructor.
    + by rewrite <- Hq.
Qed.

(** X16: the first decoding step.  A self-mode call on a cache map whose
    [self_keys] and [self_values] are there but null, when it returns,
    leaves in [self_keys] the fresh K, the sub-tensor 1 of the fused
    projection of the query, copied into the cached tensor reshaped to
    [B, H, Q, D], and in [self_values] the fresh V, the sub-tensor 2,
    likewise; both slots are then live, of shape [B, H, Q, D], and hold as
    many cells as that shape says.  The split kernel fills its output. *)
Theorem X16_self_first_step
    (key_tensor value_tensor query_tensor attention_mask : Tensor F)
    (att_score : ptr F)
    (pre_layernorm post_layernorm post_add_input is_trans_weight : bool)
    (s s' : State F) (ck cv : Tensor F) (B Q hidden : Z) :
  st_cache s !! "self_keys"%string = Some ck -> is_null ck = true ->
  st_cache s !! "self_values"%string = Some cv -> is_null cv = true ->
  dims query_tensor = [B; Q; hidden] ->
  0 <= B -> 0 <= Q -> 0 <= hidden -> 0 < num_attention_heads_ self ->
  (forall out x b,
     length (SplitAddBiasTransposeForScore out x b) =
     Z.to_nat (numel (dims out))) ->
  caller_sink att_score ->
  operator_call self key_tensor value_tensor query_tensor attention_mask
    "self" OutputArg att_score
    pre_layernorm post_layernorm post_add_input is_trans_weight s
  = (Ok tt, s') ->
  let H_ := num_attention_heads_ self in
  let D := Z.quot hidden H_ in
  let devtype := device_type query_tensor in
  let devid := device_id query_tensor in
  let qkv := qkv_projection self query_tensor pre_layernorm is_trans_weight
               B Q hidden D devtype devid in
  let nk := Copy (subscript qkv 1) (Reshape ck [B; H_; Q; D] devtype devid) in
  let nv := Copy (subscript qkv 2) (Reshape cv [B; H_; Q; D] devtype devid) in
  st_cache s' !! "self_keys"%string = Some nk /\
  st_cache s' !! "self_values"%string = Some nv /\
  kv_slot nk B H_ Q D /\ kv_slot nv B H_ Q D.
Proof.
  intros Hk Hnk Hv Hnv Hdq HB HQ Hh HH Hfill Hsink Hrun H_ D devtype devid
    qkv nk nv.
  unfold operator_call in Hrun.
  apply bind_Ok in Hrun as (d & s1 & Hd & Hs).
  apply scoring_keeps_cache in Hs as ->; [|done].
  apply dispatch_self_Ok in Hd as (B' & Q' & hidden' & p & Hq & _ & -> & Hb).
  rewrite Hdq in Hq. simplify_eq.
  rewrite (bool_decide_eq_true_2 _ (lookup_size_pos _ _ _ Hk)) in Hb.
  unfold live in Hb. rewrite Hk, Hv in Hb.
  destruct (self_branch_returns self query_tensor pre_layernorm
              is_trans_weight B' Q' hidden' D devtype devid s ck cv
              (subscript qkv 1) (subscript qkv 2) Q' Q' Hk Hv)
    as (p' & s2 & Hb' & _ & _ & _ & _ & _ & Hc); try done.
  { unfold self_operand. by rewrite Hnk. }
  { unfold self_operand. by rewrite Hnv. }
  assert ((Ok p, s1) = (Ok p', s2)) as Heq by (rewrite <- Hb; exact Hb').
  injection Heq as _ ->.
  assert (length (contents qkv) = Z.to_nat (numel (dims qkv))) as Hlen
    by (unfold qkv, qkv_projection; cbv zeta;
        cbn [contents with_contents dims Reshape]; apply Hfill).
  assert (0 <= D) as HD by (apply Z.quot_pos; lia).
  split; [by rewrite Hc, lookup_insert_ne, lookup_insert_eq|].
  split; [by rewrite Hc, lookup_insert_eq|].
  split; apply fresh_slot_ready; try done; unfold H_; lia.
Qed.
End FirstStep.

Section TwoSteps.
Context {F : Type} `{Kernels F}.
Variable self : MultiHeadedAttention F.

(** One decoding step on slots a step can extend, at the level of the
    self branch. *)
Lemma self_branch_step_slots (query_tensor : Tensor F)
    pre_layernorm is_trans_weight B Q hidden D devtype devid s p s1
    (ck cv : Tensor F) (B0 H0 L D0 : Z) :
  st_cache s !! "self_keys"%string = Some ck ->
  st_cache s !! "self_values"%string = Some cv ->
  kv_slot ck B0 H0 L D0 -> kv_slot cv B0 H0 L D0 -> 0 <= Q ->
  (forall out x b,
     length (SplitAddBiasTransposeForScore out x b) =
     Z.to_nat (numel (dims out))) ->
  self_branch self query_tensor pre_layernorm is_trans_weight
    B Q hidden D devtype devid
    (bool_decide (0 < size (st_cache s))%nat)
    (live (st_cache s) "self_keys") (live (st_cache s) "self_values") s
  = (Ok p, s1) ->
  exists nk nv,
    st_cache s1 !! "self_keys"%string = Some nk /\
    st_cache s1 !! "self_values"%string = Some nv /\
    kv_slot nk B0 H0 (L + Q) D0 /\ kv_slot nv B0 H0 (L + Q) D0.
Proof.
  intros Hk Hv Hsk Hsv HQ Hfill Hb.
  rewrite (bool_decide_eq_true_2 _ (lookup_size_pos _ _ _ Hk)) in Hb.
  unfold live in Hb. rewrite Hk, Hv in Hb.
  pose proof Hsk as (Hnk & _). pose proof Hsv as (Hnv & _).
  rewrite Hnk, Hnv in Hb. simpl in Hb.
  eapply self_branch_live in Hb; [|exact Hk|exact Hv].
  destruct Hb as (qkv & k & v & Hdq & (out & x & b & Hcq & Hdo) & Hck & Hcv
                  & _ & Hnk' & Hnv').
  assert (length (contents qkv) = Z.to_nat (numel (dims qkv))) as Hlen
    by (by rewrite Hcq, Hfill, Hdo).
  eexists _, _. split; [exact Hnk'|]. split; [exact Hnv'|]. split.
  - by apply (grown_slot_ready ck qkv k 1 _ _ _ _ B0 H0 L D0).
  - by apply (grown_slot_ready cv qkv v 2 _ _ _ _ B0 H0 L D0).
Qed.

(** X17: a decoding step keeps the self-attention cache extensible.  If
    before a self-mode call both slots are live, of shape [B, H, L, D] and
    hold as many cells as that shape says, then after a call that returns
    they are live, of shape [B, H, L + Q, D], and hold as many cells as
    that shape says.  The split kernel fills its output. *)
Theorem X17_self_cache_invariant
    (key_tensor value_tensor query_tensor attention_mask : Tensor F)
    (att_score : ptr F)
    (pre_layernorm post_layernorm post_add_input is_trans_weight : bool)
    (s s' : State F) (ck cv : Tensor F) (B H_ L D Q : Z) :
  st_cache s !! "self_keys"%string = Some ck ->
  st_cache s !! "self_values"%string = Some cv ->
  kv_slot ck B H_ L D -> kv_slot cv B H_ L D ->
  dims query_tensor !! 1%nat = Some Q -> 0 <= Q ->
  (forall out x b,
     length (SplitAddBiasTransposeForScore out x b) =
     Z.to_nat (numel (dims out))) ->
  caller_sink att_score ->
  operator_call self key_tensor value_tensor query_tensor attention_mask
    "self" OutputArg att_score
    pre_layernorm post_layernorm post_add_input is_trans_weight s
  = (Ok tt, s') ->
  exists nk nv,
    st_cache s' !! "self_keys"%string = Some nk /\
    st_cache s' !! "self_values"%string = Some nv /\
    kv_slot nk B H_ (L + Q) D /\ kv_slot nv B H_ (L + Q) D.
Proof.
  intros Hk Hv Hsk Hsv HQ HQ0 Hfill Hsink Hrun.
  unfold operator_call in Hrun.
  apply bind_Ok in Hrun as (d & s1 & Hd & Hs).
  apply scoring_keeps_cache in Hs as ->; [|done].
  apply dispatch_self_Ok in Hd as (B' & Q' & hidden & p & Hq & HH & -> & Hb).
  rewrite Hq in HQ. simplify_eq/=.
  by eapply self_branch_step_slots.
Qed.

(** X18: two self-mode calls in a row, of [Q1] then [Q2] new tokens, on
    slots of cached length [L]: after the second the slots have length
    [L + Q1 + Q2] and are again extensible. *)
Theorem X18_two_decoding_steps
    (key1 value1 query1 mask1 key2 value2 query2 mask2 : Tensor F)
    (att1 att2 : ptr F)
    (pl1 post1 add1 tw1 pl2 post2 add2 tw2 : bool)
    (s s1 s2 : State F) (ck cv : Tensor F) (B H_ L D Q1 Q2 : Z) :
  st_cache s !! "self_keys"%string = Some ck ->
  st_cache s !! "self_values"%string = Some cv ->
  kv_slot ck B H_ L D -> kv_slot cv B H_ L D ->
  dims query1 !! 1%nat = Some Q1 -> 0 <= Q1 ->
  dims query2 !! 1%nat = Some Q2 -> 0 <= Q2 ->
  (forall out x b,
     length (SplitAddBiasTransposeForScore out x b) =
     Z.to_nat (numel (dims out))) ->
  caller_sink att1 -> caller_sink att2 ->
  operator_call self key1 value1 query1 mask1 "self" OutputArg att1
    pl1 post1 add1 tw1 s = (Ok tt, s1) ->
  operator_call self key2 value2 query2 mask2 "self" OutputArg att2
    pl2 post2 add2 tw2 s1 = (Ok tt, s2) ->
  exists nk nv,
    st_cache s2 !! "self_keys"%string = Some nk /\
    st_cache s2 !! "self_values"%string = Some nv /\
    kv_slot nk B H_ (L + Q1 + Q2) D /\ kv_slot nv B H_ (L + Q1 + Q2) D.
Proof.
  intros Hk Hv Hsk Hsv HQ1 HQ1' HQ2 HQ2' Hfill Ha1 Ha2 Hrun1 Hrun2.
  unfold operator_call in Hrun1, Hrun2.
  apply bind_Ok in Hrun1 as (d1 & t1 & Hd1 & Hs1).
  apply scoring_keeps_cache in Hs1 as Hc1; [|done].
  apply dispatch_self_Ok in Hd1 as (B1 & Q1' & h1 & p1 & Hq1 & _ & -> & Hb1).
  rewrite Hq1 in HQ1. simplify_eq/=.
  eapply self_branch_step_slots in Hb1
    as (mk & mv & Hmk & Hmv & Hsmk & Hsmv); [|done..].
  rewrite <- Hc1 in Hmk, Hmv.
  apply bind_Ok in Hrun2 as (d2 & t2 & Hd2 & Hs2).
  apply scoring_keeps_cache in Hs2 as ->; [|done].
  apply dispatch_self_Ok in Hd2 as (B2 & Q2' & h2 & p2 & Hq2 & _ & -> & Hb2).
  rewrite Hq2 in HQ2. simplify_eq/=.
  by eapply self_branch_step_slots.
Qed.
End TwoSteps.

(** ** The output tensor *)

Section OutputTensor.
Context {F : Type} `{Kernels F}.
Variable self : MultiHeadedAttention F.

Lemma scoring_output_tensor (query_tensor attention_mask : Tensor F)
    att_score post_layernorm post_add_input is_trans_weight
    B Q hidden D devtype devid q_ptr k_ptr v_ptr s s' :
  caller_sink att_score ->
  scoring self query_tensor attention_mask OutputArg att_score
    post_layernorm post_add_input is_trans_weight
    B Q hidden D devtype devid q_ptr k_ptr v_ptr s = (Ok tt, s') ->
  is_null (st_output s') = false /\
  dims (st_output s') = [B; Q; hidden] /\
  device_ctx (st_output s') = mkDeviceCtx devtype devid.
Proof.
  intros [-> | ->] Hrun; unfold scoring in Hrun;
    destruct s as [out att cache heap next trace];
    inv_step Hrun; done.
Qed.

(** X19: after a call that returns, the output tensor is not null, has the
    shape of [query_tensor] and is on the device of [query_tensor],
    whatever it was before the call (lines 372-373). *)
Theorem X19_output_tensor
    (key_tensor value_tensor query_tensor attention_mask : Tensor F)
    (attn_type : string) (att_score : ptr F)
    (pre_layernorm post_layernorm post_add_input is_trans_weight : bool)
    (s s' : State F) :
  caller_sink att_score ->
  operator_call self key_tensor value_tensor query_tensor attention_mask
    attn_type OutputArg att_score
    pre_layernorm post_layernorm post_add_input is_trans_weight s
  = (Ok tt, s') ->
  is_null (st_output s') = false /\
  dims (st_output s') = dims query_tensor /\
  device_ctx (st_output s') = device_ctx query_tensor.
Proof.
  intros Hsink Hrun. unfold operator_call in Hrun.
  apply bind_Ok in Hrun as (d & s1 & Hd & Hs).
  apply dispatch_Ok in Hd as (Hq & _).
  apply scoring_output_tensor in Hs as (Hn & Hd & Hc); [|done].
  split; [done|]. split; [by rewrite Hq|].
  rewrite Hc. unfold device_type, device_id.
  by destruct (device_ctx query_tensor).
Qed.
End OutputTensor.

Section Dataflow.
Context {F : Type} `{Kernels F}.
Variable self : MultiHeadedAttention F.

Lemma scoring_dataflow (query_tensor attention_mask : Tensor F)
    post_layernorm post_add_input is_trans_weight
    B Q hidden D devtype devid q_ptr k_ptr v_ptr s s' :
  operand_ptr v_ptr ->
  scoring self query_tensor attention_mask OutputArg AttScoreArg
    post_layernorm post_add_input is_trans_weight
    B Q hidden D devtype devid q_ptr k_ptr v_ptr s = (Ok tt, s') ->
  exists probs v,
    st_att_score s' = Some probs /\
    load v_ptr s = (Ok v, s) /\
    st_output s' =
      attention_output self query_tensor probs v (st_output s)
        post_layernorm post_add_input is_trans_weight
        B Q hidden D devtype devid.
Proof.
  intros Hv Hrun. unfold scoring in Hrun.
  destruct s as [out att cache heap next trace].
  inv_step Hrun.
  match goal with
    | Hv1 : load v_ptr ?s1 = (Ok ?v, ?s1) |- context [load v_ptr ?s0] =>
        apply (load_operand _ _ s0 Hv) in Hv1; [|done..];
        by eexists _, v
    end.
Qed.

(** X20: the output is computed from the attention probabilities the caller
    gets back.  After a call that returns, with [probs] the tensor left in
    [att_score] and [v] the V operand, the output is the fused dense
    projection of [TransposeForScore (BatchMatMul probs v)], computed into
    the caller's output tensor reshaped to [B, Q, hidden]. *)
Theorem X20_output_from_returned_scores
    (key_tensor value_tensor query_tensor attention_mask : Tensor F)
    (attn_type : string)
    (pre_layernorm post_layernorm post_add_input is_trans_weight : bool)
    (s s' : State F) :
  operator_call self key_tensor value_tensor query_tensor attention_mask
    attn_type OutputArg AttScoreArg
    pre_layernorm post_layernorm post_add_input is_trans_weight s
  = (Ok tt, s') ->
  exists d s1 probs v,
    dispatch self key_tensor value_tensor query_tensor attn_type
             pre_layernorm is_trans_weight s = (Ok d, s1) /\
    load (d_v_ptr d) s1 = (Ok v, s1) /\
    st_att_score s' = Some probs /\
    st_output s' =
      attention_output self query_tensor probs v (st_output s)
        post_layernorm post_add_input is_trans_weight
        (d_batch_size d) (d_query_seq_length d) (d_hidden_size d)
        (d_size_per_head d) (device_type query_tensor)
        (device_id query_tensor).
Proof.
  intros Hrun. unfold operator_call in Hrun.
  apply bind_Ok in Hrun as (d & s1 & Hd & Hs).
  destruct (ensures_dispatch self any_cache key_tensor value_tensor
              query_tensor attn_type pre_layernorm is_trans_weight)
    with (s := s) (r := Ok d) (s' := s1)
    as [(Ho & _) (_ & _ & Hpv)]; [by repeat split..|].
  apply scoring_dataflow in Hs as (probs & v & Hp & Hv & Hout); [|done].
  exists d, s1, probs, v. rewrite <- (Ho eq_refl). done.
Qed.
End Dataflow.

(** ** The flag loop *)

Section FlagLoop.
Context {F : Type}.

Lemma hit_any_Permutation key (l1 l2 : list (string * Tensor F)) :
  Permutation l1 l2 -> hit_any key l1 = hit_any key l2.
Proof.
  intros Hp. unfold hit_any. apply eq_true_iff_eq.
  rewrite !existsb_exists.
  split; intros (it & Hin & Hb); exists it; (split; [|done]).
  - by eapply Permutation_in.
  - eapply Permutation_in; [|done]. by symmetry.
Qed.

(** X21: the liveness flags of lines 94-113 do not depend on the order in
    which the loop visits the map, which [std::unordered_map] leaves
    unspecified: in whatever order the entries come, each flag is set iff
    its slot is in the map and holds a tensor that is not null. *)
Theorem X21_flags_order_independent
    (layer_cache : gmap string (Tensor F)) (l : list (string * Tensor F)) :
  Permutation l (map_to_list layer_cache) ->
  foldl scan_entry (mkFlags false false false false) l =
  mkFlags (live layer_cache "memory_keys") (live layer_cache "memory_values")
          (live layer_cache "self_keys") (live layer_cache "self_values").
Proof.
  intros Hp. rewrite foldl_scan_entry. simpl.
  by rewrite !(hit_any_Permutation _ _ _ Hp), !hit_any_map_to_list.
Qed.
End FlagLoop.

(** * The further properties on the reference operator *)

Lemma X1_witness :
  operator_call (H := ref_kernels) (ref_weights 2)
    flat_key ref_value ref_query ref_mask "context" OutputArg nullptr
    false false false false (initial_state None memory_cache)
  = (Fail InvalidArgument, initial_state None memory_cache).
Proof.
  apply (X1_guard_rejects (H := ref_kernels)). left. vm_compute. discriminate.
Defined.

Lemma X2_witness :
  operator_call (H := ref_kernels) (ref_weights 2)
    ref_key remote_value ref_query ref_mask "context" OutputArg nullptr
    false false false false (initial_state None memory_cache)
  = (Fail InvalidArgument, initial_state None memory_cache).
Proof.
  apply (X2_context_device_mismatch (H := ref_kernels) (ref_weights 2)
           ref_key remote_value ref_query ref_mask OutputArg nullptr
           false false false false (initial_state None memory_cache)
           1 3 4 3 4 1 2 4).
  - by repeat split.
  - discriminate.
  - left. reflexivity.
Defined.

Lemma X3_witness :
  operator_call (H := ref_kernels) (ref_weights 0)
    ref_key ref_value ref_query ref_mask "self" OutputArg nullptr
    false false false false (initial_state None ∅)
  = (Fail Undefined, initial_state None ∅).
Proof.
  apply (X3_zero_heads (H := ref_kernels) (ref_weights 0)
           ref_key ref_value ref_query ref_mask "self" OutputArg nullptr
           false false false false (initial_state None ∅)
           1 3 4 3 4 1 2 4).
  - by repeat split.
  - by right.
  - reflexivity.
Defined.

Lemma X4_witness :
  (operator_call (H := ref_kernels) (ref_weights 2)
     ref_key remote_value ref_query ref_mask "context" OutputArg nullptr
     false false false false (initial_state None decoder_cache)).2
  = initial_state None decoder_cache.
Proof.
  apply (X4_context_rejection_has_no_effect (H := ref_kernels) (ref_weights 2)
           ref_key remote_value ref_query ref_mask OutputArg nullptr
           false false false false).
  vm_compute; reflexivity.
Defined.

Lemma X5_witness :
  (ref_call 2 "context" nullptr None self_cache).1 = Fail Undefined.
Proof.
  apply (X5_context_missing_slot (H := ref_kernels) (ref_weights 2)
           ref_key ref_value ref_query ref_mask OutputArg nullptr
           false false false false (initial_state None self_cache)
           1 3 4 3 4 1 2 4).
  - by repeat split.
  - discriminate.
  - reflexivity.
  - reflexivity.
  - vm_compute. discriminate.
  - left. vm_compute; reflexivity.
Defined.

Lemma X6_witness :
  (ref_call 2 "self" nullptr None memory_cache).1 = Fail Undefined.
Proof.
  destruct (X6_self_missing_slot (H := ref_kernels) (ref_weights 2)
              ref_key ref_value ref_query ref_mask nullptr
              false false false false (initial_state None memory_cache)
              (ref_call 2 "self" nullptr None memory_cache).2
              (ref_call 2 "self" nullptr None memory_cache).1)
    as (_ & Hu).
  - vm_compute. discriminate.
  - left. vm_compute; reflexivity.
  - vm_compute; reflexivity.
  - apply (Hu 1 3 4 3 4 1 2 4); [by repeat split|vm_compute; reflexivity..].
Defined.

Lemma X7_witness :
  (ref_call 2 "self" nullptr None decoder_cache).1 = Ok tt /\
  st_cache (ref_call 2 "self" nullptr None decoder_cache).2
    !! "memory_keys"%string
  = Some (tensor_of [1; 2; 3; 2] 50).
Proof.
  split; [vm_compute; reflexivity|].
  rewrite (X7_self_mode_cache_frame (H := ref_kernels) (ref_weights 2)
             ref_key ref_value ref_query ref_mask nullptr
             false false false false (initial_state None decoder_cache)
             (ref_call 2 "self" nullptr None decoder_cache).2
             (ref_call 2 "self" nullptr None decoder_cache).1).
  - vm_compute; reflexivity.
  - by left.
  - vm_compute; reflexivity.
  - discriminate.
  - discriminate.
Defined.

Lemma X8_witness :
  (ref_call 2 "context" AttScoreArg (Some null_tensor) decoder_cache).1
  = Ok tt /\
  st_cache (ref_call 2 "context" AttScoreArg (Some null_tensor)
              decoder_cache).2 !! "self_keys"%string
  = Some (tensor_of [1; 2; 1; 2] 50) /\
  st_heap (ref_call 2 "context" AttScoreArg (Some null_tensor)
             decoder_cache).2 = ∅.
Proof.
  split; [vm_compute; reflexivity|].
  destruct (X8_context_mode_frame (H := ref_kernels) (ref_weights 2)
              ref_key ref_value ref_query ref_mask AttScoreArg
              false false false false
              (initial_state (Some null_tensor) decoder_cache)
              (ref_call 2 "context" AttScoreArg (Some null_tensor)
                 decoder_cache).2
              (ref_call 2 "context" AttScoreArg (Some null_tensor)
                 decoder_cache).1)
    as (Hc & _ & Hh).
  - by right.
  - vm_compute; reflexivity.
  - split.
    + rewrite Hc; [vm_compute; reflexivity|discriminate..].
    + by destruct (Hh eq_refl) as [-> _].
Defined.

Lemma X9_witness :
  st_heap (ref_call 2 "context" nullptr None ∅).2 !! 0%nat = None.
Proof.
  destruct (X9_context_mode_no_leak (H := ref_kernels) (ref_weights 2)
              ref_key ref_value ref_query ref_mask nullptr
              false false false false (initial_state None ∅)
              (ref_call 2 "context" nullptr None ∅).2)
    as (Hnew & _).
  - by left.
  - vm_compute; reflexivity.
  - apply Hnew. reflexivity.
Defined.

Lemma X10_witness :
  (exists q, st_heap (ref_call 2 "self" nullptr None ∅).2 !! 0%nat = Some q /\
             dims q = [1; 2; 2; 2]) /\
  (exists k, st_heap (ref_call 2 "self" nullptr None ∅).2 !! 1%nat = Some k /\
             dims k = [1; 2; 2; 2]) /\
  (exists v, st_heap (ref_call 2 "self" nullptr None ∅).2 !! 2%nat = Some v /\
             dims v = [1; 2; 2; 2]).
Proof.
  destruct (X10_self_mode_leaks (H := ref_kernels) (ref_weights 2)
              ref_key ref_value ref_query ref_mask nullptr
              false false false false (initial_state None ∅)
              (ref_call 2 "self" nullptr None ∅).2 1 2 4)
    as (Hq & Hk & Hv).
  - by left.
  - reflexivity.
  - vm_compute; reflexivity.
  - split; [exact Hq|]. split; [by apply Hk|by apply Hv].
Defined.

Lemma X11_witness :
  exists probs,
    st_att_score
      (ref_call 2 "context" AttScoreArg (Some null_tensor) memory_cache).2
    = Some probs /\
    dims probs = [1; 2; 2; 3].
Proof.
  destruct (X11_context_key_length (H := ref_kernels) (ref_weights 2)
              ref_key ref_value ref_query ref_mask
              false false false false
              (initial_state (Some null_tensor) memory_cache)
              (ref_call 2 "context" AttScoreArg (Some null_tensor)
                 memory_cache).2 1 2 4 3)
    as (probs & K & Hp & Hd & _ & Hhit).
  - reflexivity.
  - reflexivity.
  - vm_compute; reflexivity.
  - exists probs. split; [exact Hp|].
    destruct Hhit as (mk & Hmk & HK); [vm_compute; reflexivity|].
    vm_compute in Hmk. injection Hmk as <-. vm_compute in HK.
    injection HK as <-. exact Hd.
Defined.

Lemma X12_witness :
  exists probs,
    st_att_score
      (ref_call 2 "self" AttScoreArg (Some null_tensor) self_cache).2
    = Some probs /\
    dims probs = [1; 2; 2; 1 + 2].
Proof.
  destruct (X12_self_key_length (H := ref_kernels) (ref_weights 2)
              ref_key ref_value ref_query ref_mask
              false false false false
              (initial_state (Some null_tensor) self_cache)
              (ref_call 2 "self" AttScoreArg (Some null_tensor)
                 self_cache).2 1 2 4)
    as (probs & K & Hp & Hd & _ & Hlive).
  - reflexivity.
  - vm_compute; reflexivity.
  - exists probs. split; [exact Hp|].
    destruct Hlive as (ck & L & Hck & HL & ->); [vm_compute; reflexivity|].
    vm_compute in Hck. injection Hck as <-. vm_compute in HL.
    injection HL as <-. exact Hd.
Defined.

Lemma X13_witness :
  live unpaired_cache "memory_values" = false /\
  live (st_cache (ref_call 2 "context" nullptr None unpaired_cache).2)
       "memory_keys" = true /\
  live (st_cache (ref_call 2 "context" nullptr None unpaired_cache).2)
       "memory_values" = true.
Proof.
  split; [vm_compute; reflexivity|].
  destruct (X13_context_fill_then_hit (H := ref_kernels) (ref_weights 2)
              ref_key ref_value ref_query ref_mask nullptr
              false false false false (initial_state None unpaired_cache)
              (ref_call 2 "context" nullptr None unpaired_cache).2)
    as (Hk & Hv & _).
  - by left.
  - vm_compute. discriminate.
  - vm_compute; reflexivity.
  - by split.
Defined.

Lemma X14_witness :
  st_cache (ref_call 2 "context" nullptr None memory_cache).2 = memory_cache.
Proof.
  apply (X14_cache_hit_is_read_only (H := ref_kernels) (ref_weights 2)
           ref_key ref_value ref_query ref_mask nullptr
           false false false false (initial_state None memory_cache)
           (ref_call 2 "context" nullptr None memory_cache).2
           (ref_call 2 "context" nullptr None memory_cache).1).
  - by left.
  - vm_compute; reflexivity.
  - vm_compute; reflexivity.
  - vm_compute; reflexivity.
Defined.

Lemma X15_witness :
  operator_call (H := ref_kernels) (ref_weights 2)
    ref_key ref_value ref_query ref_mask "context" OutputArg AttScoreArg
    false false false false (initial_state (Some null_tensor) memory_cache)
  = operator_call (H := ref_kernels) (ref_weights 2)
    (tensor_of [7; 5; 9] 1) (tensor_of [7; 1; 1] 2)
    ref_query ref_mask "context" OutputArg AttScoreArg
    false false false false (initial_state (Some null_tensor) memory_cache).
Proof.
  apply (X15_cache_hit_ignores_key_shape (H := ref_kernels));
    vm_compute; reflexivity.
Defined.

Lemma X16_witness :
  let qkv := qkv_projection (H := ref_kernels) (ref_weights 2) ref_query
               false false 1 2 4 2 HostCPU 0 in
  let nk := Copy (subscript qkv 1)
              (Reshape null_tensor [1; 2; 2; 2] HostCPU 0) in
  let nv := Copy (subscript qkv 2)
              (Reshape null_tensor [1; 2; 2; 2] HostCPU 0) in
  st_cache (ref_call 2 "self" nullptr None fresh_self_cache).2
    !! "self_keys"%string = Some nk /\
  st_cache (ref_call 2 "self" nullptr None fresh_self_cache).2
    !! "self_values"%string = Some nv /\
  kv_slot nk 1 2 2 2 /\ kv_slot nv 1 2 2 2.
Proof.
  apply (X16_self_first_step (H := ref_kernels) (ref_weights 2)
           ref_key ref_value ref_query ref_mask nullptr
           false false false false (initial_state None fresh_self_cache)
           (ref_call 2 "self" nullptr None fresh_self_cache).2
           null_tensor null_tensor 1 2 4);
    try (vm_compute; reflexivity); try lia.
  - intros out x b. apply length_iota.
  - by left.
Defined.

Lemma X17_witness :
  exists nk nv,
    st_cache (ref_call 2 "self" nullptr None self_cache).2
      !! "self_keys"%string = Some nk /\
    st_cache (ref_call 2 "self" nullptr None self_cache).2
      !! "self_values"%string = Some nv /\
    kv_slot nk 1 2 (1 + 2) 2 /\ kv_slot nv 1 2 (1 + 2) 2.
Proof.
  apply (X17_self_cache_invariant (H := ref_kernels) (ref_weights 2)
           ref_key ref_value ref_query ref_mask nullptr
           false false false false (initial_state None self_cache)
           (ref_call 2 "self" nullptr None self_cache).2
           (tensor_of [1; 2; 1; 2] 50) (tensor_of [1; 2; 1; 2] 60)
           1 2 1 2 2);
    try (vm_compute; reflexivity).
  - split; [reflexivity|]. split; [reflexivity|].
    split; [by repeat constructor|vm_compute; reflexivity].
  - split; [reflexivity|]. split; [reflexivity|].
    split; [by repeat constructor|vm_compute; reflexivity].
  - lia.
  - intros out x b. apply length_iota.
  - by left.
Defined.

Lemma X18_witness :
  exists nk nv,
    st_cache
      (operator_call (H := ref_kernels) (ref_weights 2)
         ref_key ref_value ref_query ref_mask "self" OutputArg nullptr
         false false false false
         (ref_call 2 "self" nullptr None self_cache).2).2
      !! "self_keys"%string = Some nk /\
    st_cache
      (operator_call (H := ref_kernels) (ref_weights 2)
         ref_key ref_value ref_query ref_mask "self" OutputArg nullptr
         false false false false
         (ref_call 2 "self" nullptr None self_cache).2).2
      !! "self_values"%string = Some nv /\
    kv_slot nk 1 2 (1 + 2 + 2) 2 /\ kv_slot nv 1 2 (1 + 2 + 2) 2.
Proof.
  apply (X18_two_decoding_steps (H := ref_kernels) (ref_weights 2)
           ref_key ref_value ref_query ref_mask
           ref_key ref_value ref_query ref_mask nullptr nullptr
           false false false false false false false false
           (initial_state None self_cache)
           (ref_call 2 "self" nullptr None self_cache).2
           (operator_call (H := ref_kernels) (ref_weights 2)
              ref_key ref_value ref_query ref_mask "self" OutputArg nullptr
              false false false false
              (ref_call 2 "self" nullptr None self_cache).2).2
           (tensor_of [1; 2; 1; 2] 50) (tensor_of [1; 2; 1; 2] 60)
           1 2 1 2 2 2);
    try (vm_compute; reflexivity).
  - split; [reflexivity|]. split; [reflexivity|].
    split; [by repeat constructor|vm_compute; reflexivity].
  - split; [reflexivity|]. split; [reflexivity|].
    split; [by repeat constructor|vm_compute; reflexivity].
  - lia.
  - lia.
  - intros out x b. apply length_iota.
  - by left.
  - by left.
Defined.

Lemma X19_witness :
  is_null (st_output (ref_call 2 "self" nullptr None ∅).2) = false /\
  dims (st_output (ref_call 2 "self" nullptr None ∅).2) = [1; 2; 4] /\
  device_ctx (st_output (ref_call 2 "self" nullptr None ∅).2) = cpu.
Proof.
  apply (X19_output_tensor (H := ref_kernels) (ref_weights 2)
           ref_key ref_value ref_query ref_mask "self" nullptr
           false false false false (initial_state None ∅)).
  - by left.
  - vm_compute; reflexivity.
Defined.

Lemma X20_witness :
  exists d s1 probs v,
    dispatch (H := ref_kernels) (ref_weights 2) ref_key ref_value ref_query
      "context" false false (initial_state (Some null_tensor) memory_cache)
    = (Ok d, s1) /\
    load (d_v_ptr d) s1 = (Ok v, s1) /\
    st_att_score
      (ref_call 2 "context" AttScoreArg (Some null_tensor) memory_cache).2
    = Some probs /\
    st_output
      (ref_call 2 "context" AttScoreArg (Some null_tensor) memory_cache).2
    = attention_output (H := ref_kernels) (ref_weights 2) ref_query probs v
        null_tensor false false false
        (d_batch_size d) (d_query_seq_length d) (d_hidden_size d)
        (d_size_per_head d) HostCPU 0.
Proof.
  apply (X20_output_from_returned_scores (H := ref_kernels) (ref_weights 2)
           ref_key ref_value ref_query ref_mask "context"
           false false false false
           (initial_state (Some null_tensor) memory_cache)).
  vm_compute; reflexivity.
Defined.

Lemma X21_witness :
  foldl scan_entry (mkFlags false false false false)
    [("self_values"%string, tensor_of [1; 2; 1; 2] 60);
     ("memory_values"%string, null_tensor);
     ("memory_keys"%string, tensor_of [1; 2; 3; 2] 50)]
  = mkFlags true false false true.
Proof.
  etrans.
  - apply (X21_flags_order_independent
             (<["self_values"%string := tensor_of [1; 2; 1; 2] 60]>
                unpaired_cache)).
    vm_compute.
    repeat first [reflexivity | apply perm_skip
                 | (etrans; [apply perm_swap|])].
  - vm_compute; reflexivity.
Defined.
